(** * Google Calendar integration plugin: access layer, retry, caches, OAuth

    A shallow embedding of the authenticated Google API access layer of the
    plugin and the properties stated about it:

    - [Retry]   : [withRetry] of [services/base-service.ts];
    - [Api]     : [GoogleCalendarAPI] of [api/google-calendar-api.ts], with
                  [isConfigured] of [providers/GoogleCalendarProvider.ts] and
                  the settings listener of the plugin's main class;
    - [Facade]  : [GoogleCalendarFacade] and [GoogleTasksFacade] of
                  [services/google-calendar-facade.ts] and
                  [services/google-tasks-facade.ts];
    - [OAuth]   : [OAuthServer] of [auth/oauth-server.ts];
    - [Plugin] and [Service] : the token listener of the plugin's main
                  class, and the life cycle of [BaseService] with the
                  facades' calls in sequence;
    - [Errors] and [Validation] : the error classes of
                  [services/errors.ts] and the checks of
                  [services/validation.ts], with the regular expressions
                  they use;
    - [Provider] : the retry, the caches and the mutations of
                  [providers/GoogleCalendarProvider.ts];
    - [CalendarSlice] : the reducers, thunks and selectors of
                  [redux/calendar-slice.ts].

    Asynchronous code is embedded by explicit state passing: an [await]ed
    call is a function from the state of the outside world to a completion
    and the next state.  Numbers that the code only compares and counts are
    [Z]; delays, which the code scales by fractions, are exact rationals
    [Q]. *)

From Stdlib Require Import ZArith QArith Qminmax Lqa String Ascii List Lia.
From stdpp Require Import gmap strings list.
Import ListNotations.

Local Open Scope string_scope.
Local Open Scope Z_scope.

(** ** JavaScript values shared by all modules *)

(** An [Error] instance.  [requestUrl] rejects with an error that carries the
    HTTP [status]; [ServiceError] (base-service.ts) extends [Error] with the
    name of the service and the error it wraps. *)
#[warnings="-register-all"]
Inductive Error : Type :=
| PlainError (message : string) (status : option Z)
| ServiceError (message : string) (serviceName : string)
               (originalError : option Error).

Definition message (e : Error) : string :=
  match e with
  | PlainError m _ => m
  | ServiceError m _ _ => m
  end.

Definition status (e : Error) : option Z :=
  match e with
  | PlainError _ s => s
  | ServiceError _ _ _ => None
  end.

(** [new Error(msg)] *)
Definition newError (msg : string) : Error := PlainError msg None.

(** What a [throw] (or a rejected promise) carries: an [Error] instance, or
    any other value, kept as its [String(value)]. *)
Inductive Thrown : Type :=
| ThrownError (e : Error)
| ThrownValue (str : string).

(** How a call ends. *)
Inductive Completion (A : Type) : Type :=
| Normal (a : A)
| Throw (t : Thrown).
Arguments Normal {A} a.
Arguments Throw {A} t.

(** Whether a call returned rather than threw. *)
Definition succeeded {A : Type} (r : Completion A) : bool :=
  match r with Normal _ => true | Throw _ => false end.

(** [error instanceof Error ? error : new Error(String(error))] *)
Definition toError (t : Thrown) : Error :=
  match t with
  | ThrownError e => e
  | ThrownValue s => newError s
  end.

(** [error instanceof Error ? error : undefined] *)
Definition instanceofError (t : Thrown) : option Error :=
  match t with
  | ThrownError e => Some e
  | ThrownValue _ => None
  end.

(** [error?.status] *)
Definition thrownStatus (t : Thrown) : option Z :=
  match t with
  | ThrownError e => status e
  | ThrownValue _ => None
  end.

(** Truthiness of an optional string ([undefined] and [''] are falsy). *)
Definition truthy (o : option string) : bool :=
  match o with
  | Some s => negb (String.eqb s "")
  | None => false
  end.

(** [a || b] on strings. *)
Definition orDefault (o : option string) (d : string) : string :=
  if truthy o then default d o else d.

(** [String.prototype.toLowerCase] on the ASCII letters. *)
Definition lowerAscii (c : ascii) : ascii :=
  let n := nat_of_ascii c in
  if ((65 <=? n)%nat && (n <=? 90)%nat)%bool then ascii_of_nat (n + 32) else c.

Fixpoint toLowerCase (s : string) : string :=
  match s with
  | EmptyString => EmptyString
  | String c r => String (lowerAscii c) (toLowerCase r)
  end.

(** [hay.includes(needle)] *)
Fixpoint includes (hay needle : string) : bool :=
  (String.prefix needle hay ||
   match hay with
   | EmptyString => false
   | String _ r => includes r needle
   end)%bool.

(** ** services/base-service.ts: [withRetry] *)
Module Retry.

(** [RetryConfig]: every field is optional. *)
Record RetryConfig : Type := {
  maxRetries : option Z;
  initialDelay : option Q;
  backoffMultiplier : option Q;
  maxDelay : option Q;
  useJitter : option bool;
  isRetryable : option (Error -> bool)
}.

(** [Required<RetryConfig>] *)
Record FinalConfig : Type := {
  fMaxRetries : Z;
  fInitialDelay : Q;
  fBackoffMultiplier : Q;
  fMaxDelay : Q;
  fUseJitter : bool;
  fIsRetryable : Error -> bool
}.

Definition defaultIsRetryable (error : Error) : bool :=
  let message := toLowerCase (message error) in
  (includes message "network" ||
   includes message "timeout" ||
   includes message "econnreset" ||
   includes message "enotfound" ||
   includes message "rate limit" ||
   includes message "429" ||
   includes message "500" ||
   includes message "502" ||
   includes message "503" ||
   includes message "504")%bool.

Definition DEFAULT_RETRY_CONFIG : FinalConfig := {|
  fMaxRetries := 3;
  fInitialDelay := 1000;
  fBackoffMultiplier := 2;
  fMaxDelay := 30000;
  fUseJitter := true;
  fIsRetryable := defaultIsRetryable
|}.

(** [{ ...DEFAULT_RETRY_CONFIG, ...config }]: a field the config does not
    carry keeps its default. *)
Definition finalConfig (config : RetryConfig) : FinalConfig := {|
  fMaxRetries := default (fMaxRetries DEFAULT_RETRY_CONFIG) (maxRetries config);
  fInitialDelay := default (fInitialDelay DEFAULT_RETRY_CONFIG) (initialDelay config);
  fBackoffMultiplier :=
    default (fBackoffMultiplier DEFAULT_RETRY_CONFIG) (backoffMultiplier config);
  fMaxDelay := default (fMaxDelay DEFAULT_RETRY_CONFIG) (maxDelay config);
  fUseJitter := default (fUseJitter DEFAULT_RETRY_CONFIG) (useJitter config);
  fIsRetryable := default (fIsRetryable DEFAULT_RETRY_CONFIG) (isRetryable config)
|}.

(** [config: RetryConfig = {}] *)
Definition emptyConfig : RetryConfig := {|
  maxRetries := None; initialDelay := None; backoffMultiplier := None;
  maxDelay := None; useJitter := None; isRetryable := None
|}.

(** What the host runtime offers to [withRetry], over a world [W]:
    [Math.random()] and [await new Promise(r => setTimeout(r, delay))]. *)
Record Runtime (W : Type) : Type := {
  random : W -> Q * W;
  sleep : Q -> W -> W
}.
Arguments random {W} _ _.
Arguments sleep {W} _ _ _.

(** The result of a run of [withRetry], with what an observer of the run
    sees: how often [fn] was invoked, the errors caught (in order) and the
    delays handed to [setTimeout] (in order). *)
Record RetryRun (W T : Type) : Type := {
  outcome : Completion T;
  world : W;
  invocations : nat;
  caught : list Error;
  delays : list Q
}.
Arguments outcome {W T} _.
Arguments world {W T} _.
Arguments invocations {W T} _.
Arguments caught {W T} _.
Arguments delays {W T} _.

Section WithRetry.
Context {W T : Type}.
Variable rt : Runtime W.
Variable fn : W -> Completion T * W.
Variable cfg : FinalConfig.

(** [Math.min(initialDelay * Math.pow(backoffMultiplier, attempt), maxDelay)] *)
Definition baseDelay (attempt : Z) : Q :=
  Qmin (fInitialDelay cfg * (fBackoffMultiplier cfg) ^ attempt) (fMaxDelay cfg).

(** [0.5 + Math.random() * 0.5] *)
Definition jitterFactor (r : Q) : Q := (1 # 2) + r * (1 # 2).

(** [throw lastError], where [lastError] may still be [undefined]. *)
Definition throwLast (lastError : option Error) : Completion T :=
  match lastError with
  | Some e => Throw (ThrownError e)
  | None => Throw (ThrownValue "undefined")
  end.

(** The [while (attempt <= finalConfig.maxRetries)] loop.  [fuel] bounds
    the number of iterations; [retryLoop_fuel] shows that the bound
    [withRetry] passes is never reached while the loop test holds. *)
Fixpoint retryLoop (fuel : nat) (attempt : Z) (lastError : option Error)
    (w : W) (calls : nat) (errs : list Error) (slept : list Q)
    : RetryRun W T :=
  let exit := {| outcome := throwLast lastError; world := w;
                 invocations := calls; caught := errs; delays := slept |} in
  match fuel with
  | O => exit
  | S fuel' =>
    if attempt <=? fMaxRetries cfg then
      match fn w with
      | (Normal v, w1) =>
        {| outcome := Normal v; world := w1; invocations := S calls;
           caught := errs; delays := slept |}
      | (Throw error, w1) =>
        let lastError := toError error in
        if attempt >=? fMaxRetries cfg then
          (* break; throw lastError *)
          {| outcome := Throw (ThrownError lastError); world := w1;
             invocations := S calls; caught := errs ++ [lastError];
             delays := slept |}
        else if negb (fIsRetryable cfg lastError) then
          {| outcome := Throw (ThrownError lastError); world := w1;
             invocations := S calls; caught := errs ++ [lastError];
             delays := slept |}
        else
          let baseDelay := baseDelay attempt in
          let '(delay, w2) :=
            if fUseJitter cfg
            then let '(r, w2) := random rt w1 in
                 (baseDelay * jitterFactor r, w2)%Q
            else (baseDelay, w1) in
          let w3 := sleep rt delay w2 in
          retryLoop fuel' (attempt + 1) (Some lastError) w3
                    (S calls) (errs ++ [lastError]) (slept ++ [delay])
      end
    else exit
  end.
End WithRetry.

(** The delay the specification prescribes before the retry that follows the
    failed attempt [i] (counted from 0), jitter aside:
    [min(initialDelay * multiplier^i, maxDelay)]. *)
Definition specBackoffDelay (cfg : FinalConfig) (i : nat) : Q :=
  Qmin (fInitialDelay cfg * (fBackoffMultiplier cfg) ^ (Z.of_nat i)) (fMaxDelay cfg).

(** [withRetry(fn, config)] *)
Definition withRetry {W T : Type} (rt : Runtime W)
    (fn : W -> Completion T * W) (config : RetryConfig) (w : W)
    : RetryRun W T :=
  let finalConfig := finalConfig config in
  retryLoop rt fn finalConfig (Z.to_nat (fMaxRetries finalConfig + 1))
            0 None w 0%nat [] [].

End Retry.

(** ** api/google-calendar-api.ts: [GoogleCalendarAPI] *)
Module Api.

Record GoogleCalendarCredentials : Type := {
  clientId : string;
  clientSecret : string;
  accessToken : option string;
  refreshToken : option string
}.

Record EventTime : Type := {
  dateTime : option string;
  date : option string;
  timeZone : option string
}.

Record Attendee : Type := {
  email : string;
  displayName : option string;
  responseStatus : option string
}.

Record CalendarEvent : Type := {
  id : option string;
  summary : option string;
  description : option string;
  start : option EventTime;
  end_ : option EventTime;
  location : option string;
  attendees : option (list Attendee);
  recurrence : option (list string);
  status : option string
}.

Record CalendarEvents : Type := {
  items : option (list CalendarEvent);
  nextPageToken : option string
}.

Record TaskItem : Type := {
  taskId : option string;
  title : option string;
  notes : option string;
  taskStatus : option string;
  due : option string;
  completed : option string;
  parent : option string;
  position : option string
}.

Record TaskList : Type := {
  taskItems : option (list TaskItem);
  taskNextPageToken : option string
}.

(** An entry of the answer of [/users/@me/lists]. *)
Record TaskListInfo : Type := {
  listId : option string;
  listTitle : option string
}.

Record CalendarData : Type := {
  events : option CalendarEvents;
  tasks : option TaskList
}.

(** The answer of Google's token endpoint. *)
Record Tokens : Type := {
  access_token : option string;
  refresh_token : option string;
  expiry_date : option Z
}.

(** [response.json], by the shapes the callers read; [JNull] is a body that
    parses to [null], of which no property can be read. *)
Inductive Json : Type :=
| JNull
| JEvents (r : CalendarEvents)
| JTaskLists (lists : option (list TaskListInfo))
| JTasks (r : TaskList)
| JEvent (e : CalendarEvent)
| JTask (t : TaskItem)
| JTokens (t : Tokens)
| JOther.

Inductive Body : Type :=
| EventBody (e : CalendarEvent)
| TaskBody (t : TaskItem)
| FormBody (fields : list (string * string)).

(** The argument of [requestUrl]. *)
Record Request : Type := {
  url : string;
  method : string;
  authorization : option string;
  contentType : string;
  body : option Body
}.

(** The object state of a [GoogleCalendarAPI]: the credentials it mutates in
    place, and the arguments of its calls of [onTokensUpdated] (in order). *)
Record ApiState : Type := {
  credentials : GoogleCalendarCredentials;
  tokensUpdated : list Tokens
}.

(** The network as the API sees it: the remote side [env], and the
    requests handed to [requestUrl] so far (in order). *)
Record Net (E : Type) : Type := {
  env : E;
  sent : list Request
}.
Arguments env {E} _.
Arguments sent {E} _.

Definition CALENDAR_API_BASE : string := "https://www.googleapis.com/calendar/v3".
Definition TASKS_API_BASE : string := "https://www.googleapis.com/tasks/v1".
Definition TOKEN_URL : string := "https://oauth2.googleapis.com/token".

Definition setAccessToken (c : GoogleCalendarCredentials) (t : string)
    : GoogleCalendarCredentials :=
  {| clientId := clientId c; clientSecret := clientSecret c;
     accessToken := Some t; refreshToken := refreshToken c |}.

(** [!this.credentials.clientId || !this.credentials.clientSecret] *)
Definition notConfigured (c : GoogleCalendarCredentials) : bool :=
  (String.eqb (clientId c) "" || String.eqb (clientSecret c) "")%bool.

(** providers/GoogleCalendarProvider.ts, [isConfigured]:
    [!!credentials.clientId && !!credentials.clientSecret] *)
Definition isConfigured (c : GoogleCalendarCredentials) : bool :=
  (negb (String.eqb (clientId c) "") && negb (String.eqb (clientSecret c) ""))%bool.

(** The plugin's settings and the listener it hands to the API as
    [onTokensUpdated] (main class, [initializeGoogleCalendarAPI]). *)
Record Settings : Type := {
  googleAccessToken : string;
  googleRefreshToken : string
}.

Definition onTokensUpdated (tokens : Tokens) (s : Settings) : Settings :=
  let s1 :=
    if truthy (access_token tokens)
    then {| googleAccessToken := default "" (access_token tokens);
            googleRefreshToken := googleRefreshToken s |}
    else s in
  if truthy (refresh_token tokens)
  then {| googleAccessToken := googleAccessToken s1;
          googleRefreshToken := default "" (refresh_token tokens) |}
  else s1.

(** JavaScript [Date]: an instant in ms since the epoch, or Invalid Date. *)
Definition JSDate : Type := option Z.

Definition msPerDay : Z := 86400000.

Section Client.
Context {E : Type}.
(** The remote side: what [requestUrl] answers to a request. *)
Variable server : Request -> E -> Completion Json * E.
(** [new Date(str)]: the instant a string denotes, if any. *)
Variable parseDate : string -> JSDate.
(** The offset of local time from UTC, in ms. *)
Variable tz : Z.
(** [date.toISOString()] as it appears inside a query string. *)
Variable isoParam : Z -> string.

Definition requestUrl (req : Request) (n : Net E) : Completion Json * Net E :=
  let '(r, e) := server req (env n) in
  (r, {| env := e; sent := sent n ++ [req] |}).

Definition apiRequest (url method : string) (token : option string)
    (body : option Body) : Request :=
  {| url := url; method := method;
     authorization := token;
     contentType := "application/json";
     body := body |}.

Definition refreshRequest (c : GoogleCalendarCredentials) : Request :=
  {| url := TOKEN_URL; method := "POST";
     authorization := None;
     contentType := "application/x-www-form-urlencoded";
     body := Some (FormBody [("client_id", clientId c);
                             ("client_secret", clientSecret c);
                             ("refresh_token", default "" (refreshToken c));
                             ("grant_type", "refresh_token")]) |}.

(** [const tokens = response.json] *)
Definition asTokens (j : Json) : Tokens :=
  match j with
  | JTokens t => t
  | _ => {| access_token := None; refresh_token := None; expiry_date := None |}
  end.

(** Reading a property of [null]. *)
Definition typeError : Thrown :=
  ThrownError (newError "Cannot read properties of null").

(** [if (tokens.access_token) {
       this.credentials.accessToken = tokens.access_token;
       this.onTokensUpdated?.(tokens); }] *)
Definition storeTokens (tokens : Tokens) (st : ApiState) : ApiState :=
  if truthy (access_token tokens) then
    {| credentials :=
         setAccessToken (credentials st) (default "" (access_token tokens));
       tokensUpdated := tokensUpdated st ++ [tokens] |}
  else st.

Definition refreshAccessToken (st : ApiState) (n : Net E)
    : Completion unit * ApiState * Net E :=
  if negb (truthy (refreshToken (credentials st))) then
    (Throw (ThrownError (newError "No refresh token available")), st, n)
  else
    match requestUrl (refreshRequest (credentials st)) n with
    | (Normal JNull, n1) =>
      (* [tokens.access_token] throws inside the [try]; rethrown *)
      (Throw typeError, st, n1)
    | (Normal response, n1) =>
      let tokens := asTokens response in
      (Normal tt, storeTokens tokens st, n1)
    | (Throw error, n1) => (Throw error, st, n1)
    end.

Definition makeRequest (url method : string) (body : option Body)
    (st : ApiState) (n : Net E) : Completion Json * ApiState * Net E :=
  if negb (truthy (accessToken (credentials st))) then
    (Throw (ThrownError (newError "No access token available")), st, n)
  else
    match requestUrl
            (apiRequest url method (accessToken (credentials st)) body) n with
    | (Normal response, n1) => (Normal response, st, n1)
    | (Throw error, n1) =>
      if decide (thrownStatus error = Some 401) then
        match refreshAccessToken st n1 with
        | (Normal _, st2, n2) =>
          (* Retry the request with new token *)
          match requestUrl
                  (apiRequest url method (accessToken (credentials st2)) body)
                  n2 with
          | (Normal response, n3) => (Normal response, st2, n3)
          | (Throw error2, n3) => (Throw error2, st2, n3)
          end
        | (Throw refreshError, st2, n2) => (Throw refreshError, st2, n2)
        end
      else (Throw error, st, n1)
    end.

(** *** Dates *)

Definition newDate (s : string) : JSDate := parseDate s.

(** Midnight, local time, of the day of instant [t]. *)
Definition localMidnight (t : Z) : Z := (t + tz) / msPerDay * msPerDay - tz.

(** [d.setHours(h, m, s, ms)] *)
Definition setHours (h m s ms : Z) (d : JSDate) : JSDate :=
  (fun t => localMidnight t + ((h * 60 + m) * 60 + s) * 1000 + ms) <$> d.

(** [d.setDate(d.getDate() - n)] *)
Definition minusDays (n : Z) (d : JSDate) : JSDate :=
  (fun t => t - n * msPerDay) <$> d.

Definition startOfDay (d : JSDate) : JSDate := setHours 0 0 0 0 d.
Definition endOfDay (d : JSDate) : JSDate := setHours 23 59 59 999 d.

(** [a >= b] and [a <= b] on [Date]s; false when either is invalid. *)
Definition dateGe (a b : JSDate) : bool :=
  match a, b with Some x, Some y => y <=? x | _, _ => false end.
Definition dateLe (a b : JSDate) : bool :=
  match a, b with Some x, Some y => x <=? y | _, _ => false end.

(** The filter of both task fetches:
    [if (!task.due) return true;
     const taskDueDate = new Date(task.due);
     return taskDueDate >= lo && taskDueDate <= hi;] *)
Definition dueWithin (lo hi : JSDate) (task : TaskItem) : bool :=
  if negb (truthy (due task)) then true
  else
    let taskDueDate := newDate (default "" (due task)) in
    (dateGe taskDueDate lo && dateLe taskDueDate hi)%bool.

(** *** Fetch operations *)

Definition eventsUrl (timeMin timeMax : Z) : string :=
  CALENDAR_API_BASE ++ "/calendars/primary/events?timeMin=" ++ isoParam timeMin
    ++ "&timeMax=" ++ isoParam timeMax ++ "&singleEvents=true&orderBy=startTime".

Definition taskListsUrl : string := TASKS_API_BASE ++ "/users/@me/lists".

Definition tasksUrl (listId : string) : string :=
  TASKS_API_BASE ++ "/lists/" ++ listId ++ "/tasks?showCompleted=false&maxResults=100".

Definition defaultTasksUrl : string :=
  TASKS_API_BASE ++ "/lists/@default/tasks?maxResults=100".

Definition notConfiguredError : Thrown :=
  ThrownError (newError "Google Calendar API credentials not configured").

(** [try { ... } catch (error) { console.error(...); return null; }], for
    a body that returns a value or [null]. *)
Definition orNull {A : Type} (r : Completion (option A) * ApiState * Net E)
    : Completion (option A) * ApiState * Net E :=
  match r with
  | (Normal a, st, n) => (Normal a, st, n)
  | (Throw _, st, n) => (Normal None, st, n)
  end.

(** [return await this.makeRequest(url)] read as [CalendarEvents | null] *)
Definition asCalendarEvents (j : Json) : option CalendarEvents :=
  match j with
  | JNull => None
  | JEvents r => Some r
  | _ => Some {| items := None; nextPageToken := None |}
  end.

Definition asTaskList (j : Json) : option TaskList :=
  match j with
  | JNull => None
  | JTasks r => Some r
  | _ => Some {| taskItems := None; taskNextPageToken := None |}
  end.

(** The [try] body of [getEventsForDate] and [getEventsForDateRange], the
    two bounds computed: [toISOString] throws a [RangeError] on an invalid
    date. *)
Definition requestEvents (lo hi : JSDate) (st : ApiState) (n : Net E)
    : Completion (option CalendarEvents) * ApiState * Net E :=
  if notConfigured (credentials st) then (Throw notConfiguredError, st, n)
  else
    match lo, hi with
    | Some timeMin, Some timeMax =>
      match makeRequest (eventsUrl timeMin timeMax) "GET" None st n with
      | (Normal j, st1, n1) => (Normal (asCalendarEvents j), st1, n1)
      | (Throw error, st1, n1) => (Throw error, st1, n1)
      end
    | _, _ => (Throw (ThrownError (newError "Invalid time value")), st, n)
    end.

Definition getEventsForDate (date : string) (st : ApiState) (n : Net E)
    : Completion (option CalendarEvents) * ApiState * Net E :=
  let startOfDay := startOfDay (newDate date) in
  let endOfDay := endOfDay (newDate date) in
  orNull (requestEvents startOfDay endOfDay st n).

Definition getEventsForDateRange (startDate endDate : string)
    (st : ApiState) (n : Net E)
    : Completion (option CalendarEvents) * ApiState * Net E :=
  let start := startOfDay (newDate startDate) in
  let end_ := endOfDay (newDate endDate) in
  orNull (requestEvents start end_ st n).

(** [taskListsResponse.items || []] *)
Definition listsOf (j : Json) : list TaskListInfo :=
  match j with
  | JTaskLists (Some l) => l
  | _ => []
  end.

(** [response.items || []] *)
Definition tasksOf (j : Json) : list TaskItem :=
  match j with
  | JTasks r => default [] (taskItems r)
  | _ => []
  end.

(** The body of [taskLists.map(async (taskList) => ...)], for one list: a
    failed request, and a body of which [items] cannot be read, count as
    no tasks from that list. *)
Definition tasksOfList (keep : TaskItem -> bool) (taskList : TaskListInfo)
    (st : ApiState) (n : Net E) : list TaskItem * ApiState * Net E :=
  if negb (truthy (listId taskList)) then ([], st, n)
  else
    match makeRequest (tasksUrl (default "" (listId taskList))) "GET" None st n with
    | (Normal response, st1, n1) =>
      let tasks := tasksOf response in
      let filteredTasks := List.filter keep tasks in
      (filteredTasks, st1, n1)
    | (Throw _, st1, n1) => ([], st1, n1)
    end.

(** [(await Promise.all(taskPromises)).flat()], the lists taken in order. *)
Fixpoint tasksOfLists (keep : TaskItem -> bool) (taskLists : list TaskListInfo)
    (st : ApiState) (n : Net E) : list TaskItem * ApiState * Net E :=
  match taskLists with
  | [] => ([], st, n)
  | taskList :: rest =>
    let '(ts, st1, n1) := tasksOfList keep taskList st n in
    let '(more, st2, n2) := tasksOfLists keep rest st1 n1 in
    ((ts ++ more)%list, st2, n2)
  end.

(** The [try] body that [getTasksForDate] and [getTasksForDateRange] share;
    they differ in the filter [keep] only. *)
Definition requestTasks (keep : TaskItem -> bool) (st : ApiState) (n : Net E)
    : Completion (option TaskList) * ApiState * Net E :=
  if notConfigured (credentials st) then (Throw notConfiguredError, st, n)
  else
    match makeRequest taskListsUrl "GET" None st n with
    | (Normal JNull, st1, n1) =>
      (* [taskListsResponse.items] throws *)
      (Throw typeError, st1, n1)
    | (Normal taskListsResponse, st1, n1) =>
      let taskLists := listsOf taskListsResponse in
      let '(allTasks, st2, n2) := tasksOfLists keep taskLists st1 n1 in
      (Normal (Some {| taskItems := Some allTasks; taskNextPageToken := None |}),
       st2, n2)
    | (Throw error, st1, n1) => (Throw error, st1, n1)
    end.

Definition getTasksForDate (date : string) (st : ApiState) (n : Net E)
    : Completion (option TaskList) * ApiState * Net E :=
  let targetDate := endOfDay (newDate date) in
  let oneYearAgo := minusDays 365 targetDate in
  orNull (requestTasks (dueWithin oneYearAgo targetDate) st n).

Definition getTasksForDateRange (startDate endDate : string)
    (st : ApiState) (n : Net E)
    : Completion (option TaskList) * ApiState * Net E :=
  let endDateTime := endOfDay (newDate endDate) in
  let startDateTime := startOfDay (newDate startDate) in
  orNull (requestTasks (dueWithin startDateTime endDateTime) st n).

(** The tasks a fetch resolves with ([[]] when it resolves with [null]). *)
Definition resultTasks (r : Completion (option TaskList) * ApiState * Net E)
    : list TaskItem :=
  match r with
  | (Normal (Some l), _, _) => default [] (taskItems l)
  | _ => []
  end.

(** Every task the task lists answer with, before any date filter. *)
Definition fetchedTasks (st : ApiState) (n : Net E) : list TaskItem :=
  resultTasks (orNull (requestTasks (fun _ => true) st n)).

Definition getTasks (st : ApiState) (n : Net E)
    : Completion (option TaskList) * ApiState * Net E :=
  orNull
    (if notConfigured (credentials st) then (Throw notConfiguredError, st, n)
     else
       match makeRequest defaultTasksUrl "GET" None st n with
       | (Normal j, st1, n1) => (Normal (asTaskList j), st1, n1)
       | (Throw error, st1, n1) => (Throw error, st1, n1)
       end).

(** [Promise.all] of the two fetches, neither of which rejects; the
    events request is taken first. *)
Definition pairUp (ev : Completion (option CalendarEvents))
    (ts : Completion (option TaskList)) : Completion (option CalendarData) :=
  match ev, ts with
  | Normal events, Normal tasks =>
    Normal (Some {| events := events; tasks := tasks |})
  | Throw error, _ => Throw error
  | _, Throw error => Throw error
  end.

Definition getEventsAndTasksForDate (date : string) (st : ApiState) (n : Net E)
    : Completion (option CalendarData) * ApiState * Net E :=
  let '(ev, st1, n1) := getEventsForDate date st n in
  let '(ts, st2, n2) := getTasksForDate date st1 n1 in
  orNull (pairUp ev ts, st2, n2).

Definition getEventsAndTasksForDateRange (startDate endDate : string)
    (st : ApiState) (n : Net E)
    : Completion (option CalendarData) * ApiState * Net E :=
  let '(ev, st1, n1) := getEventsForDateRange startDate endDate st n in
  let '(ts, st2, n2) := getTasksForDateRange startDate endDate st1 n1 in
  orNull (pairUp ev ts, st2, n2).

(** *** Create, update, delete: the error is rethrown *)

Definition mutate (url method : string) (body : option Body)
    (st : ApiState) (n : Net E) : Completion Json * ApiState * Net E :=
  if notConfigured (credentials st) then (Throw notConfiguredError, st, n)
  else makeRequest url method body st n.

Definition createEvent (event : CalendarEvent) (calendarId : string) :=
  mutate (CALENDAR_API_BASE ++ "/calendars/" ++ calendarId ++ "/events")
         "POST" (Some (EventBody event)).

Definition updateEvent (eventId : string) (event : CalendarEvent)
    (calendarId : string) :=
  mutate (CALENDAR_API_BASE ++ "/calendars/" ++ calendarId ++ "/events/" ++ eventId)
         "PUT" (Some (EventBody event)).

Definition deleteEvent (eventId calendarId : string) :=
  mutate (CALENDAR_API_BASE ++ "/calendars/" ++ calendarId ++ "/events/" ++ eventId)
         "DELETE" None.

Definition createTask (task : TaskItem) (taskListId : string) :=
  mutate (TASKS_API_BASE ++ "/lists/" ++ taskListId ++ "/tasks")
         "POST" (Some (TaskBody task)).

Definition updateTask (taskId : string) (task : TaskItem) (taskListId : string) :=
  mutate (TASKS_API_BASE ++ "/lists/" ++ taskListId ++ "/tasks/" ++ taskId)
         "PUT" (Some (TaskBody task)).

Definition deleteTask (taskId taskListId : string) :=
  mutate (TASKS_API_BASE ++ "/lists/" ++ taskListId ++ "/tasks/" ++ taskId)
         "DELETE" None.

(** *** The statements of the specification, on these definitions *)

(** "If the response status is 401, triggers exactly one token refresh and
    retries the same request once with the new token": the requests of a
    [makeRequest] that meets a 401 are the request, one refresh, and the
    request again with the access token then current. *)
Definition refreshesAndResendsOn401 (url method : string) (body : option Body)
    (st : ApiState) (n : Net E) : Prop :=
  truthy (accessToken (credentials st)) = true ->
  forall error e1,
    server (apiRequest url method (accessToken (credentials st)) body) (env n)
      = (Throw error, e1) ->
    thrownStatus error = Some 401 ->
    let '(_, st', n') := makeRequest url method body st n in
    sent n' =
      (sent n ++ [apiRequest url method (accessToken (credentials st)) body;
                  refreshRequest (credentials st);
                  apiRequest url method (accessToken (credentials st')) body])%list.



(** A call that rejects with the error of a missing access token. *)
Definition failsWithNoAccessToken {A : Type} (r : Completion A * ApiState * Net E)
    : Prop :=
  exists e, r.1.1 = Throw (ThrownError e) /\
            message e = "No access token available".

(** "Client id/secret set, no access token: [isConfigured()] true but any
    fetch call fails with a NoAccessToken-class error". *)
Definition fetchesFailWithoutToken (st : ApiState) (n : Net E) : Prop :=
  isConfigured (credentials st) = true /\
  forall date startDate endDate,
    failsWithNoAccessToken (getEventsForDate date st n) /\
    failsWithNoAccessToken (getTasksForDate date st n) /\
    failsWithNoAccessToken (getEventsForDateRange startDate endDate st n) /\
    failsWithNoAccessToken (getTasksForDateRange startDate endDate st n) /\
    failsWithNoAccessToken (getTasks st n) /\
    failsWithNoAccessToken (getEventsAndTasksForDate date st n) /\
    failsWithNoAccessToken (getEventsAndTasksForDateRange startDate endDate st n).

(** "On success, replaces the in-memory access token (and, if Google
    rotates it, the refresh token)"; "the refresh token is never cleared by
    a failed refresh". *)
Definition refreshReplacesTokens (st : ApiState) (n : Net E) : Prop :=
  let '(r, st', _) := refreshAccessToken st n in
  match r with
  | Normal _ =>
    forall tokens e1,
      server (refreshRequest (credentials st)) (env n)
        = (Normal (JTokens tokens), e1) ->
      (truthy (access_token tokens) = true ->
       accessToken (credentials st') = access_token tokens) /\
      (truthy (refresh_token tokens) = true ->
       refreshToken (credentials st') = refresh_token tokens)
  | Throw _ => refreshToken (credentials st') = refreshToken (credentials st)
  end.
End Client.

End Api.

(** ** services/google-calendar-facade.ts and services/google-tasks-facade.ts *)
Module Facade.
Import Retry.

(** The normalized event of the calendar facade. *)
Record CalendarEvent : Type := {
  id : string;
  summary : string;
  description : option string;
  start : Api.EventTime;
  end_ : Api.EventTime;
  location : option string;
  attendees : option (list Api.Attendee);
  recurrence : option (list string);
  status : option string
}.

Record FetchEventsOptions : Type := {
  startDate : string;
  endDate : string;
  maxResults : option Z;
  calendarId : option string
}.

(** The normalized task of the tasks facade ([links] is passed through
    untouched and left out). *)
Record Task : Type := {
  taskId : string;
  title : string;
  notes : option string;
  taskStatus : string;
  due : option string;
  completed : option string;
  parent : option string;
  position : option string
}.

Record FetchTasksOptions : Type := {
  tStartDate : option string;
  tEndDate : option string;
  showCompleted : option bool;
  tMaxResults : option Z;
  taskListId : option string
}.

(** The methods of [GoogleCalendarAPI] the facades call, over the outside
    world [E].  The facades receive the API as a constructor argument; its
    create and update calls answer with the parsed response body, which may
    be absent. *)
Module API.
Record GoogleCalendarAPI (E : Type) : Type := {
  getEventsAndTasksForDateRange :
    string -> string -> E -> Completion (option Api.CalendarData) * E;
  getEventsAndTasksForDate :
    string -> E -> Completion (option Api.CalendarData) * E;
  createEvent :
    Api.CalendarEvent -> string -> E -> Completion (option Api.CalendarEvent) * E;
  updateEvent :
    string -> Api.CalendarEvent -> string -> E
    -> Completion (option Api.CalendarEvent) * E;
  deleteEvent : string -> string -> E -> Completion unit * E;
  createTask :
    Api.TaskItem -> string -> E -> Completion (option Api.TaskItem) * E;
  updateTask :
    string -> Api.TaskItem -> string -> E -> Completion (option Api.TaskItem) * E;
  deleteTask : string -> string -> E -> Completion unit * E
}.
Arguments getEventsAndTasksForDateRange {E} _ _ _ _.
Arguments getEventsAndTasksForDate {E} _ _ _.
Arguments createEvent {E} _ _ _ _.
Arguments updateEvent {E} _ _ _ _ _.
Arguments deleteEvent {E} _ _ _ _.
Arguments createTask {E} _ _ _ _.
Arguments updateTask {E} _ _ _ _ _.
Arguments deleteTask {E} _ _ _ _.
End API.
Abbreviation GoogleCalendarAPI := API.GoogleCalendarAPI.

(** A call of an API method, as an observer of the API records it. *)
Inductive ApiCall : Type :=
| CallGetEventsAndTasksForDateRange (startDate endDate : string)
| CallGetEventsAndTasksForDate (date : string)
| CallCreateEvent (event : Api.CalendarEvent) (calendarId : string)
| CallUpdateEvent (eventId : string) (event : Api.CalendarEvent) (calendarId : string)
| CallDeleteEvent (eventId calendarId : string)
| CallCreateTask (task : Api.TaskItem) (taskListId : string)
| CallUpdateTask (taskId : string) (task : Api.TaskItem) (taskListId : string)
| CallDeleteTask (taskId taskListId : string).

(** The outside world of a facade, with the API calls made so far. *)
Record World (E : Type) : Type := {
  env : E;
  apiCalls : list ApiCall
}.
Arguments env {E} _.
Arguments apiCalls {E} _.

(** The host: the runtime of [withRetry], [Date.now()] and
    [new Date().toISOString()]. *)
Record Host (E : Type) : Type := {
  runtime : Runtime E;
  clock : E -> Z;
  isoNow : E -> string
}.
Arguments runtime {E} _.
Arguments clock {E} _ _.
Arguments isoNow {E} _ _.

Record CacheEntry (D : Type) : Type := {
  data : D;
  timestamp : Z
}.
Arguments data {D} _.
Arguments timestamp {D} _.

(** The fields of a facade object ([BaseService] and the facade class). *)
Record FacadeState (D : Type) : Type := {
  _isReady : bool;
  cache : gmap string (CacheEntry D);
  retryConfig : RetryConfig
}.
Arguments _isReady {D} _.
Arguments cache {D} _.
Arguments retryConfig {D} _.

Definition CACHE_TTL : Z := 60000.

(** [retryConfig || { maxRetries: 3, initialDelay: 1000, ... }] *)
Definition defaultRetryConfig : RetryConfig := {|
  maxRetries := Some 3;
  initialDelay := Some 1000%Q;
  backoffMultiplier := Some 2%Q;
  maxDelay := Some 30000%Q;
  useJitter := Some true;
  isRetryable := None
|}.

(** The constructor. *)
Definition newFacade {D : Type} (retryConfig : option RetryConfig)
    : FacadeState D :=
  {| _isReady := false; cache := ∅;
     retryConfig := default defaultRetryConfig retryConfig |}.

Section Cache.
Context {D : Type}.

Definition withCache (f : FacadeState D) (c : gmap string (CacheEntry D))
    : FacadeState D :=
  {| _isReady := _isReady f; cache := c; retryConfig := retryConfig f |}.

(** [ensureReady]: [initialize] sets [_isReady]; [onInitialize] throws only
    for a missing API, which the constructor's type excludes. *)
Definition ensureReady (f : FacadeState D) : FacadeState D :=
  if _isReady f then f
  else {| _isReady := true; cache := cache f; retryConfig := retryConfig f |}.

(** [getFromCache(key)], reading [Date.now()] as [now]: the cached data or
    [null], and the cache afterwards. *)
Definition getFromCache (key : string) (now : Z)
    (c : gmap string (CacheEntry D)) : option D * gmap string (CacheEntry D) :=
  match c !! key with
  | None => (None, c)
  | Some cached =>
    let isExpired := now - timestamp cached >? CACHE_TTL in
    if isExpired then (None, delete key c)
    else (Some (data cached), c)
  end.

(** [setCache(key, data)] *)
Definition setCache (key : string) (d : D) (now : Z)
    (c : gmap string (CacheEntry D)) : gmap string (CacheEntry D) :=
  <[key := {| data := d; timestamp := now |}]> c.

(** [clearCache()] *)
Definition clearCache (f : FacadeState D) : FacadeState D := withCache f ∅.
End Cache.

Section Shared.
Context {E : Type}.
Variable host : Host E.

(** [Math.random] and [setTimeout] act on the outside world only. *)
Definition worldRuntime : Runtime (World E) := {|
  random := fun w =>
    let '(r, e) := random (runtime host) (env w) in
    (r, {| env := e; apiCalls := apiCalls w |});
  sleep := fun d w =>
    {| env := sleep (runtime host) d (env w); apiCalls := apiCalls w |}
|}.

(** An API method call that the observer records. *)
Definition call {A : Type} (c : ApiCall) (m : E -> Completion A * E)
    (w : World E) : Completion A * World E :=
  let '(r, e) := m (env w) in
  (r, {| env := e; apiCalls := apiCalls w ++ [c] |}).

Definition now (w : World E) : Z := clock host (env w).

Definition serviceError {A : Type} (msg service : string) (error : Thrown)
    : Completion A :=
  Throw (ThrownError (ServiceError msg service (instanceofError error))).

(** [this.transformEvent(createdEvent)]: reading a property of an absent
    response body throws a [TypeError]. *)
Definition transformResponse {A B : Type} (f : A -> B) (r : option A)
    : Completion B :=
  match r with
  | Some a => Normal (f a)
  | None =>
    Throw (ThrownError (newError "Cannot read properties of undefined"))
  end.
End Shared.

(** *** GoogleCalendarFacade *)
Module GoogleCalendarFacade.
Section Methods.
Context {E : Type}.
Variable host : Host E.
Variable api : GoogleCalendarAPI E.

Definition getCacheKey (options : FetchEventsOptions) : string :=
  startDate options ++ "-" ++ endDate options ++ "-"
    ++ orDefault (calendarId options) "primary".

Definition transformEvent (event : Api.CalendarEvent) : CalendarEvent :=
  let none := {| Api.dateTime := None; Api.date := None; Api.timeZone := None |} in
  {| id := orDefault (Api.id event) "";
     summary := orDefault (Api.summary event) "Untitled";
     description := Api.description event;
     start := default none (Api.start event);
     end_ := default none (Api.end_ event);
     location := Api.location event;
     attendees := Api.attendees event;
     recurrence := Api.recurrence event;
     status := Api.status event |}.

Definition transformEvents (events : list Api.CalendarEvent) : list CalendarEvent :=
  map transformEvent events.

(** [result?.events?.items || []] *)
Definition eventItems (result : option Api.CalendarData) : list Api.CalendarEvent :=
  match result with
  | Some r =>
    match Api.events r with
    | Some evs => default [] (Api.items evs)
    | None => []
    end
  | None => []
  end.

Definition fetchEvents (options : FetchEventsOptions)
    (f : FacadeState (list CalendarEvent)) (w : World E)
    : Completion (list CalendarEvent) * FacadeState (list CalendarEvent) * World E :=
  let f := ensureReady f in
  let cacheKey := getCacheKey options in
  let '(cached, c) := getFromCache cacheKey (now host w) (cache f) in
  let f := withCache f c in
  match cached with
  | Some d => (Normal d, f, w)
  | None =>
    let run :=
      withRetry (worldRuntime host)
        (call (CallGetEventsAndTasksForDateRange (startDate options) (endDate options))
              (API.getEventsAndTasksForDateRange api (startDate options) (endDate options)))
        (retryConfig f) w in
    match outcome run with
    | Normal result =>
      let events := transformEvents (eventItems result) in
      (Normal events,
       withCache f (setCache cacheKey events (now host (world run)) (cache f)),
       world run)
    | Throw error =>
      (serviceError "Failed to fetch events" "GoogleCalendarFacade" error,
       f, world run)
    end
  end.

Definition fetchEventsForDate (date : string) :=
  fetchEvents {| startDate := date; endDate := date;
                 maxResults := None; calendarId := None |}.

(** [createEvent(event: Partial<CalendarEvent>, calendarId)]: a partial
    event has every field optional, as [Api.CalendarEvent] has. *)
Definition createEvent (event : Api.CalendarEvent) (calendarId : string)
    (f : FacadeState (list CalendarEvent)) (w : World E)
    : Completion CalendarEvent * FacadeState (list CalendarEvent) * World E :=
  let f := ensureReady f in
  let apiEvent :=
    {| Api.id := None; Api.summary := Api.summary event;
       Api.description := Api.description event;
       Api.start := Api.start event; Api.end_ := Api.end_ event;
       Api.location := Api.location event;
       Api.attendees := Api.attendees event;
       Api.recurrence := Api.recurrence event; Api.status := None |} in
  let run :=
    withRetry (worldRuntime host)
      (call (CallCreateEvent apiEvent calendarId)
            (API.createEvent api apiEvent calendarId))
      (retryConfig f) w in
  match outcome run with
  | Normal createdEvent =>
    (* Clear cache since we created a new event *)
    let f := clearCache f in
    match transformResponse transformEvent createdEvent with
    | Normal e => (Normal e, f, world run)
    | Throw error =>
      (serviceError "Failed to create event" "GoogleCalendarFacade" error,
       f, world run)
    end
  | Throw error =>
    (serviceError "Failed to create event" "GoogleCalendarFacade" error,
     f, world run)
  end.

Definition updateEvent (eventId : string) (updates : Api.CalendarEvent)
    (calendarId : string) (f : FacadeState (list CalendarEvent)) (w : World E)
    : Completion CalendarEvent * FacadeState (list CalendarEvent) * World E :=
  let f := ensureReady f in
  let apiEvent :=
    {| Api.id := None; Api.summary := Api.summary updates;
       Api.description := Api.description updates;
       Api.start := Api.start updates; Api.end_ := Api.end_ updates;
       Api.location := Api.location updates;
       Api.attendees := Api.attendees updates;
       Api.recurrence := Api.recurrence updates;
       Api.status := Api.status updates |} in
  let run :=
    withRetry (worldRuntime host)
      (call (CallUpdateEvent eventId apiEvent calendarId)
            (API.updateEvent api eventId apiEvent calendarId))
      (retryConfig f) w in
  match outcome run with
  | Normal updatedEvent =>
    let f := clearCache f in
    match transformResponse transformEvent updatedEvent with
    | Normal e => (Normal e, f, world run)
    | Throw error =>
      (serviceError "Failed to update event" "GoogleCalendarFacade" error,
       f, world run)
    end
  | Throw error =>
    (serviceError "Failed to update event" "GoogleCalendarFacade" error,
     f, world run)
  end.

Definition deleteEvent (eventId calendarId : string)
    (f : FacadeState (list CalendarEvent)) (w : World E)
    : Completion unit * FacadeState (list CalendarEvent) * World E :=
  let f := ensureReady f in
  let run :=
    withRetry (worldRuntime host)
      (call (CallDeleteEvent eventId calendarId)
            (API.deleteEvent api eventId calendarId))
      (retryConfig f) w in
  match outcome run with
  | Normal _ => (Normal tt, clearCache f, world run)
  | Throw error =>
    (serviceError "Failed to delete event" "GoogleCalendarFacade" error,
     f, world run)
  end.
End Methods.
End GoogleCalendarFacade.

(** *** GoogleTasksFacade *)
Module GoogleTasksFacade.
Section Methods.
Context {E : Type}.
Variable host : Host E.
Variable api : GoogleCalendarAPI E.

Definition getCacheKey (options : FetchTasksOptions) : string :=
  orDefault (tStartDate options) "all" ++ "-"
    ++ orDefault (tEndDate options) "all" ++ "-"
    ++ orDefault (taskListId options) "default".

Definition transformTask (task : Api.TaskItem) : Task :=
  {| taskId := orDefault (Api.taskId task) "";
     title := orDefault (Api.title task) "Untitled";
     notes := Api.notes task;
     taskStatus := orDefault (Api.taskStatus task) "needsAction";
     due := Api.due task;
     completed := Api.completed task;
     parent := Api.parent task;
     position := Api.position task |}.

Definition transformTasks (tasks : list Api.TaskItem) : list Task :=
  map transformTask tasks.

(** [result?.tasks?.items || []] *)
Definition taskItems (result : option Api.CalendarData) : list Api.TaskItem :=
  match result with
  | Some r =>
    match Api.tasks r with
    | Some ts => default [] (Api.taskItems ts)
    | None => []
    end
  | None => []
  end.

Definition fetchTasks (options : FetchTasksOptions)
    (f : FacadeState (list Task)) (w : World E)
    : Completion (list Task) * FacadeState (list Task) * World E :=
  let f := ensureReady f in
  let cacheKey := getCacheKey options in
  let '(cached, c) := getFromCache cacheKey (now host w) (cache f) in
  let f := withCache f c in
  match cached with
  | Some d => (Normal d, f, w)
  | None =>
    if (truthy (tStartDate options) && truthy (tEndDate options))%bool then
      let startDate := default "" (tStartDate options) in
      let endDate := default "" (tEndDate options) in
      let run :=
        withRetry (worldRuntime host)
          (call (CallGetEventsAndTasksForDateRange startDate endDate)
                (API.getEventsAndTasksForDateRange api startDate endDate))
          (retryConfig f) w in
      match outcome run with
      | Normal result =>
        let tasks := transformTasks (taskItems result) in
        (Normal tasks,
         withCache f (setCache cacheKey tasks (now host (world run)) (cache f)),
         world run)
      | Throw error =>
        (serviceError "Failed to fetch tasks" "GoogleTasksFacade" error,
         f, world run)
      end
    else if truthy (tStartDate options) then
      let startDate := default "" (tStartDate options) in
      let run :=
        withRetry (worldRuntime host)
          (call (CallGetEventsAndTasksForDate startDate)
                (API.getEventsAndTasksForDate api startDate))
          (retryConfig f) w in
      match outcome run with
      | Normal result =>
        let tasks := transformTasks (taskItems result) in
        (Normal tasks,
         withCache f (setCache cacheKey tasks (now host (world run)) (cache f)),
         world run)
      | Throw error =>
        (serviceError "Failed to fetch tasks" "GoogleTasksFacade" error,
         f, world run)
      end
    else
      (* Fetch all tasks (no date filter): TODO in the source *)
      let tasks := [] in
      (Normal tasks,
       withCache f (setCache cacheKey tasks (now host w) (cache f)), w)
  end.

Definition fetchTasksForDate (date : string) :=
  fetchTasks {| tStartDate := Some date; tEndDate := Some date;
                showCompleted := None; tMaxResults := None;
                taskListId := None |}.

Definition createTask (task : Api.TaskItem) (taskListId : string)
    (f : FacadeState (list Task)) (w : World E)
    : Completion Task * FacadeState (list Task) * World E :=
  let f := ensureReady f in
  let apiTask :=
    {| Api.taskId := None; Api.title := Api.title task;
       Api.notes := Api.notes task; Api.taskStatus := Api.taskStatus task;
       Api.due := Api.due task; Api.completed := None;
       Api.parent := None; Api.position := None |} in
  let run :=
    withRetry (worldRuntime host)
      (call (CallCreateTask apiTask taskListId)
            (API.createTask api apiTask taskListId))
      (retryConfig f) w in
  match outcome run with
  | Normal createdTask =>
    (* Clear cache since we created a new task *)
    let f := clearCache f in
    match transformResponse transformTask createdTask with
    | Normal t => (Normal t, f, world run)
    | Throw error =>
      (serviceError "Failed to create task" "GoogleTasksFacade" error,
       f, world run)
    end
  | Throw error =>
    (serviceError "Failed to create task" "GoogleTasksFacade" error,
     f, world run)
  end.

Definition updateTask (taskId : string) (updates : Api.TaskItem)
    (taskListId : string) (f : FacadeState (list Task)) (w : World E)
    : Completion Task * FacadeState (list Task) * World E :=
  let f := ensureReady f in
  let apiTask :=
    {| Api.taskId := None; Api.title := Api.title updates;
       Api.notes := Api.notes updates; Api.taskStatus := Api.taskStatus updates;
       Api.due := Api.due updates; Api.completed := Api.completed updates;
       Api.parent := None; Api.position := None |} in
  let run :=
    withRetry (worldRuntime host)
      (call (CallUpdateTask taskId apiTask taskListId)
            (API.updateTask api taskId apiTask taskListId))
      (retryConfig f) w in
  match outcome run with
  | Normal updatedTask =>
    let f := clearCache f in
    match transformResponse transformTask updatedTask with
    | Normal t => (Normal t, f, world run)
    | Throw error =>
      (serviceError "Failed to update task" "GoogleTasksFacade" error,
       f, world run)
    end
  | Throw error =>
    (serviceError "Failed to update task" "GoogleTasksFacade" error,
     f, world run)
  end.

Definition deleteTask (taskId taskListId : string)
    (f : FacadeState (list Task)) (w : World E)
    : Completion unit * FacadeState (list Task) * World E :=
  let f := ensureReady f in
  let run :=
    withRetry (worldRuntime host)
      (call (CallDeleteTask taskId taskListId)
            (API.deleteTask api taskId taskListId))
      (retryConfig f) w in
  match outcome run with
  | Normal _ => (Normal tt, clearCache f, world run)
  | Throw error =>
    (serviceError "Failed to delete task" "GoogleTasksFacade" error,
     f, world run)
  end.

Definition completeTask (taskId : string)
    (f : FacadeState (list Task)) (w : World E) :=
  updateTask taskId
    {| Api.taskId := None; Api.title := None; Api.notes := None;
       Api.taskStatus := Some "completed"; Api.due := None;
       Api.completed := Some (isoNow host (env w));
       Api.parent := None; Api.position := None |}
    "@default" f w.
End Methods.
End GoogleTasksFacade.

(** The state a mutation may leave behind [f]: the same retry config, the
    cache emptied if the mutation succeeded, and nothing else than the
    facade made ready, with or without its cache. *)
Definition afterMutation {D : Type} (r : Completion unit)
    (f f' : FacadeState D) : Prop :=
  retryConfig f' = retryConfig f /\
  (succeeded r = true -> cache f' = ∅) /\
  (f' = ensureReady f \/ f' = clearCache (ensureReady f)).

(** *** The mutations of the two facades, by name *)

Inductive EventMutation : Type :=
| CreateEvent (event : Api.CalendarEvent) (calendarId : string)
| UpdateEvent (eventId : string) (updates : Api.CalendarEvent) (calendarId : string)
| DeleteEvent (eventId calendarId : string).

Inductive TaskMutation : Type :=
| CreateTask (task : Api.TaskItem) (taskListId : string)
| UpdateTask (taskId : string) (updates : Api.TaskItem) (taskListId : string)
| CompleteTask (taskId : string)
| DeleteTask (taskId taskListId : string).

Definition forget {A F X : Type} (r : Completion A * F * X) : Completion unit * F * X :=
  let '(c, f, x) := r in
  (match c with Normal _ => Normal tt | Throw t => Throw t end, f, x).

Section Mutations.
Context {E : Type}.
Variable host : Host E.
Variable api : GoogleCalendarAPI E.

(** The facade method a mutation names, its result value dropped. *)
Definition applyEventMutation (m : EventMutation)
    (f : FacadeState (list CalendarEvent)) (w : World E)
    : Completion unit * FacadeState (list CalendarEvent) * World E :=
  match m with
  | CreateEvent event calendarId =>
    forget (GoogleCalendarFacade.createEvent host api event calendarId f w)
  | UpdateEvent eventId updates calendarId =>
    forget (GoogleCalendarFacade.updateEvent host api eventId updates calendarId f w)
  | DeleteEvent eventId calendarId =>
    GoogleCalendarFacade.deleteEvent host api eventId calendarId f w
  end.

Definition applyTaskMutation (m : TaskMutation)
    (f : FacadeState (list Task)) (w : World E)
    : Completion unit * FacadeState (list Task) * World E :=
  match m with
  | CreateTask task taskListId =>
    forget (GoogleTasksFacade.createTask host api task taskListId f w)
  | UpdateTask taskId updates taskListId =>
    forget (GoogleTasksFacade.updateTask host api taskId updates taskListId f w)
  | CompleteTask taskId =>
    forget (GoogleTasksFacade.completeTask host api taskId f w)
  | DeleteTask taskId taskListId =>
    GoogleTasksFacade.deleteTask host api taskId taskListId f w
  end.



(** "[fetch(range)] called twice within the TTL window issues exactly one
    underlying network call; called twice with the second call after TTL
    expiry issues two calls", for [fetchTasks]: the first call misses, the
    second comes with the same options when the outside world is [env2]. *)
Definition taskCacheRoundTripAsSpecified (options : FetchTasksOptions)
    (f : FacadeState (list Task)) (w : World E) (env2 : E) : Prop :=
  (getFromCache (GoogleTasksFacade.getCacheKey options) (now host w) (cache f)).1
    = None ->
  let '(r1, f1, w1) := GoogleTasksFacade.fetchTasks host api options f w in
  let '(r2, f2, w2) :=
    GoogleTasksFacade.fetchTasks host api options f1
      {| env := env2; apiCalls := apiCalls w1 |} in
  forall entry,
    cache f1 !! GoogleTasksFacade.getCacheKey options = Some entry ->
    (clock host env2 - timestamp entry <= CACHE_TTL ->
     length (apiCalls w2) = S (length (apiCalls w)) /\ r2 = Normal (data entry)) /\
    (clock host env2 - timestamp entry > CACHE_TTL ->
     (length (apiCalls w1) < length (apiCalls w2))%nat).
End Mutations.

End Facade.

(** ** auth/oauth-server.ts: [OAuthServer] *)
Module OAuth.

Record OAuthCredentials : Type := {
  clientId : string;
  clientSecret : string
}.

Record OAuthTokens : Type := {
  access_token : option string;
  refresh_token : option string;
  expiry_date : option Z
}.

(** An [http.Server] made by [http.createServer]: whether it is bound to the
    port and accepts connections, whether it ever was, and how often
    [close()] was called on it. *)
Record HttpServer : Type := {
  listening : bool;
  hasListened : bool;
  closeCalls : nat
}.

(** The process around the [OAuthServer] object: the servers created so far
    (a server is named by its index), the URLs handed to [window.open], the
    status codes of the pages sent to the browser and the errors thrown
    out of event handlers. *)
Record Host : Type := {
  servers : list HttpServer;
  opened : list string;
  responses : list Z;
  uncaught : list Thrown
}.

(** The fields of an [OAuthServer] ([port] is the constant 8080). *)
Record OAuthServer : Type := {
  server : option nat
}.

(** The promise [startOAuthFlow] returns. *)
Inductive Promise : Type :=
| Pending
| Resolved (tokens : OAuthTokens)
| Rejected (reason : Thrown).

(** A request as the handler reads it: the pathname of [req.url] (absent
    when [req.url] is) and the query parameters [code] and [error]. *)
Record Req : Type := {
  pathname : option string;
  code : option string;
  error : option string
}.

Definition port : string := "8080".

(** The loopback port is free when no server is bound to it. *)
Definition portFree (h : Host) : bool :=
  forallb (fun s => negb (listening s)) (servers h).

Definition withServers (h : Host) (l : list HttpServer) : Host :=
  {| servers := l; opened := opened h; responses := responses h;
     uncaught := uncaught h |}.

(** [server.close()] *)
Definition httpClose (sid : nat) (h : Host) : Host :=
  withServers h
    (alter (fun s => {| listening := false; hasListened := hasListened s;
                        closeCalls := S (closeCalls s) |})
           sid (servers h)).

(** [res.writeHead(status, ...); res.end(page)] *)
Definition respond (statusCode : Z) (h : Host) : Host :=
  {| servers := servers h; opened := opened h;
     responses := responses h ++ [statusCode]; uncaught := uncaught h |}.

Definition sendSuccessResponse : Host -> Host := respond 200.
Definition sendErrorResponse : Host -> Host := respond 400.

(** The query string is written without its percent-encoding. *)
Definition getAuthUrl (credentials : OAuthCredentials) : string :=
  "https://accounts.google.com/o/oauth2/v2/auth?client_id=" ++ clientId credentials
    ++ "&redirect_uri=http://localhost:" ++ port ++ "/callback"
    ++ "&response_type=code"
    ++ "&scope=https://www.googleapis.com/auth/calendar https://www.googleapis.com/auth/tasks"
    ++ "&access_type=offline&prompt=consent".

Definition closeServer (o : OAuthServer) (h : Host) : OAuthServer * Host :=
  match server o with
  | Some sid => ({| server := None |}, httpClose sid h)
  | None => (o, h)
  end.

Definition cleanup : OAuthServer -> Host -> OAuthServer * Host := closeServer.

(** [resolve] and [reject] settle a pending promise and are ignored after. *)
Definition resolve (t : OAuthTokens) (p : Promise) : Promise :=
  match p with Pending => Resolved t | _ => p end.
Definition reject (r : Thrown) (p : Promise) : Promise :=
  match p with Pending => Rejected r | _ => p end.

(** A flow in flight: the object, the process, the server the flow created,
    its promise, and the number of token exchanges not yet answered. *)
Record Flow : Type := {
  object : OAuthServer;
  host : Host;
  flowServer : nat;
  promise : Promise;
  exchanging : nat
}.

(** [startServer]: [listen] binds the port and opens the browser, or, the
    port being taken, emits ['error'], whose handler closes the server and
    throws. *)
Definition startServer (credentials : OAuthCredentials) (o : OAuthServer)
    (h : Host) : OAuthServer * Host :=
  match server o with
  | Some sid =>
    if portFree h then
      (o, {| servers :=
               alter (fun s => {| listening := true; hasListened := true;
                                  closeCalls := closeCalls s |})
                     sid (servers h);
             opened := opened h ++ [getAuthUrl credentials];
             responses := responses h; uncaught := uncaught h |})
    else
      let '(o1, h1) := closeServer o h in
      (o1, {| servers := servers h1; opened := opened h1;
              responses := responses h1;
              uncaught := uncaught h1
                            ++ [ThrownError (newError "listen EADDRINUSE")] |})
  | None => (o, h)
  end.

(** [startOAuthFlow]: [this.server = this.createServer(...)], then
    [this.startServer(credentials)]; the promise is pending. *)
Definition startOAuthFlow (credentials : OAuthCredentials) (o : OAuthServer)
    (h : Host) : Flow :=
  let sid := length (servers h) in
  let h1 :=
    withServers h
      (servers h ++ [{| listening := false; hasListened := false; closeCalls := 0 |}]) in
  let o1 := {| server := Some sid |} in
  let '(o2, h2) := startServer credentials o1 h1 in
  {| object := o2; host := h2; flowServer := sid; promise := Pending;
     exchanging := 0 |}.

(** [handleCallback]; the token exchange it starts is answered later. *)
Definition handleCallback (req : Req) (fl : Flow) : Flow :=
  match pathname req with
  | None => fl
  | Some _ =>
    if truthy (error req) then
      let h1 := sendErrorResponse (host fl) in
      let '(o2, h2) := closeServer (object fl) h1 in
      {| object := o2; host := h2; flowServer := flowServer fl;
         promise :=
           reject (ThrownError
                     (newError ("Authorization failed: " ++ default "" (error req))))
                  (promise fl);
         exchanging := exchanging fl |}
    else if truthy (code req) then
      let h1 := sendSuccessResponse (host fl) in
      let '(o2, h2) := closeServer (object fl) h1 in
      {| object := o2; host := h2; flowServer := flowServer fl;
         promise := promise fl; exchanging := S (exchanging fl) |}
    else
      let h1 := sendErrorResponse (host fl) in
      let '(o2, h2) := closeServer (object fl) h1 in
      {| object := o2; host := h2; flowServer := flowServer fl;
         promise :=
           reject (ThrownError (newError "No authorization code received"))
                  (promise fl);
         exchanging := exchanging fl |}
  end.

(** The request listener of [createServer]:
    [req.url && pathname === "/callback" && this.handleCallback(...)] *)
Definition onRequest (req : Req) (fl : Flow) : Flow :=
  match pathname req with
  | Some p => if String.eqb p "/callback" then handleCallback req fl else fl
  | None => fl
  end.

(** [exchangeCodeForTokens(code, credentials).then(resolve).catch(reject)],
    once the token endpoint has answered. *)
Definition onExchange (answer : Completion OAuthTokens) (fl : Flow) : Flow :=
  match exchanging fl with
  | O => fl
  | S k =>
    {| object := object fl; host := host fl; flowServer := flowServer fl;
       promise :=
         match answer with
         | Normal tokens => resolve tokens (promise fl)
         | Throw e => reject e (promise fl)
         end;
       exchanging := k |}
  end.

(** Whether a server was ever bound to the port: a request can reach it
    only over a connection it accepted while it listened. *)
Definition everListened (sid : nat) (h : Host) : bool :=
  match servers h !! sid with
  | Some s => hasListened s
  | None => false
  end.

(** What can happen to a flow in flight: a request is sent to its server,
    the token endpoint answers an exchange, or the plugin calls
    [cleanup()]. *)
Inductive Event : Type :=
| Request (req : Req)
| ExchangeAnswer (answer : Completion OAuthTokens)
| Cleanup.

Definition step (ev : Event) (fl : Flow) : Flow :=
  match ev with
  | Request req =>
    if everListened (flowServer fl) (host fl) then onRequest req fl else fl
  | ExchangeAnswer answer => onExchange answer fl
  | Cleanup =>
    let '(o, h) := cleanup (object fl) (host fl) in
    {| object := o; host := h; flowServer := flowServer fl;
       promise := promise fl; exchanging := exchanging fl |}
  end.

Definition run (evs : list Event) (fl : Flow) : Flow :=
  fold_left (fun fl ev => step ev fl) evs fl.


(** How often [close()] was called on a server. *)
Definition closeCount (sid : nat) (h : Host) : nat :=
  match servers h !! sid with
  | Some s => closeCalls s
  | None => O
  end.

Definition isListening (sid : nat) (h : Host) : bool :=
  match servers h !! sid with
  | Some s => listening s
  | None => false
  end.



End OAuth.

(** ** The plugin's main class: the settings behind the API object *)
Module Plugin.




Section Operations.
Context {E : Type}.
Variable server : Api.Request -> E -> Completion Api.Json * E.
Variable parseDate : string -> Api.JSDate.
Variable tz : Z.
Variable isoParam : Z -> string.



End Operations.


End Plugin.

(** ** services/base-service.ts: the life cycle of a facade *)
Module Service.
Import Retry Facade.

Section LifeCycle.
Context {D : Type}.


(** [initialize()]: [onInitialize] of a facade finds the API it was
    constructed with. *)
Definition initialize (f : FacadeState D) : FacadeState D := ensureReady f.

(** [dispose()]: nothing for a service that is not ready; otherwise
    [onDispose] clears the cache and [_isReady] is reset. *)
Definition dispose (f : FacadeState D) : FacadeState D :=
  if _isReady f then
    {| _isReady := false; cache := ∅; retryConfig := retryConfig f |}
  else f.
End LifeCycle.

(** A call of a public method of [GoogleCalendarFacade]. *)
Inductive EventsCall : Type :=
| FetchEvents (options : FetchEventsOptions)
| FetchEventsForDate (date : string)
| MutateEvents (m : EventMutation)
| ClearEvents
| InitializeEvents
| DisposeEvents.

(** A call of a public method of [GoogleTasksFacade]. *)
Inductive TasksCall : Type :=
| FetchTasks (options : FetchTasksOptions)
| FetchTasksForDate (date : string)
| MutateTasks (m : TaskMutation)
| ClearTasks
| InitializeTasks
| DisposeTasks.

Section Calls.
Context {E : Type}.
Variable host : Host E.
Variable api : GoogleCalendarAPI E.

Definition callEvents (c : EventsCall) (f : FacadeState (list CalendarEvent))
    (w : World E) : FacadeState (list CalendarEvent) * World E :=
  match c with
  | FetchEvents options =>
    let '(_, f', w') := GoogleCalendarFacade.fetchEvents host api options f w in
    (f', w')
  | FetchEventsForDate date =>
    let '(_, f', w') := GoogleCalendarFacade.fetchEventsForDate host api date f w in
    (f', w')
  | MutateEvents m =>
    let '(_, f', w') := applyEventMutation host api m f w in (f', w')
  | ClearEvents => (clearCache f, w)
  | InitializeEvents => (initialize f, w)
  | DisposeEvents => (dispose f, w)
  end.

Definition callTasks (c : TasksCall) (f : FacadeState (list Task))
    (w : World E) : FacadeState (list Task) * World E :=
  match c with
  | FetchTasks options =>
    let '(_, f', w') := GoogleTasksFacade.fetchTasks host api options f w in
    (f', w')
  | FetchTasksForDate date =>
    let '(_, f', w') := GoogleTasksFacade.fetchTasksForDate host api date f w in
    (f', w')
  | MutateTasks m =>
    let '(_, f', w') := applyTaskMutation host api m f w in (f', w')
  | ClearTasks => (clearCache f, w)
  | InitializeTasks => (initialize f, w)
  | DisposeTasks => (dispose f, w)
  end.

(** The run of [withRetry] that [fetchTasks] starts after a miss: over a
    date range, over one date, or none at all. *)
Definition tasksRun (options : FetchTasksOptions) (f : FacadeState (list Task))
    (w : World E)
    : option (RetryRun (World E) (option Api.CalendarData)) :=
  if (truthy (tStartDate options) && truthy (tEndDate options))%bool then
    Some (withRetry (worldRuntime host)
            (call (CallGetEventsAndTasksForDateRange
                     (default "" (tStartDate options)) (default "" (tEndDate options)))
                  (API.getEventsAndTasksForDateRange api
                     (default "" (tStartDate options)) (default "" (tEndDate options))))
            (retryConfig f) w)
  else if truthy (tStartDate options) then
    Some (withRetry (worldRuntime host)
            (call (CallGetEventsAndTasksForDate (default "" (tStartDate options)))
                  (API.getEventsAndTasksForDate api (default "" (tStartDate options))))
            (retryConfig f) w)
  else None.

(** The outside world moves on between two calls. *)
Definition later (between : E -> E) (w : World E) : World E :=
  {| env := between (env w); apiCalls := apiCalls w |}.

(** The facade after a sequence of calls, the outside world moving on
    before each call as [between] says. *)
Definition runEvents (between : E -> E) (cs : list EventsCall)
    (f : FacadeState (list CalendarEvent)) (w : World E)
    : FacadeState (list CalendarEvent) * World E :=
  fold_left (fun '(f, w) c => callEvents c f (later between w)) cs (f, w).

Definition runTasks (between : E -> E) (cs : list TasksCall)
    (f : FacadeState (list Task)) (w : World E)
    : FacadeState (list Task) * World E :=
  fold_left (fun '(f, w) c => callTasks c f (later between w)) cs (f, w).
End Calls.

(** A facade holds cached data only while it is ready. *)
Definition cachesWhenReady {D : Type} (f : FacadeState D) : Prop :=
  cache f = ∅ \/ _isReady f = true.

(** A normalized event has a title; a normalized task a title and a
    status. *)
Definition titled (event : CalendarEvent) : Prop := summary event <> "".
Definition labelled (task : Task) : Prop :=
  title task <> "" /\ taskStatus task <> "".

(** Every entry of the cache holds data that satisfies [P]. *)
Definition cached {D : Type} (P : D -> Prop) (f : FacadeState D) : Prop :=
  forall key entry, cache f !! key = Some entry -> P (data entry).

End Service.

From Stdlib Require Import DecimalString.

(** [String(n)] for a whole number. *)
Definition numberToString (n : Z) : string := NilZero.string_of_int (Z.to_int n).

(** Truthiness of an optional number ([undefined] and [0] are falsy). *)
Definition truthyNumber (o : option Z) : bool :=
  match o with
  | Some n => negb (n =? 0)
  | None => false
  end.

(** [error?.message] of a thrown value. *)
Definition thrownMessage (t : Thrown) : option string :=
  message <$> instanceofError t.

(** ** services/errors.ts: the error classes and their helpers *)
Module Errors.

(** The classes, by name. *)
Module Class.
Inductive t : Type :=
| CalendarIntegrationError
| OAuthError
| TokenExpiredError
| OAuthNotConfiguredError
| GoogleCalendarError
| EventNotFoundError
| CalendarNotFoundError
| RateLimitError
| NetworkError
| ValidationError.

#[global] Instance eq_dec : EqDecision t.
Proof. solve_decision. Defined.

(** [class c extends ...]: the superclass, unless it is [Error]. *)
Definition extends (c : t) : option t :=
  match c with
  | CalendarIntegrationError => None
  | OAuthError => Some CalendarIntegrationError
  | TokenExpiredError => Some OAuthError
  | OAuthNotConfiguredError => Some OAuthError
  | GoogleCalendarError => Some CalendarIntegrationError
  | EventNotFoundError => Some GoogleCalendarError
  | CalendarNotFoundError => Some GoogleCalendarError
  | RateLimitError => Some GoogleCalendarError
  | NetworkError => Some CalendarIntegrationError
  | ValidationError => Some CalendarIntegrationError
  end.

(** Whether [d] is on the prototype chain of [c], followed for at most
    [depth] steps. *)
Fixpoint inherits (depth : nat) (c d : t) : bool :=
  (bool_decide (c = d) ||
   match depth, extends c with
   | S k, Some parent => inherits k parent d
   | _, _ => false
   end)%bool.
End Class.

(** An instance of one of the classes, by the constructor that made it and
    the arguments it was called with ([context] and [value], of type [any]
    and read nowhere, are left out); and a thrown value as a handler may
    catch it, an instance of one of these classes or anything else. *)
#[warnings="-register-all"]
Inductive CalendarIntegrationError : Type :=
| NewCalendarIntegrationError (message : string) (code : option string)
| NewOAuthError (message provider : string) (code : option string)
| NewTokenExpiredError (provider : string)
| NewOAuthNotConfiguredError (provider : string)
| NewGoogleCalendarError (message : string) (statusCode : option Z)
                         (code : option string)
| NewEventNotFoundError (eventId : string) (calendarId : option string)
| NewCalendarNotFoundError (calendarId : string)
| NewRateLimitError (retryAfter : option Z) (provider : option string)
| NewNetworkError (message : string) (originalError : option Raised)
| NewValidationError (message : string) (field : option string)
with Raised : Type :=
| Typed (e : CalendarIntegrationError)
| Untyped (t : Thrown).

Definition classOf (e : CalendarIntegrationError) : Class.t :=
  match e with
  | NewCalendarIntegrationError _ _ => Class.CalendarIntegrationError
  | NewOAuthError _ _ _ => Class.OAuthError
  | NewTokenExpiredError _ => Class.TokenExpiredError
  | NewOAuthNotConfiguredError _ => Class.OAuthNotConfiguredError
  | NewGoogleCalendarError _ _ _ => Class.GoogleCalendarError
  | NewEventNotFoundError _ _ => Class.EventNotFoundError
  | NewCalendarNotFoundError _ => Class.CalendarNotFoundError
  | NewRateLimitError _ _ => Class.RateLimitError
  | NewNetworkError _ _ => Class.NetworkError
  | NewValidationError _ _ => Class.ValidationError
  end.

(** [error instanceof c]; the chain of no class is longer than three. *)
Definition instanceof (error : Raised) (c : Class.t) : bool :=
  match error with
  | Typed e => Class.inherits 3 (classOf e) c
  | Untyped _ => false
  end.

(** [this.name] *)
Definition name (e : CalendarIntegrationError) : string :=
  match classOf e with
  | Class.CalendarIntegrationError => "CalendarIntegrationError"
  | Class.OAuthError => "OAuthError"
  | Class.TokenExpiredError => "TokenExpiredError"
  | Class.OAuthNotConfiguredError => "OAuthNotConfiguredError"
  | Class.GoogleCalendarError => "GoogleCalendarError"
  | Class.EventNotFoundError => "EventNotFoundError"
  | Class.CalendarNotFoundError => "CalendarNotFoundError"
  | Class.RateLimitError => "RateLimitError"
  | Class.NetworkError => "NetworkError"
  | Class.ValidationError => "ValidationError"
  end.

(** [error.message], as the constructors pass it to [super]. *)
Definition message (e : CalendarIntegrationError) : string :=
  match e with
  | NewCalendarIntegrationError message _ => message
  | NewOAuthError message _ _ => message
  | NewTokenExpiredError provider =>
    "Your " ++ provider ++ " authentication has expired. Please reconnect in settings."
  | NewOAuthNotConfiguredError provider =>
    provider ++ " is not configured. Please set up authentication in settings."
  | NewGoogleCalendarError message _ _ => message
  | NewEventNotFoundError eventId _ => "Event not found: " ++ eventId
  | NewCalendarNotFoundError calendarId => "Calendar not found: " ++ calendarId
  | NewRateLimitError retryAfter provider =>
    let provider := default "Google Calendar" provider in
    if truthyNumber retryAfter then
      "Rate limit exceeded for " ++ provider ++ ". Please try again in "
        ++ numberToString (default 0 retryAfter) ++ " seconds."
    else
      "Rate limit exceeded for " ++ provider ++ ". Please wait a moment and try again."
  | NewNetworkError message _ => message
  | NewValidationError message _ => message
  end.

(** [error.code] *)
Definition code (e : CalendarIntegrationError) : option string :=
  match e with
  | NewCalendarIntegrationError _ code => code
  | NewOAuthError _ _ code => code
  | NewTokenExpiredError _ => Some "TOKEN_EXPIRED"
  | NewOAuthNotConfiguredError _ => Some "OAUTH_NOT_CONFIGURED"
  | NewGoogleCalendarError _ _ code => code
  | NewEventNotFoundError _ _ => Some "EVENT_NOT_FOUND"
  | NewCalendarNotFoundError _ => Some "CALENDAR_NOT_FOUND"
  | NewRateLimitError _ _ => Some "RATE_LIMIT"
  | NewNetworkError _ _ => Some "NETWORK_ERROR"
  | NewValidationError _ _ => Some "VALIDATION_ERROR"
  end.

(** [error.provider], of an [OAuthError]. *)
Definition provider (e : CalendarIntegrationError) : option string :=
  match e with
  | NewOAuthError _ provider _ => Some provider
  | NewTokenExpiredError provider => Some provider
  | NewOAuthNotConfiguredError provider => Some provider
  | _ => None
  end.

(** [error.statusCode], of a [GoogleCalendarError]. *)
Definition statusCode (e : CalendarIntegrationError) : option Z :=
  match e with
  | NewGoogleCalendarError _ statusCode _ => statusCode
  | NewEventNotFoundError _ _ => Some 404
  | NewCalendarNotFoundError _ => Some 404
  | NewRateLimitError _ _ => Some 429
  | _ => None
  end.

(** [error.retryAfter], of a [RateLimitError]. *)
Definition retryAfter (e : CalendarIntegrationError) : option Z :=
  match e with
  | NewRateLimitError retryAfter _ => retryAfter
  | _ => None
  end.

(** The fields of a caught value, read with [?.]. *)
Definition typedField {A : Type} (field : CalendarIntegrationError -> option A)
    (error : Raised) : option A :=
  match error with
  | Typed e => field e
  | Untyped _ => None
  end.

(** [error?.message] *)
Definition messageOf (error : Raised) : option string :=
  match error with
  | Typed e => Some (message e)
  | Untyped t => thrownMessage t
  end.

(** [error?.status]: no class of this module has such a field. *)
Definition statusOf (error : Raised) : option Z :=
  match error with
  | Typed _ => None
  | Untyped t => thrownStatus t
  end.

Definition isRetriableError (error : Raised) : bool :=
  (* Network errors are retriable *)
  if instanceof error Class.NetworkError then true
  (* Google Calendar errors with 5xx status codes are retriable *)
  else if instanceof error Class.GoogleCalendarError then
    if truthyNumber (typedField statusCode error)
    then default 0 (typedField statusCode error) >=? 500
    else false
  (* Rate limit errors are retriable (with backoff) *)
  else if instanceof error Class.RateLimitError then true
  else false.

(** [getUserFriendlyMessage(error: Error)]; of a thrown value that is no
    [Error], which the signature excludes, no message is read. *)
Definition getUserFriendlyMessage (error : Raised) : string :=
  if instanceof error Class.TokenExpiredError then
    "Your " ++ default "" (typedField provider error)
      ++ " connection has expired. Please reconnect in settings."
  else if instanceof error Class.OAuthNotConfiguredError then
    "Please configure " ++ default "" (typedField provider error)
      ++ " in settings to use this feature."
  else if instanceof error Class.RateLimitError then
    if truthyNumber (typedField retryAfter error) then
      "Too many requests. Please try again in "
        ++ numberToString (default 0 (typedField retryAfter error)) ++ " seconds."
    else "Too many requests. Please wait a moment and try again."
  else if instanceof error Class.EventNotFoundError then
    "Event not found. It may have been deleted."
  else if instanceof error Class.CalendarNotFoundError then
    "Calendar not found. Please check your calendar settings."
  else if instanceof error Class.NetworkError then
    "Network error. Please check your internet connection and try again."
  else if instanceof error Class.ValidationError then
    default "" (messageOf error)
  else if instanceof error Class.GoogleCalendarError then
    orDefault (messageOf error)
      "An error occurred with Google Calendar. Please try again."
  else if instanceof error Class.OAuthError then
    orDefault (messageOf error) "Authentication error. Please reconnect in settings."
  else
    orDefault (messageOf error) "An unexpected error occurred. Please try again.".

End Errors.

(** ** Regular expressions, as far as the plugin's validation uses them *)
Module RegExp.

(** A pattern over the code units of a string. *)
Inductive RegExp : Type :=
| Never
| Empty
| Class (p : ascii -> bool)
| Seq (r s : RegExp)
| Alt (r s : RegExp)
| Star (r : RegExp).

(** [r+] *)
Definition Plus (r : RegExp) : RegExp := Seq r (Star r).

(** The strings a pattern matches from their first to their last code
    unit. *)
Inductive Matches : RegExp -> string -> Prop :=
| MEmpty : Matches Empty EmptyString
| MClass (p : ascii -> bool) (c : ascii) :
    p c = true -> Matches (Class p) (String c EmptyString)
| MSeq (r s : RegExp) (a b : string) :
    Matches r a -> Matches s b -> Matches (Seq r s) (a ++ b)
| MAltL (r s : RegExp) (a : string) : Matches r a -> Matches (Alt r s) a
| MAltR (r s : RegExp) (a : string) : Matches s a -> Matches (Alt r s) a
| MStarNil (r : RegExp) : Matches (Star r) EmptyString
| MStarApp (r : RegExp) (a b : string) :
    Matches r a -> Matches (Star r) b -> Matches (Star r) (a ++ b).

(** Whether a pattern matches the empty string. *)
Fixpoint nullable (r : RegExp) : bool :=
  match r with
  | Never => false
  | Empty => true
  | Class _ => false
  | Seq r s => nullable r && nullable s
  | Alt r s => nullable r || nullable s
  | Star _ => true
  end.

(** What is left of a pattern after the code unit [c]. *)
Fixpoint derivative (c : ascii) (r : RegExp) : RegExp :=
  match r with
  | Never => Never
  | Empty => Never
  | Class p => if p c then Empty else Never
  | Seq r s =>
    if nullable r
    then Alt (Seq (derivative c r) s) (derivative c s)
    else Seq (derivative c r) s
  | Alt r s => Alt (derivative c r) (derivative c s)
  | Star r => Seq (derivative c r) (Star r)
  end.

(** [/^r$/.test(s)] *)
Fixpoint test (r : RegExp) (s : string) : bool :=
  match s with
  | EmptyString => nullable r
  | String c rest => test (derivative c r) rest
  end.

End RegExp.

(** ** services/validation.ts

    A string is the sequence of its code units, which are taken to be
    below 256; text beyond that range occurs in the messages only, which
    are compared and never measured. *)
Module Validation.
Import RegExp Errors.

(** [\s], and what [trim] removes. *)
Definition isWhiteSpace (c : ascii) : bool :=
  let n := nat_of_ascii c in
  ((9 <=? n)%nat && (n <=? 13)%nat || (n =? 32)%nat || (n =? 160)%nat)%bool.

(** [[^\s@]] *)
Definition notSpaceOrAt (c : ascii) : bool :=
  negb (isWhiteSpace c || Ascii.eqb c "@")%bool.

(** [/^[^\s@]+@[^\s@]+\.[^\s@]+$/] *)
Definition emailRegex : RegExp :=
  Seq (Plus (Class notSpaceOrAt))
      (Seq (Class (Ascii.eqb "@"))
           (Seq (Plus (Class notSpaceOrAt))
                (Seq (Class (Ascii.eqb "."))
                     (Plus (Class notSpaceOrAt))))).

Definition validateEmail (email : string) : bool := test emailRegex email.

(** Whether every code unit of a string satisfies [p]. *)
Fixpoint every (p : ascii -> bool) (s : string) : bool :=
  match s with
  | EmptyString => true
  | String c rest => p c && every p rest
  end.

(** A part of an address as the pattern reads it: not empty, and free of
    white space and of ["@"]. *)
Definition addressPart (s : string) : Prop :=
  s <> "" /\ every notSpaceOrAt s = true.

(** [s.trimStart()], [s.trimEnd()] and [s.trim()] *)
Fixpoint trimStart (s : string) : string :=
  match s with
  | EmptyString => EmptyString
  | String c rest => if isWhiteSpace c then trimStart rest else s
  end.

Fixpoint trimEnd (s : string) : string :=
  match s with
  | EmptyString => EmptyString
  | String c rest =>
    let rest := trimEnd rest in
    if (isWhiteSpace c && String.eqb rest "")%bool then EmptyString
    else String c rest
  end.

Definition trim (s : string) : string := trimEnd (trimStart s).

Definition validateEmails (emails : list string) : list string :=
  List.filter (fun email => negb (validateEmail (trim email))) emails.

(** A double quote. *)
Definition quote : string := String (ascii_of_nat 34) EmptyString.

(** [array.join(separator)] *)
Definition join (separator : string) (l : list string) : string :=
  String.concat separator l.

(** [new ValidationError(message, field, value)] *)
Definition invalid (message field : string) : CalendarIntegrationError :=
  NewValidationError message (Some field).

(** The functions below throw or return nothing: their result is the
    [ValidationError] thrown, if any. *)

Definition validateDateRange (start end_ : Api.JSDate)
    : option CalendarIntegrationError :=
  match start with
  | None => Some (invalid "Start date is invalid" "startDate")
  | Some s =>
    match end_ with
    | None => Some (invalid "End date is invalid" "endDate")
    | Some e =>
      if s >=? e then
        Some (invalid "❌ End date/time must be after start date/time" "dateRange")
      else None
    end
  end.

(** [validateFutureDate(date, allowPast = true)], with [new Date()] read
    as [now]. *)
Definition validateFutureDate (date : Api.JSDate) (allowPast : option bool)
    (now : Z) : option CalendarIntegrationError :=
  match date with
  | None => Some (invalid "Date is invalid" "date")
  | Some d =>
    if (negb (default true allowPast) && (d <? now))%bool then
      Some (invalid "❌ Date cannot be in the past" "date")
    else None
  end.

(** [!o || (!o.dateTime && !o.date)] *)
Definition noTime (o : option Api.EventTime) : bool :=
  match o with
  | None => true
  | Some t => (negb (truthy (Api.dateTime t)) && negb (truthy (Api.date t)))%bool
  end.

(** [o.dateTime], once [o] is known to be there. *)
Definition dateTimeOf (o : option Api.EventTime) : option string :=
  o ≫= Api.dateTime.

Section WithDates.
(** [new Date(str)] *)
Variable parseDate : string -> Api.JSDate.

Definition validateEventData (event : Api.CalendarEvent)
    : option CalendarIntegrationError :=
  let summary := default "" (Api.summary event) in
  (* Validate title *)
  if (negb (truthy (Api.summary event)) || (Z.of_nat (String.length (trim summary)) =? 0))%bool
  then Some (invalid "❌ Event title is required" "summary")
  else if 1000 <? Z.of_nat (String.length summary) then
    Some (invalid "❌ Event title is too long (max 1000 characters)" "summary")
  (* Validate start date/time *)
  else if noTime (Api.start event) then
    Some (invalid "❌ Event start date/time is required" "start")
  (* Validate end date/time *)
  else if noTime (Api.end_ event) then
    Some (invalid "❌ Event end date/time is required" "end")
  else
    (* Validate date range (if both are dateTime) *)
    match
      (if (truthy (dateTimeOf (Api.start event))
           && truthy (dateTimeOf (Api.end_ event)))%bool
       then
         let startDate := parseDate (default "" (dateTimeOf (Api.start event))) in
         let endDate := parseDate (default "" (dateTimeOf (Api.end_ event))) in
         validateDateRange startDate endDate
       else None)
    with
    | Some error => Some error
    | None =>
      (* Validate attendees emails *)
      let invalidEmails :=
        validateEmails (map Api.email (default [] (Api.attendees event))) in
      if 0 <? Z.of_nat (length invalidEmails) then
        Some (invalid ("❌ Invalid email(s): " ++ join ", " invalidEmails) "attendees")
      (* Validate description length *)
      else if (truthy (Api.description event)
               && (8192 <? Z.of_nat (String.length (default "" (Api.description event)))))%bool
      then
        Some (invalid "❌ Event description is too long (max 8192 characters)"
                      "description")
      (* Validate location length *)
      else if (truthy (Api.location event)
               && (1024 <? Z.of_nat (String.length (default "" (Api.location event)))))%bool
      then
        Some (invalid "❌ Event location is too long (max 1024 characters)" "location")
      else None
    end.

Definition validateTaskData (task : Api.TaskItem)
    : option CalendarIntegrationError :=
  let title := default "" (Api.title task) in
  (* Validate title *)
  if (negb (truthy (Api.title task)) || (Z.of_nat (String.length (trim title)) =? 0))%bool
  then Some (invalid "❌ Task title is required" "title")
  else if 1024 <? Z.of_nat (String.length title) then
    Some (invalid "❌ Task title is too long (max 1024 characters)" "title")
  (* Validate notes length *)
  else if (truthy (Api.notes task)
           && (8192 <? Z.of_nat (String.length (default "" (Api.notes task)))))%bool
  then Some (invalid "❌ Task notes are too long (max 8192 characters)" "notes")
  (* Validate due date *)
  else if (truthy (Api.due task)
           && negb (bool_decide (is_Some (parseDate (default "" (Api.due task))))))%bool
  then Some (invalid "❌ Task due date is invalid" "due")
  (* Validate status *)
  else if (truthy (Api.taskStatus task)
           && negb (bool_decide (default "" (Api.taskStatus task)
                                   ∈ ["needsAction"; "completed"])))%bool
  then
    Some (invalid ("❌ Task status must be " ++ quote ++ "needsAction" ++ quote
                     ++ " or " ++ quote ++ "completed" ++ quote)
                  "status")
  else None.
End WithDates.

End Validation.

(** ** services/constants.ts *)
Module Constants.

Module TIME.
Definition SECOND_MS : Z := 1000.
Definition MINUTE_MS : Z := 60 * 1000.
Definition HOUR_MS : Z := 60 * 60 * 1000.
Definition DAY_MS : Z := 24 * 60 * 60 * 1000.
End TIME.

Module GOOGLE_CALENDAR_CONSTANTS.
Module RATE_LIMIT.
Definition MAX_RETRIES : Z := 3.
Definition INITIAL_BACKOFF_MS : Z := 1 * TIME.SECOND_MS.
Definition MAX_BACKOFF_MS : Z := 16 * TIME.SECOND_MS.
Definition BACKOFF_MULTIPLIER : Z := 2.
End RATE_LIMIT.
Module CACHE.
Definition EVENT_CACHE_TTL_MS : Z := 15 * TIME.MINUTE_MS.
Definition SYNC_TOKEN_TTL_MS : Z := 7 * TIME.DAY_MS.
End CACHE.
End GOOGLE_CALENDAR_CONSTANTS.

End Constants.

(** ** providers/GoogleCalendarProvider.ts *)
Module Provider.
Import Errors Constants.

(** How a call of the provider ends: with a value, or with a thrown value
    that may be an instance of one of the error classes. *)
Inductive Settled (A : Type) : Type :=
| Fulfilled (a : A)
| RejectedWith (error : Raised).
Arguments Fulfilled {A} a.
Arguments RejectedWith {A} error.

(** A call of the API, seen from the provider. *)
Definition settle {A : Type} (r : Completion A) : Settled A :=
  match r with
  | Normal a => Fulfilled a
  | Throw t => RejectedWith (Untyped t)
  end.

(** The result of a run of the provider's [withRetry], with how often
    [fn] was invoked and the delays handed to [setTimeout] (in order). *)
Record Run (W T : Type) : Type := {
  outcome : Settled T;
  world : W;
  invocations : nat;
  backoffs : list Z
}.
Arguments outcome {W T} _.
Arguments world {W T} _.
Arguments invocations {W T} _.
Arguments backoffs {W T} _.

Section WithRetry.
Import GOOGLE_CALENDAR_CONSTANTS.RATE_LIMIT.
Context {W T : Type}.
(** [await new Promise(resolve => setTimeout(resolve, backoff))] *)
Variable sleep : Z -> W -> W.
Variable fn : W -> Settled T * W.

(** "Convert to typed error if needed".  No error of [Api] carries a
    [retryAfter]. *)
Definition typed (error : Raised) : Raised :=
  if negb (instanceof error Class.GoogleCalendarError) then
    match statusOf error with
    | Some status =>
      if status =? 429 then Typed (NewRateLimitError None None)
      else if status >=? 500 then
        Typed (NewGoogleCalendarError (orDefault (messageOf error) "Server error")
                                      (Some status) None)
      else if status =? 0 then
        Typed (NewNetworkError (orDefault (messageOf error) "Network error")
                               (Some error))
      else error
    | None =>
      Typed (NewNetworkError (orDefault (messageOf error) "Network error")
                             (Some error))
    end
  else error.

(** [Math.min(INITIAL_BACKOFF_MS * Math.pow(BACKOFF_MULTIPLIER, attempt),
    MAX_BACKOFF_MS)] *)
Definition backoff (attempt : Z) : Z :=
  Z.min (INITIAL_BACKOFF_MS * BACKOFF_MULTIPLIER ^ attempt) MAX_BACKOFF_MS.

(** [throw lastError!], where [lastError] may still be unassigned. *)
Definition throwLast (lastError : option Raised) : Settled T :=
  match lastError with
  | Some error => RejectedWith error
  | None => RejectedWith (Untyped (ThrownValue "undefined"))
  end.

(** The loop [for (let attempt = 0; attempt <= MAX_RETRIES; attempt++)];
    [fuel] bounds the number of iterations. *)
Fixpoint retryLoop (fuel : nat) (attempt : Z) (lastError : option Raised)
    (w : W) (calls : nat) (slept : list Z) : Run W T :=
  let exit := {| outcome := throwLast lastError; world := w;
                 invocations := calls; backoffs := slept |} in
  match fuel with
  | O => exit
  | S fuel' =>
    if attempt <=? MAX_RETRIES then
      match fn w with
      | (Fulfilled v, w1) =>
        {| outcome := Fulfilled v; world := w1; invocations := S calls;
           backoffs := slept |}
      | (RejectedWith error, w1) =>
        let lastError := typed error in
        (* Don't retry if not retriable or last attempt *)
        if (negb (isRetriableError lastError) || (attempt =? MAX_RETRIES))%bool then
          {| outcome := RejectedWith lastError; world := w1;
             invocations := S calls; backoffs := slept |}
        else
          let backoff := backoff attempt in
          retryLoop fuel' (attempt + 1) (Some lastError) (sleep backoff w1)
                    (S calls) (slept ++ [backoff])%list
      end
    else exit
  end.

Definition withRetry (w : W) : Run W T :=
  retryLoop (Z.to_nat (MAX_RETRIES + 1)) 0 None w 0%nat [].
End WithRetry.

(** The fields of a [GoogleCalendarProvider]: its API object and its
    caches ([syncTokens] and [lastManualRefresh], which no method touches,
    are left out). *)
Record ProviderState : Type := {
  api : Api.ApiState;
  eventCache : gmap string (list Api.CalendarEvent);
  lastEventRefresh : gmap string Z;
  taskCache : gmap string (list Api.TaskItem);
  lastTaskRefresh : gmap string Z
}.

(** The constructor. *)
Definition newProvider (credentials : Api.GoogleCalendarCredentials)
    : ProviderState :=
  {| api := {| Api.credentials := credentials; Api.tokensUpdated := [] |};
     eventCache := ∅; lastEventRefresh := ∅;
     taskCache := ∅; lastTaskRefresh := ∅ |}.

Definition withApi (p : ProviderState) (st : Api.ApiState) : ProviderState :=
  {| api := st; eventCache := eventCache p;
     lastEventRefresh := lastEventRefresh p;
     taskCache := taskCache p; lastTaskRefresh := lastTaskRefresh p |}.

Definition invalidateEventCache (p : ProviderState) : ProviderState :=
  {| api := api p; eventCache := ∅; lastEventRefresh := ∅;
     taskCache := taskCache p; lastTaskRefresh := lastTaskRefresh p |}.

Definition invalidateTaskCache (p : ProviderState) : ProviderState :=
  {| api := api p; eventCache := eventCache p;
     lastEventRefresh := lastEventRefresh p;
     taskCache := ∅; lastTaskRefresh := ∅ |}.

(** What the provider sees of the outside: the network, and the notices
    shown to the user (in order). *)
Record Outside (E : Type) : Type := {
  net : Api.Net E;
  notices : list string
}.
Arguments net {E} _.
Arguments notices {E} _.

Record CreateTaskOptions : Type := {
  title : option string;
  notes : option string;
  due : option string
}.

Record CreateEventOptions : Type := {
  summary : option string;
  description : option string;
  start : option Api.EventTime;
  end_ : option Api.EventTime;
  location : option string
}.

Record SearchOptions : Type := {
  query : string;
  startDate : option string;
  endDate : option string;
  maxResults : option Z
}.

Section Methods.
Import GOOGLE_CALENDAR_CONSTANTS.CACHE.
Context {E : Type}.
Variable server : Api.Request -> E -> Completion Api.Json * E.
Variable parseDate : string -> Api.JSDate.
Variable tz : Z.
Variable isoParam : Z -> string.
(** [Date.now()] *)
Variable clock : E -> Z.
(** The outside world after a timer of the given delay has fired. *)
Variable pause : Z -> E -> E.
(** [new Date(t).toISOString()] and its part before the ['T']. *)
Variable toISOString : Z -> string.
Variable isoDay : Z -> string.

(** The world of a call that [withRetry] wraps: the API object, which the
    call may change, and the network. *)
Definition sleep (delay : Z) (w : Api.ApiState * Api.Net E)
    : Api.ApiState * Api.Net E :=
  (w.1, {| Api.env := pause delay (Api.env w.2); Api.sent := Api.sent w.2 |}).

(** [() => this.api.method(...)] *)
Definition apiCall {A : Type}
    (method : Api.ApiState -> Api.Net E -> Completion A * Api.ApiState * Api.Net E)
    (w : Api.ApiState * Api.Net E) : Settled A * (Api.ApiState * Api.Net E) :=
  let '(r, st, n) := method w.1 w.2 in (settle r, (st, n)).

Definition now (n : Api.Net E) : Z := clock (Api.env n).

(** [if (!result) return null;
     return { items: result.items || [], nextPageToken: result.nextPageToken }] *)
Definition eventList (result : option Api.CalendarEvents)
    : option Api.CalendarEvents :=
  (fun r => {| Api.items := Some (default [] (Api.items r));
               Api.nextPageToken := Api.nextPageToken r |}) <$> result.

Definition taskList (result : option Api.TaskList) : option Api.TaskList :=
  (fun r => {| Api.taskItems := Some (default [] (Api.taskItems r));
               Api.taskNextPageToken := Api.taskNextPageToken r |}) <$> result.

(** A method that hands a call to the API without retry or cache. *)
Definition passOn {A B : Type} (f : A -> B)
    (r : Completion A * Api.ApiState * Api.Net E) (p : ProviderState)
    : Settled B * ProviderState * Api.Net E :=
  let '(c, st, n) := r in
  (match c with
   | Normal a => Fulfilled (f a)
   | Throw t => RejectedWith (Untyped t)
   end, withApi p st, n).

Definition isConfigured (p : ProviderState) : bool :=
  Api.isConfigured (Api.credentials (api p)).

Definition getEventsForDate (date : string) (p : ProviderState) (n : Api.Net E) :=
  passOn eventList (Api.getEventsForDate server parseDate tz isoParam date (api p) n) p.

Definition getTasksForDate (date : string) (p : ProviderState) (n : Api.Net E) :=
  passOn taskList (Api.getTasksForDate server parseDate tz date (api p) n) p.

Definition getEventsAndTasksForDate (date : string) (p : ProviderState)
    (n : Api.Net E) :=
  passOn id (Api.getEventsAndTasksForDate server parseDate tz isoParam date (api p) n) p.

Definition getTasksForDateRange (startDate endDate : string) (p : ProviderState)
    (n : Api.Net E) :=
  passOn taskList
    (Api.getTasksForDateRange server parseDate tz startDate endDate (api p) n) p.

Definition getEventsAndTasksForDateRange (startDate endDate : string)
    (p : ProviderState) (n : Api.Net E) :=
  passOn id
    (Api.getEventsAndTasksForDateRange server parseDate tz isoParam
       startDate endDate (api p) n) p.

Definition getEventsForDateRange (startDate endDate : string)
    (p : ProviderState) (n : Api.Net E)
    : Settled (option Api.CalendarEvents) * ProviderState * Api.Net E :=
  let cacheKey := startDate ++ "-" ++ endDate in
  (* Check cache freshness *)
  let lastRefresh := default 0 (lastEventRefresh p !! cacheKey) in
  let now := now n in
  let cacheAge := now - lastRefresh in
  match (if cacheAge <? EVENT_CACHE_TTL_MS then eventCache p !! cacheKey else None) with
  | Some cached =>
    (Fulfilled (Some {| Api.items := Some cached; Api.nextPageToken := None |}), p, n)
  | None =>
    (* Fetch with retry logic *)
    let run :=
      withRetry sleep
        (apiCall (Api.getEventsForDateRange server parseDate tz isoParam
                    startDate endDate))
        (api p, n) in
    let p := withApi p (world run).1 in
    match outcome run with
    | Fulfilled None => (Fulfilled None, p, (world run).2)
    | Fulfilled (Some result) =>
      (* Update cache *)
      let items := default [] (Api.items result) in
      (Fulfilled (Some {| Api.items := Some items;
                          Api.nextPageToken := Api.nextPageToken result |}),
       {| api := api p;
          eventCache := <[cacheKey := items]> (eventCache p);
          lastEventRefresh := <[cacheKey := now]> (lastEventRefresh p);
          taskCache := taskCache p; lastTaskRefresh := lastTaskRefresh p |},
       (world run).2)
    | RejectedWith error => (RejectedWith error, p, (world run).2)
    end
  end.

Definition getTasks (p : ProviderState) (n : Api.Net E)
    : Settled (option Api.TaskList) * ProviderState * Api.Net E :=
  (* Get all tasks (no date filter) *)
  let cacheKey := "all-tasks" in
  let lastRefresh := default 0 (lastTaskRefresh p !! cacheKey) in
  let now := now n in
  let cacheAge := now - lastRefresh in
  match (if cacheAge <? EVENT_CACHE_TTL_MS then taskCache p !! cacheKey else None) with
  | Some cached =>
    (Fulfilled (Some {| Api.taskItems := Some cached;
                        Api.taskNextPageToken := None |}), p, n)
  | None =>
    let run := withRetry sleep (apiCall (Api.getTasks server)) (api p, n) in
    let p := withApi p (world run).1 in
    match outcome run with
    | Fulfilled None => (Fulfilled None, p, (world run).2)
    | Fulfilled (Some result) =>
      let items := default [] (Api.taskItems result) in
      (Fulfilled (Some {| Api.taskItems := Some items;
                          Api.taskNextPageToken := Api.taskNextPageToken result |}),
       {| api := api p;
          eventCache := eventCache p; lastEventRefresh := lastEventRefresh p;
          taskCache := <[cacheKey := items]> (taskCache p);
          lastTaskRefresh := <[cacheKey := now]> (lastTaskRefresh p) |},
       (world run).2)
    | RejectedWith error => (RejectedWith error, p, (world run).2)
    end
  end.

(** A mutation: the API call under [withRetry], and on success the cache
    of its kind invalidated. *)
Definition mutation
    (method : Api.ApiState -> Api.Net E
              -> Completion Api.Json * Api.ApiState * Api.Net E)
    (invalidate : ProviderState -> ProviderState)
    (p : ProviderState) (o : Outside E)
    : Settled Api.Json * ProviderState * Outside E :=
  let run := withRetry sleep (apiCall method) (api p, net o) in
  let p := withApi p (world run).1 in
  let o := {| net := (world run).2; notices := notices o |} in
  match outcome run with
  | Fulfilled answer => (Fulfilled answer, invalidate p, o)
  | RejectedWith error => (RejectedWith error, p, o)
  end.

Definition createTask (options : CreateTaskOptions) (p : ProviderState)
    (o : Outside E) : Settled Api.Json * ProviderState * Outside E :=
  let task :=
    {| Api.taskId := None; Api.title := title options; Api.notes := notes options;
       Api.taskStatus := None; Api.due := due options; Api.completed := None;
       Api.parent := None; Api.position := None |} in
  (* Validate task data *)
  match Validation.validateTaskData parseDate task with
  | Some error =>
    (RejectedWith (Typed error), p,
     {| net := net o;
        notices := (notices o ++ [getUserFriendlyMessage (Typed error)])%list |})
  | None =>
    (* Create with retry logic *)
    mutation (Api.createTask server task "@default") invalidateTaskCache p o
  end.

Definition updateEvent (eventId : string) (options : CreateEventOptions)
    (p : ProviderState) (o : Outside E) :=
  let event :=
    {| Api.id := None;
       Api.summary := if truthy (summary options) then summary options else None;
       Api.description := description options;
       Api.start := start options; Api.end_ := end_ options;
       Api.location := location options;
       Api.attendees := None; Api.recurrence := None; Api.status := None |} in
  mutation (Api.updateEvent server eventId event "primary") invalidateEventCache p o.

Definition updateTask (taskId : string) (options : CreateTaskOptions)
    (p : ProviderState) (o : Outside E) :=
  let task :=
    {| Api.taskId := None;
       Api.title := if truthy (title options) then title options else None;
       Api.notes := notes options; Api.taskStatus := None; Api.due := due options;
       Api.completed := None; Api.parent := None; Api.position := None |} in
  mutation (Api.updateTask server taskId task "@default") invalidateTaskCache p o.

Definition completeTask (taskId : string) (p : ProviderState) (o : Outside E) :=
  let task :=
    {| Api.taskId := None; Api.title := None; Api.notes := None;
       Api.taskStatus := Some "completed"; Api.due := None;
       Api.completed := Some (toISOString (now (net o)));
       Api.parent := None; Api.position := None |} in
  mutation (Api.updateTask server taskId task "@default") invalidateTaskCache p o.

Definition deleteEvent (eventId : string) (p : ProviderState) (o : Outside E) :=
  mutation (Api.deleteEvent server eventId "primary") invalidateEventCache p o.

Definition deleteTask (taskId : string) (p : ProviderState) (o : Outside E) :=
  mutation (Api.deleteTask server taskId "@default") invalidateTaskCache p o.

(** [s?.toLowerCase().includes(query)] *)
Definition mentions (query : string) (s : option string) : bool :=
  match s with
  | Some s => includes (toLowerCase s) query
  | None => false
  end.

Definition search (options : SearchOptions) (p : ProviderState) (n : Api.Net E)
    : Settled (option Api.CalendarData) * ProviderState * Api.Net E :=
  let startDate := orDefault (startDate options) (isoDay (now n)) in
  let endDate := orDefault (endDate options) (isoDay (now n + 365 * 24 * 60 * 60 * 1000)) in
  match getEventsAndTasksForDateRange startDate endDate p n with
  | (Fulfilled None, p, n) => (Fulfilled None, p, n)
  | (Fulfilled (Some data), p, n) =>
    (* Filter by query *)
    let query := toLowerCase (query options) in
    let filteredEvents :=
      match Api.events data ≫= Api.items with
      | Some items =>
        List.filter (fun event =>
                       mentions query (Api.summary event)
                       || mentions query (Api.description event)
                       || mentions query (Api.location event))%bool items
      | None => []
      end in
    let filteredTasks :=
      match Api.tasks data ≫= Api.taskItems with
      | Some items =>
        List.filter (fun task =>
                       mentions query (Api.title task)
                       || mentions query (Api.notes task))%bool items
      | None => []
      end in
    (Fulfilled (Some {| Api.events := Some {| Api.items := Some filteredEvents;
                                              Api.nextPageToken := None |};
                        Api.tasks := Some {| Api.taskItems := Some filteredTasks;
                                             Api.taskNextPageToken := None |} |}),
     p, n)
  | (RejectedWith error, p, n) => (RejectedWith error, p, n)
  end.
End Methods.



End Provider.

(** ** redux/calendar-slice.ts *)
Module CalendarSlice.
Import Facade.

Record DateRange : Type := {
  rangeStart : string;
  rangeEnd : string
}.

(** [CalendarState]; the object [events] is used as a map from ids, none
    of which is a name that objects give a meaning of their own. *)
Record CalendarState : Type := {
  events : gmap string CalendarEvent;
  eventIds : list string;
  loading : bool;
  error : option string;
  lastFetch : option Z;
  dateRange : option DateRange
}.

Definition initialState : CalendarState := {|
  events := ∅; eventIds := []; loading := false; error := None;
  lastFetch := None; dateRange := None
|}.

(** The actions of the slice: its two reducers, and what each of its four
    thunks dispatches.  A fulfilled fetch carries the arguments of the
    thunk ([action.meta.arg]); a rejected action carries the value handed
    to [rejectWithValue], if any. *)
Inductive Action : Type :=
| ClearEvents
| ClearError
| FetchEventsPending
| FetchEventsFulfilled (payload : list CalendarEvent) (startDate endDate : string)
| FetchEventsRejected (payload : option string)
| CreateEventPending
| CreateEventFulfilled (payload : CalendarEvent)
| CreateEventRejected (payload : option string)
| UpdateEventPending
| UpdateEventFulfilled (payload : CalendarEvent)
| UpdateEventRejected (payload : option string)
| DeleteEventPending
| DeleteEventFulfilled (payload : string)
| DeleteEventRejected (payload : option string).

Definition pending (state : CalendarState) : CalendarState :=
  {| events := events state; eventIds := eventIds state; loading := true;
     error := None; lastFetch := lastFetch state; dateRange := dateRange state |}.

Definition rejected (payload : option string) (fallback : string)
    (state : CalendarState) : CalendarState :=
  {| events := events state; eventIds := eventIds state; loading := false;
     error := Some (orDefault payload fallback);
     lastFetch := lastFetch state; dateRange := dateRange state |}.

(** [payload.forEach((event) => { events[event.id] = event; ... })] *)
Definition indexById (payload : list CalendarEvent) : gmap string CalendarEvent :=
  fold_left (fun events event => <[id event := event]> events) payload ∅.

(** The reducer; [now] is what [Date.now()] answers while it runs. *)
Definition reducer (now : Z) (state : CalendarState) (action : Action)
    : CalendarState :=
  match action with
  | ClearEvents =>
    {| events := ∅; eventIds := []; loading := loading state; error := None;
       lastFetch := lastFetch state; dateRange := dateRange state |}
  | ClearError =>
    {| events := events state; eventIds := eventIds state;
       loading := loading state; error := None;
       lastFetch := lastFetch state; dateRange := dateRange state |}
  | FetchEventsPending => pending state
  | FetchEventsFulfilled payload startDate endDate =>
    {| events := indexById payload; eventIds := map id payload;
       loading := false; error := error state; lastFetch := Some now;
       dateRange := Some {| rangeStart := startDate; rangeEnd := endDate |} |}
  | FetchEventsRejected payload => rejected payload "Failed to fetch events" state
  | CreateEventPending => pending state
  | CreateEventFulfilled event =>
    {| events := <[id event := event]> (events state);
       eventIds := (eventIds state ++ [id event])%list;
       loading := false; error := error state;
       lastFetch := lastFetch state; dateRange := dateRange state |}
  | CreateEventRejected payload => rejected payload "Failed to create event" state
  | UpdateEventPending => pending state
  | UpdateEventFulfilled event =>
    {| events := <[id event := event]> (events state);
       eventIds := eventIds state;
       loading := false; error := error state;
       lastFetch := lastFetch state; dateRange := dateRange state |}
  | UpdateEventRejected payload => rejected payload "Failed to update event" state
  | DeleteEventPending => pending state
  | DeleteEventFulfilled eventId =>
    {| events := delete eventId (events state);
       eventIds := List.filter (fun id => negb (String.eqb id eventId)) (eventIds state);
       loading := false; error := error state;
       lastFetch := lastFetch state; dateRange := dateRange state |}
  | DeleteEventRejected payload => rejected payload "Failed to delete event" state
  end.

(** *** Selectors *)

(** [eventIds.map((id) => events[id])]; an id without event gives
    [undefined]. *)
Definition selectAllEvents (state : CalendarState) : list (option CalendarEvent) :=
  map (fun id => events state !! id) (eventIds state).

Definition selectEventById (state : CalendarState) (eventId : string)
    : option CalendarEvent :=
  events state !! eventId.

Definition selectEventsLoading (state : CalendarState) : bool := loading state.
Definition selectEventsError (state : CalendarState) : option string := error state.

(** *** Thunks

    Dispatching a thunk dispatches its pending action, runs its body, and
    dispatches the fulfilled action with what the body returned, or the
    rejected action with what it handed to [rejectWithValue]. *)
Section Thunks.
Context {E : Type}.
Variable host : Host E.
Variable api : GoogleCalendarAPI E.

(** [error instanceof Error ? error.message : fallback] *)
Definition messageOr (fallback : string) (error : Thrown) : string :=
  match instanceofError error with
  | Some e => message e
  | None => fallback
  end.

Definition fetchEvents (startDate endDate : string) (state : CalendarState)
    (f : FacadeState (list CalendarEvent)) (w : World E)
    : CalendarState * FacadeState (list CalendarEvent) * World E :=
  let state := reducer (now host w) state FetchEventsPending in
  let '(r, f, w) :=
    GoogleCalendarFacade.fetchEvents host api
      {| startDate := startDate; endDate := endDate;
         maxResults := None; calendarId := None |} f w in
  (reducer (now host w) state
     match r with
     | Normal events => FetchEventsFulfilled events startDate endDate
     | Throw error =>
       FetchEventsRejected (Some (messageOr "Failed to fetch events" error))
     end,
   f, w).

Definition createEvent (event : Api.CalendarEvent) (state : CalendarState)
    (f : FacadeState (list CalendarEvent)) (w : World E)
    : CalendarState * FacadeState (list CalendarEvent) * World E :=
  let state := reducer (now host w) state CreateEventPending in
  let '(r, f, w) := GoogleCalendarFacade.createEvent host api event "primary" f w in
  (reducer (now host w) state
     match r with
     | Normal createdEvent => CreateEventFulfilled createdEvent
     | Throw error =>
       CreateEventRejected (Some (messageOr "Failed to create event" error))
     end,
   f, w).

Definition updateEvent (eventId : string) (updates : Api.CalendarEvent)
    (state : CalendarState) (f : FacadeState (list CalendarEvent)) (w : World E)
    : CalendarState * FacadeState (list CalendarEvent) * World E :=
  let state := reducer (now host w) state UpdateEventPending in
  let '(r, f, w) :=
    GoogleCalendarFacade.updateEvent host api eventId updates "primary" f w in
  (reducer (now host w) state
     match r with
     | Normal updatedEvent => UpdateEventFulfilled updatedEvent
     | Throw error =>
       UpdateEventRejected (Some (messageOr "Failed to update event" error))
     end,
   f, w).

Definition deleteEvent (eventId : string) (state : CalendarState)
    (f : FacadeState (list CalendarEvent)) (w : World E)
    : CalendarState * FacadeState (list CalendarEvent) * World E :=
  let state := reducer (now host w) state DeleteEventPending in
  let '(r, f, w) := GoogleCalendarFacade.deleteEvent host api eventId "primary" f w in
  (reducer (now host w) state
     match r with
     | Normal _ => DeleteEventFulfilled eventId
     | Throw error =>
       DeleteEventRejected (Some (messageOr "Failed to delete event" error))
     end,
   f, w).

(** The four thunks with their arguments, and [dispatch(thunk(args))]. *)
Inductive Thunk : Type :=
| FetchEvents (startDate endDate : string)
| CreateEvent (event : Api.CalendarEvent)
| UpdateEvent (eventId : string) (updates : Api.CalendarEvent)
| DeleteEvent (eventId : string).

Definition dispatch (thunk : Thunk)
    : CalendarState -> FacadeState (list CalendarEvent) -> World E ->
      CalendarState * FacadeState (list CalendarEvent) * World E :=
  match thunk with
  | FetchEvents startDate endDate => fetchEvents startDate endDate
  | CreateEvent event => createEvent event
  | UpdateEvent eventId updates => updateEvent eventId updates
  | DeleteEvent eventId => deleteEvent eventId
  end.

(** The call of the facade that a thunk makes, by its outcome. *)
Definition facadeCall (thunk : Thunk) (f : FacadeState (list CalendarEvent))
    (w : World E) : Completion unit :=
  match thunk with
  | FetchEvents startDate endDate =>
    match (GoogleCalendarFacade.fetchEvents host api
             {| startDate := startDate; endDate := endDate;
                maxResults := None; calendarId := None |} f w).1.1 with
    | Normal _ => Normal tt
    | Throw error => Throw error
    end
  | CreateEvent event =>
    match (GoogleCalendarFacade.createEvent host api event "primary" f w).1.1 with
    | Normal _ => Normal tt
    | Throw error => Throw error
    end
  | UpdateEvent eventId updates =>
    match (GoogleCalendarFacade.updateEvent host api eventId updates "primary" f w).1.1 with
    | Normal _ => Normal tt
    | Throw error => Throw error
    end
  | DeleteEvent eventId =>
    (GoogleCalendarFacade.deleteEvent host api eventId "primary" f w).1.1
  end.
End Thunks.

(** The text a thunk falls back on. *)
Definition fallback (thunk : Thunk) : string :=
  match thunk with
  | FetchEvents _ _ => "Failed to fetch events"
  | CreateEvent _ => "Failed to create event"
  | UpdateEvent _ _ => "Failed to update event"
  | DeleteEvent _ => "Failed to delete event"
  end.

(** The state after a sequence of actions, each with the time at which its
    reducer runs. *)
Definition reduce (actions : list (Z * Action)) (state : CalendarState)
    : CalendarState :=
  fold_left (fun state '(now, action) => reducer now state action) actions state.

(** Every listed id has an event. *)
Definition listedEventsExist (state : CalendarState) : Prop :=
  forall eventId, eventId ∈ eventIds state -> is_Some (events state !! eventId).

End CalendarSlice.

(** ** Concrete worlds, used to run the definitions and to instantiate the
    statements below *)
Module Examples.
Import Retry.

(** A runtime over a call counter: [Math.random] answers 1/4, sleeping leaves
    the world as it is. *)
Definition quietRuntime : Runtime nat := {|
  random := fun w => (1 # 4, w);
  sleep := fun _ w => w
|}.

(** A function that fails at every call with a network error. *)
Definition networkDown (w : nat) : Completion unit * nat :=
  (Throw (ThrownError (newError "Network request failed")), S w).

(** A function that fails at every call with a client error. *)
Definition notFound (w : nat) : Completion unit * nat :=
  (Throw (ThrownError (PlainError "Request failed, status 404" (Some 404))), S w).

Definition threeRetries : RetryConfig := {|
  maxRetries := Some 3; initialDelay := Some 1000%Q;
  backoffMultiplier := Some 2%Q; maxDelay := Some 30000%Q;
  useJitter := Some false; isRetryable := None
|}.


(** *** A Google account seen over the network *)

Definition unauthorized : Thrown :=
  ThrownError (PlainError "Request failed, status 401" (Some 401)).

Definition overdueTask : Api.TaskItem := {|
  Api.taskId := Some "t1"; Api.title := Some "File the report";
  Api.notes := None; Api.taskStatus := Some "needsAction";
  Api.due := Some "2024-01-10T00:00:00.000Z"; Api.completed := None;
  Api.parent := None; Api.position := None
|}.

Definition undatedTask : Api.TaskItem := {|
  Api.taskId := Some "t2"; Api.title := Some "Call back";
  Api.notes := None; Api.taskStatus := Some "needsAction";
  Api.due := None; Api.completed := None;
  Api.parent := None; Api.position := None
|}.

Definition rotatedTokens : Api.Tokens := {|
  Api.access_token := Some "access-2";
  Api.refresh_token := Some "refresh-2";
  Api.expiry_date := None
|}.

(** The token endpoint issues [access-2] and rotates the refresh token; every
    other endpoint rejects any other access token with status 401 and
    otherwise answers with one task list holding two tasks. *)
Definition google (req : Api.Request) (e : unit) : Completion Api.Json * unit :=
  if String.eqb (Api.url req) Api.TOKEN_URL then (Normal (Api.JTokens rotatedTokens), e)
  else
    match Api.authorization req with
    | Some "access-2" =>
      if String.eqb (Api.url req) Api.taskListsUrl then
        (Normal (Api.JTaskLists
                   (Some [{| Api.listId := Some "L1"; Api.listTitle := Some "My Tasks" |}])),
         e)
      else if String.eqb (Api.url req) (Api.tasksUrl "L1") then
        (Normal (Api.JTasks {| Api.taskItems := Some [overdueTask; undatedTask];
                               Api.taskNextPageToken := None |}),
         e)
      else (Normal Api.JOther, e)
    | _ => (Throw unauthorized, e)
    end.

(** The instants of the date strings the examples use, as [new Date] parses
    them. *)
Definition parseDate (s : string) : Api.JSDate :=
  if String.eqb s "2024-01-15" then Some 1705276800000
  else if String.eqb s "2024-01-10T00:00:00.000Z" then Some 1704844800000
  else None.

(** Local time is UTC. *)
Definition utc : Z := 0.

(** The events URL is not requested in the examples. *)
Definition isoParam (t : Z) : string := "".

Definition offline : Api.Net unit := {| Api.env := tt; Api.sent := [] |}.

Definition signedIn (access refresh : option string) : Api.ApiState := {|
  Api.credentials :=
    {| Api.clientId := "client-id"; Api.clientSecret := "client-secret";
       Api.accessToken := access; Api.refreshToken := refresh |};
  Api.tokensUpdated := []
|}.


(** *** A host and an API for the facades *)

(** The outside world is the time in ms; a retry delay lets one second
    pass. *)
Definition wallClock : Facade.Host Z := {|
  Facade.runtime := {| random := fun t => (1 # 4, t);
                       sleep := fun _ t => t + 1000 |};
  Facade.clock := fun t => t;
  Facade.isoNow := fun _ => "2024-01-15T12:00:00.000Z"
|}.

Definition standup : Api.CalendarEvent := {|
  Api.id := Some "event-1"; Api.summary := Some "Standup";
  Api.description := None; Api.start := None; Api.end_ := None;
  Api.location := None; Api.attendees := None; Api.recurrence := None;
  Api.status := Some "confirmed"
|}.

Definition calendarData : Api.CalendarData := {|
  Api.events := Some {| Api.items := Some [standup]; Api.nextPageToken := None |};
  Api.tasks := Some {| Api.taskItems := Some [undatedTask];
                       Api.taskNextPageToken := None |}
|}.

(** An API that answers every call, each call taking 120 ms. *)
Definition workingApi : Facade.GoogleCalendarAPI Z := {|
  Facade.API.getEventsAndTasksForDateRange := fun _ _ t =>
    (Normal (Some calendarData), t + 120);
  Facade.API.getEventsAndTasksForDate := fun _ t =>
    (Normal (Some calendarData), t + 120);
  Facade.API.createEvent := fun event _ t => (Normal (Some event), t + 120);
  Facade.API.updateEvent := fun _ event _ t => (Normal (Some event), t + 120);
  Facade.API.deleteEvent := fun _ _ t => (Normal tt, t + 120);
  Facade.API.createTask := fun task _ t => (Normal (Some task), t + 120);
  Facade.API.updateTask := fun _ task _ t => (Normal (Some task), t + 120);
  Facade.API.deleteTask := fun _ _ t => (Normal tt, t + 120)
|}.



(** An API that is out of reach before time 500. *)
Definition flakyApi : Facade.GoogleCalendarAPI Z := {|
  Facade.API.getEventsAndTasksForDateRange := fun _ _ t =>
    if t <? 500
    then (Throw (ThrownError (newError "Network error")), t + 120)
    else (Normal (Some calendarData), t + 120);
  Facade.API.getEventsAndTasksForDate := fun _ t =>
    (Normal (Some calendarData), t + 120);
  Facade.API.createEvent := fun event _ t => (Normal (Some event), t + 120);
  Facade.API.updateEvent := fun _ event _ t => (Normal (Some event), t + 120);
  Facade.API.deleteEvent := fun _ _ t => (Normal tt, t + 120);
  Facade.API.createTask := fun task _ t => (Normal (Some task), t + 120);
  Facade.API.updateTask := fun _ task _ t => (Normal (Some task), t + 120);
  Facade.API.deleteTask := fun _ _ t => (Normal tt, t + 120)
|}.

Definition january15 : Facade.FetchEventsOptions := {|
  Facade.startDate := "2024-01-15"; Facade.endDate := "2024-01-16";
  Facade.maxResults := None; Facade.calendarId := None
|}.

Definition tasksOfJanuary15 : Facade.FetchTasksOptions := {|
  Facade.tStartDate := Some "2024-01-15"; Facade.tEndDate := Some "2024-01-16";
  Facade.showCompleted := None; Facade.tMaxResults := None;
  Facade.taskListId := None
|}.

(** [fetchTasks()] with no options. *)
Definition allTasks : Facade.FetchTasksOptions := {|
  Facade.tStartDate := None; Facade.tEndDate := None;
  Facade.showCompleted := None; Facade.tMaxResults := None;
  Facade.taskListId := None
|}.

Definition at_ (t : Z) : Facade.World Z := {| Facade.env := t; Facade.apiCalls := [] |}.


(** The calendar facade after a fetch at time 0, and the tasks facade after
    a fetch at time 0: each holds one entry, stored at time 120. *)
Definition cachedEvents : Facade.FacadeState (list Facade.CalendarEvent) :=
  (Facade.GoogleCalendarFacade.fetchEvents wallClock workingApi january15
     (Facade.newFacade None) (at_ 0)).1.2.

Definition cachedTasks : Facade.FacadeState (list Facade.Task) :=
  (Facade.GoogleTasksFacade.fetchTasks wallClock workingApi tasksOfJanuary15
     (Facade.newFacade None) (at_ 0)).1.2.


(** *** An OAuth flow *)

Definition desktopApp : OAuth.OAuthCredentials :=
  {| OAuth.clientId := "client-id"; OAuth.clientSecret := "client-secret" |}.

Definition freshProcess : OAuth.Host :=
  {| OAuth.servers := []; OAuth.opened := []; OAuth.responses := [];
     OAuth.uncaught := [] |}.

Definition issuedTokens : OAuth.OAuthTokens :=
  {| OAuth.access_token := Some "access-1"; OAuth.refresh_token := Some "refresh-1";
     OAuth.expiry_date := Some 1705280400000 |}.

(** The browser comes back with a code, asks for the favicon, and the token
    endpoint answers. *)
Definition consentGiven : list OAuth.Event :=
  [OAuth.Request {| OAuth.pathname := Some "/callback"; OAuth.code := Some "4/abc";
                    OAuth.error := None |};
   OAuth.Request {| OAuth.pathname := Some "/favicon.ico"; OAuth.code := None;
                    OAuth.error := None |};
   OAuth.ExchangeAnswer (Normal issuedTokens)].

(** A process in which another server already holds the port. *)
Definition busyProcess : OAuth.Host :=
  {| OAuth.servers := [{| OAuth.listening := true; OAuth.hasListened := true;
                          OAuth.closeCalls := 0 |}];
     OAuth.opened := []; OAuth.responses := []; OAuth.uncaught := [] |}.

End Examples.
(** ** Further concrete worlds *)
Module Scenarios.
Import Retry.

(** A config that allows no attempt at all. *)
Definition noAttempt : RetryConfig := {|
  maxRetries := Some (-1); initialDelay := None; backoffMultiplier := None;
  maxDelay := None; useJitter := None; isRetryable := None
|}.

(** An API object whose settings hold no client id. *)
Definition unconfigured : Api.ApiState := {|
  Api.credentials :=
    {| Api.clientId := ""; Api.clientSecret := "client-secret";
       Api.accessToken := Some "access-2"; Api.refreshToken := None |};
  Api.tokensUpdated := []
|}.

(** The settings the signed-in API object of the examples was made from. *)
Definition savedSettings : Api.Settings :=
  {| Api.googleAccessToken := "access-1"; Api.googleRefreshToken := "refresh-1" |}.

(** An API out of reach: every call fails with a network error. *)
Definition deadApi : Facade.GoogleCalendarAPI Z :=
  let down := ThrownError (newError "Network error") in
  {| Facade.API.getEventsAndTasksForDateRange := fun _ _ t => (Throw down, t + 120);
     Facade.API.getEventsAndTasksForDate := fun _ t => (Throw down, t + 120);
     Facade.API.createEvent := fun _ _ t => (Throw down, t + 120);
     Facade.API.updateEvent := fun _ _ _ t => (Throw down, t + 120);
     Facade.API.deleteEvent := fun _ _ t => (Throw down, t + 120);
     Facade.API.createTask := fun _ _ t => (Throw down, t + 120);
     Facade.API.updateTask := fun _ _ _ t => (Throw down, t + 120);
     Facade.API.deleteTask := fun _ _ t => (Throw down, t + 120) |}.


(** The events of 15 January, asked of another calendar. *)
Definition january15AtWork : Facade.FetchEventsOptions := {|
  Facade.startDate := "2024-01-15"; Facade.endDate := "2024-01-16";
  Facade.maxResults := Some 10; Facade.calendarId := Some "work"
|}.

(** A call that Google answers with 429 every time. *)
Definition rateLimited (w : nat) : Provider.Settled unit * nat :=
  (Provider.RejectedWith
     (Errors.Untyped
        (ThrownError (PlainError "Request failed, status 429" (Some 429)))),
   S w).

(** A provider for the signed-in account of the examples. *)
Definition provider : Provider.ProviderState :=
  Provider.newProvider (Api.credentials (Examples.signedIn (Some "access-2") None)).

(** The clock of the examples' network stands still. *)
Definition noon (e : unit) : Z := 1705320000000.
Definition unpaused (delay : Z) (e : unit) : unit := e.

(** An all-day event that ends the day before it starts. *)
Definition backwards : Api.CalendarEvent := {|
  Api.id := None; Api.summary := Some "Offsite";
  Api.description := None;
  Api.start := Some {| Api.dateTime := None; Api.date := Some "2024-01-16";
                       Api.timeZone := None |};
  Api.end_ := Some {| Api.dateTime := None; Api.date := Some "2024-01-15";
                      Api.timeZone := None |};
  Api.location := None; Api.attendees := None; Api.recurrence := None;
  Api.status := None
|}.

End Scenarios.

(** * Properties *)

Local Open Scope list_scope.
Local Open Scope Z_scope.

(** ** [withRetry] *)
Section RetryProperties.
Import Retry.
Context {W T : Type}.
Variable rt : Runtime W.
Variable fn : W -> Completion T * W.
Variable cfg : FinalConfig.

(** Fuel beyond the number of iterations the loop test admits changes
    nothing: the bound is not what ends the loop. *)
Lemma retryLoop_fuel (fuel : nat) :
  forall attempt lastError w calls errs slept,
    (Z.to_nat (fMaxRetries cfg + 1 - attempt) <= fuel)%nat ->
    retryLoop rt fn cfg fuel attempt lastError w calls errs slept =
    retryLoop rt fn cfg (Z.to_nat (fMaxRetries cfg + 1 - attempt))
              attempt lastError w calls errs slept.
Proof.
  induction fuel as [|fuel IH]; intros attempt lastError w calls errs slept Hf.
  - replace (Z.to_nat (fMaxRetries cfg + 1 - attempt)) with O by lia.
    reflexivity.
  - destruct (Z.to_nat (fMaxRetries cfg + 1 - attempt)) as [|k] eqn:Hk.
    + simpl. destruct (Z.leb_spec attempt (fMaxRetries cfg)); [lia | reflexivity].
    + simpl. destruct (Z.leb_spec attempt (fMaxRetries cfg)); [|reflexivity].
      destruct (fn w) as [[v|t] w1]; [reflexivity|].
      destruct (attempt >=? fMaxRetries cfg); [reflexivity|].
      destruct (negb (fIsRetryable cfg (toError t))); [reflexivity|].
      assert (Hk' : k = Z.to_nat (fMaxRetries cfg + 1 - (attempt + 1))) by lia.
      destruct (fUseJitter cfg).
      * destruct (random rt w1) as [r w2].
        rewrite IH by lia. rewrite Hk'. reflexivity.
      * rewrite IH by lia. rewrite Hk'. reflexivity.
Qed.

(** When every invocation fails with a retryable error, the loop started
    at [attempt] invokes [fn] once per remaining attempt and throws the
    error caught last. *)
Lemma retryLoop_always_failing
    (Hfail : forall w, exists t w',
               fn w = (Throw t, w') /\ fIsRetryable cfg (toError t) = true)
    (fuel : nat) :
  forall attempt lastError w calls errs slept,
    attempt <= fMaxRetries cfg ->
    fuel = Z.to_nat (fMaxRetries cfg + 1 - attempt) ->
    let r := retryLoop rt fn cfg fuel attempt lastError w calls errs slept in
    invocations r = (calls + fuel)%nat /\
    length (caught r) = (length errs + fuel)%nat /\
    exists e, last (caught r) = Some e /\ outcome r = Throw (ThrownError e).
Proof.
  induction fuel as [|fuel IH]; intros attempt lastError w calls errs slept Hle Hf.
  - lia.
  - simpl. destruct (Z.leb_spec attempt (fMaxRetries cfg)); [|lia].
    destruct (Hfail w) as (t & w1 & Hfn & Hretry). rewrite Hfn.
    destruct (Z.geb_spec attempt (fMaxRetries cfg)) as [Hge|Hlt].
    + simpl. assert (fuel = O) by lia. subst fuel.
      rewrite length_app, last_snoc. simpl. repeat split; try lia. eauto.
    + rewrite Hretry. simpl.
      assert (Hf' : fuel = Z.to_nat (fMaxRetries cfg + 1 - (attempt + 1))) by lia.
      assert (Hstep : forall w' slept',
                let r := retryLoop rt fn cfg fuel (attempt + 1) (Some (toError t)) w'
                                   (S calls) (errs ++ [toError t]) slept' in
                invocations r = (calls + S fuel)%nat /\
                length (caught r) = (length errs + S fuel)%nat /\
                exists e, last (caught r) = Some e /\ outcome r = Throw (ThrownError e)).
      { intros w' slept'.
        destruct (IH (attempt + 1) (Some (toError t)) w' (S calls)
                     (errs ++ [toError t]) slept' ltac:(lia) Hf') as (H1 & H2 & H3).
        rewrite length_app in H2. simpl in H2. repeat split; try lia. exact H3. }
      destruct (fUseJitter cfg).
      * destruct (random rt w1) as [r w2]. apply Hstep.
      * apply Hstep.
Qed.

(** Every error the loop records was thrown by an invocation of [fn]. *)
Lemma retryLoop_caught_from_fn (fuel : nat) :
  forall attempt lastError w calls errs slept e,
    e ∈ caught (retryLoop rt fn cfg fuel attempt lastError w calls errs slept) ->
    e ∈ errs \/ exists w0 t w1, fn w0 = (Throw t, w1) /\ e = toError t.
Proof.
  induction fuel as [|fuel IH]; intros attempt lastError w calls errs slept e.
  - simpl. auto.
  - simpl. destruct (attempt <=? fMaxRetries cfg); [|simpl; auto].
    destruct (fn w) as [[v|t] w1] eqn:Hfn; [simpl; auto|].
    assert (Hnew : e ∈ errs ++ [toError t] ->
                   e ∈ errs \/ exists w0 t0 w2, fn w0 = (Throw t0, w2) /\ e = toError t0).
    { rewrite elem_of_app, list_elem_of_singleton. intros [? | ->]; [auto|]. right. eauto. }
    destruct (attempt >=? fMaxRetries cfg); [exact Hnew|].
    destruct (negb (fIsRetryable cfg (toError t))); [exact Hnew|].
    destruct (fUseJitter cfg).
    + destruct (random rt w1) as [r w2]. intros H. apply IH in H.
      destruct H as [H|H]; [auto|right; exact H].
    + intros H. apply IH in H. destruct H as [H|H]; [auto|right; exact H].
Qed.

(** The delay recorded at position [i] is the specified one: the backoff
    delay of attempt [i], scaled by [0.5 + r * 0.5] for a draw [r] of
    [Math.random] when jitter is on. *)
Lemma retryLoop_delays
    (Hrandom : forall w, (0 <= fst (random rt w))%Q /\ (fst (random rt w) < 1)%Q)
    (fuel : nat) :
  forall attempt lastError w calls errs slept,
    attempt = Z.of_nat (length slept) ->
    (forall i d, slept !! i = Some d ->
       if fUseJitter cfg
       then exists r, (0 <= r)%Q /\ (r < 1)%Q /\
                      d = (specBackoffDelay cfg i * jitterFactor r)%Q
       else d = specBackoffDelay cfg i) ->
    forall i d,
      delays (retryLoop rt fn cfg fuel attempt lastError w calls errs slept) !! i
        = Some d ->
      if fUseJitter cfg
      then exists r, (0 <= r)%Q /\ (r < 1)%Q /\
                     d = (specBackoffDelay cfg i * jitterFactor r)%Q
      else d = specBackoffDelay cfg i.
Proof.
  induction fuel as [|fuel IH]; intros attempt lastError w calls errs slept Ha Hs i d.
  - simpl. apply Hs.
  - simpl. destruct (attempt <=? fMaxRetries cfg); [|simpl; apply Hs].
    destruct (fn w) as [[v|t] w1]; [simpl; apply Hs|].
    destruct (attempt >=? fMaxRetries cfg); [simpl; apply Hs|].
    destruct (negb (fIsRetryable cfg (toError t))); [simpl; apply Hs|].
    destruct (fUseJitter cfg) eqn:Hj.
    + destruct (random rt w1) as [r w2] eqn:Hr.
      apply IH.
      * rewrite length_app. simpl. lia.
      * intros j x Hx. apply lookup_snoc_Some in Hx.
        destruct Hx as [[_ Hx]|[-> <-]]; [apply (Hs j x Hx)|].
        exists r. pose proof (Hrandom w1) as Hw. rewrite Hr in Hw. simpl in Hw.
        destruct Hw as [H0 H1]. repeat split; try assumption.
        unfold baseDelay, specBackoffDelay. rewrite Ha. reflexivity.
    + apply IH.
      * rewrite length_app. simpl. lia.
      * intros j x Hx. apply lookup_snoc_Some in Hx.
        destruct Hx as [[_ Hx]|[-> <-]]; [apply (Hs j x Hx)|].
        unfold baseDelay, specBackoffDelay. rewrite Ha. reflexivity.
Qed.

(** Every delay is followed by one more invocation: there is one delay
    less than there are invocations. *)
Lemma retryLoop_delays_length (fuel : nat) :
  forall attempt lastError w calls errs slept,
    calls = length slept ->
    attempt <= fMaxRetries cfg ->
    (Z.to_nat (fMaxRetries cfg + 1 - attempt) <= fuel)%nat ->
    let r := retryLoop rt fn cfg fuel attempt lastError w calls errs slept in
    length (delays r) = Nat.pred (invocations r).
Proof.
  induction fuel as [|fuel IH]; intros attempt lastError w calls errs slept Hc Hle Hf.
  - lia.
  - simpl. destruct (Z.leb_spec attempt (fMaxRetries cfg)); [|lia].
    destruct (fn w) as [[v|t] w1]; [simpl; lia|].
    destruct (Z.geb_spec attempt (fMaxRetries cfg)); [simpl; lia|].
    destruct (negb (fIsRetryable cfg (toError t))); [simpl; lia|].
    destruct (fUseJitter cfg).
    + destruct (random rt w1) as [r w2].
      apply IH; [rewrite length_app; simpl; lia | lia | lia].
    + apply IH; [rewrite length_app; simpl; lia | lia | lia].
Qed.

Lemma jitterFactor_range (r : Q) :
  (0 <= r)%Q -> (r < 1)%Q ->
  (1 # 2 <= jitterFactor r)%Q /\ (jitterFactor r <= 1)%Q.
Proof. unfold jitterFactor. intros H0 H1. split; lra. Qed.
End RetryProperties.

(** The definitions at work: three retries of a call that fails with a
    network error, without jitter and with the default jitter (a draw of
    1/4 scales by 5/8); a call that fails with an error that is not
    retryable is made once and nothing is slept. *)
Example withRetry_network_down :
  let run := Retry.withRetry Examples.quietRuntime Examples.networkDown
               Examples.threeRetries 0%nat in
  Retry.invocations run = 4%nat /\
  Retry.delays run = [1000; 2000; 4000]%Q /\
  Retry.outcome run = Throw (ThrownError (newError "Network request failed")).
Proof. repeat split; reflexivity. Qed.

Example withRetry_network_down_jitter :
  let run := Retry.withRetry Examples.quietRuntime Examples.networkDown
               Retry.emptyConfig 0%nat in
  Retry.invocations run = 4%nat /\
  map Qred (Retry.delays run) = [625; 1250; 2500]%Q.
Proof. split; reflexivity. Qed.

Example withRetry_not_found :
  let run := Retry.withRetry Examples.quietRuntime Examples.notFound
               Retry.emptyConfig 0%nat in
  Retry.invocations run = 1%nat /\ Retry.delays run = [] /\
  Retry.outcome run
  = Throw (ThrownError (PlainError "Request failed, status 404" (Some 404))).
Proof. repeat split; reflexivity. Qed.

(** C1. For a config with [maxRetries = n], [n >= 0], and a function that
    fails at every invocation with an error the config's [isRetryable]
    accepts, [withRetry] invokes the function exactly [n + 1] times and then
    throws the error it caught last, an error of one of these invocations. *)
Theorem withRetry_exhausts_retries {W T : Type} (rt : Retry.Runtime W)
    (fn : W -> Completion T * W) (config : Retry.RetryConfig) (n : Z) (w : W)
    (Hn : Retry.maxRetries config = Some n)
    (Hpos : 0 <= n)
    (Hfail : forall w, exists t w',
               fn w = (Throw t, w') /\
               Retry.fIsRetryable (Retry.finalConfig config) (toError t) = true) :
  let r := Retry.withRetry rt fn config w in
  Retry.invocations r = Z.to_nat (n + 1) /\
  length (Retry.caught r) = Z.to_nat (n + 1) /\
  (forall e, e ∈ Retry.caught r ->
     exists w0 t w1, fn w0 = (Throw t, w1) /\ e = toError t) /\
  exists e, last (Retry.caught r) = Some e /\
            Retry.outcome r = Throw (ThrownError e).
Proof.
  intros r. subst r. unfold Retry.withRetry.
  assert (Hmax : Retry.fMaxRetries (Retry.finalConfig config) = n).
  { unfold Retry.finalConfig. simpl. rewrite Hn. reflexivity. }
  rewrite Hmax.
  destruct (retryLoop_always_failing rt fn (Retry.finalConfig config) Hfail
              (Z.to_nat (n + 1)) 0 None w 0%nat [] []) as (H1 & H2 & H3).
  { lia. }
  { rewrite Hmax. f_equal. lia. }
  simpl in H1, H2. repeat split; try assumption.
  intros e He. apply retryLoop_caught_from_fn in He.
  destruct He as [He|He]; [|exact He]. inversion He.
Qed.

Lemma withRetry_exhausts_retries_witness :
  let r := Retry.withRetry Examples.quietRuntime Examples.networkDown
             Examples.threeRetries 0%nat in
  Retry.invocations r = 4%nat /\
  length (Retry.caught r) = 4%nat /\
  (forall e, e ∈ Retry.caught r ->
     exists w0 t w1, Examples.networkDown w0 = (Throw t, w1) /\ e = toError t) /\
  exists e, last (Retry.caught r) = Some e /\
            Retry.outcome r = Throw (ThrownError e).
Proof.
  apply (withRetry_exhausts_retries Examples.quietRuntime Examples.networkDown
           Examples.threeRetries 3 0%nat).
  - reflexivity.
  - lia.
  - intros w. eexists _, _. split; reflexivity.
Defined.





(** ** [GoogleCalendarAPI] *)
Section ApiProperties.
Import Api.
Context {E : Type}.
Variable server : Request -> E -> Completion Json * E.
Variable parseDate : string -> JSDate.

Lemma truthy_Some (o : option string) :
  truthy o = true -> o = Some (default "" o).
Proof. destruct o; [reflexivity | discriminate]. Qed.

(** What storing the answer of the token endpoint changes. *)
Lemma storeTokens_credentials (tokens : Tokens) (st : ApiState) :
  refreshToken (credentials (storeTokens tokens st)) = refreshToken (credentials st) /\
  clientId (credentials (storeTokens tokens st)) = clientId (credentials st) /\
  clientSecret (credentials (storeTokens tokens st)) = clientSecret (credentials st) /\
  accessToken (credentials (storeTokens tokens st)) =
    (if truthy (access_token tokens) then access_token tokens
     else accessToken (credentials st)).
Proof.
  unfold storeTokens. destruct (truthy (access_token tokens)) eqn:Hat; simpl.
  - repeat split. symmetry. apply truthy_Some, Hat.
  - repeat split.
Qed.

(** Without an access token [makeRequest] throws before any request. *)
Lemma makeRequest_no_token url method body st (n : Net E) :
  truthy (accessToken (credentials st)) = false ->
  makeRequest server url method body st n =
  (Throw (ThrownError (newError "No access token available")), st, n).
Proof. intros H. unfold makeRequest. rewrite H. reflexivity. Qed.

(** The requests of a task fetch do not depend on the filter, and the
    filter applies to what the lists answered. *)
Lemma tasksOfLists_filter (keep : TaskItem -> bool) (taskLists : list TaskListInfo) :
  forall st (n : Net E),
    tasksOfLists server keep taskLists st n =
    let '(allTasks, st', n') := tasksOfLists server (fun _ => true) taskLists st n in
    (List.filter keep allTasks, st', n').
Proof.
  induction taskLists as [|taskList rest IH]; intros st n; simpl.
  - reflexivity.
  - unfold tasksOfList.
    destruct (negb (truthy (listId taskList))).
    + rewrite IH.
      destruct (tasksOfLists server (fun _ => true) rest st n) as [[all st2] n2].
      reflexivity.
    + destruct (makeRequest server _ "GET" None st n) as [[[response|t] st1] n1].
      * simpl. rewrite IH.
        destruct (tasksOfLists server (fun _ => true) rest st1 n1) as [[all st2] n2].
        rewrite List.filter_app. f_equal. f_equal. f_equal.
        induction (tasksOf response) as [|x l IHl]; [reflexivity|].
        simpl. rewrite <- IHl. reflexivity.
      * rewrite IH.
        destruct (tasksOfLists server (fun _ => true) rest st1 n1) as [[all st2] n2].
        reflexivity.
Qed.

Lemma requestTasks_filter (keep : TaskItem -> bool) st (n : Net E) :
  resultTasks (orNull (requestTasks server keep st n)) =
  List.filter keep (fetchedTasks server st n).
Proof.
  unfold fetchedTasks, requestTasks.
  destruct (notConfigured (credentials st)); [reflexivity|].
  destruct (makeRequest server taskListsUrl "GET" None st n)
    as [[[response|t] st1] n1]; [|reflexivity].
  destruct response; try reflexivity;
    simpl; rewrite (tasksOfLists_filter keep);
    match goal with
    | |- context [tasksOfLists server (fun _ => true) ?l st1 n1] =>
      destruct (tasksOfLists server (fun _ => true) l st1 n1) as [[all st2] n2]
    end;
    reflexivity.
Qed.


End ApiProperties.

(** The definitions at work: an expired access token is refreshed and the
    request sent again with the new one. *)
Example makeRequest_expired_token :
  let st := Examples.signedIn (Some "access-1") (Some "refresh-1") in
  let '(r, st', n') :=
    Api.makeRequest Examples.google (Api.tasksUrl "L1") "GET" None st Examples.offline in
  r = Normal (Api.JTasks
                {| Api.taskItems := Some [Examples.overdueTask; Examples.undatedTask];
                   Api.taskNextPageToken := None |}) /\
  Api.accessToken (Api.credentials st') = Some "access-2" /\
  Api.refreshToken (Api.credentials st') = Some "refresh-1" /\
  map Api.url (Api.sent n') = [Api.tasksUrl "L1"; Api.TOKEN_URL; Api.tasksUrl "L1"] /\
  map Api.authorization (Api.sent n') = [Some "access-1"; None; Some "access-2"].
Proof. repeat split; reflexivity. Qed.

(** The fetches of [GoogleCalendarAPI] never reject. *)
Lemma getEventsAndTasksForDateRange_resolves {E : Type}
    (server : Api.Request -> E -> Completion Api.Json * E)
    (parseDate : string -> Api.JSDate) (tz : Z) (isoParam : Z -> string)
    (startDate endDate : string) (st : Api.ApiState) (n : Api.Net E) :
  exists data,
    (Api.getEventsAndTasksForDateRange server parseDate tz isoParam
       startDate endDate st n).1.1 = Normal (Some data).
Proof.
  unfold Api.getEventsAndTasksForDateRange, Api.getEventsForDateRange,
    Api.getTasksForDateRange.
  destruct (Api.requestEvents _ _ _ _ _ _) as [[[ev|t] st1] n1]; simpl;
    destruct (Api.requestTasks _ _ _ _) as [[[ts|t'] st2] n2]; simpl; eauto.
Qed.

(** C3, as amended.  When a request made with an access token is answered
    with status 401, [refreshAccessToken] runs once.  If the refresh
    completes, the same request (url, method, body) is sent once more with
    the access token then stored, and the answer to it, whatever it is, is
    the result: no second refresh, no further retry.  If the refresh does
    not complete (no refresh token stored, the token endpoint rejects it,
    or its answer cannot be read), that error is the result and the request
    is not sent again. *)
Theorem makeRequest_on_401 {E : Type}
    (server : Api.Request -> E -> Completion Api.Json * E)
    (url method : string) (body : option Api.Body)
    (st : Api.ApiState) (n : Api.Net E) (error : Thrown) (e1 : E)
    (Htoken : truthy (Api.accessToken (Api.credentials st)) = true)
    (Hfirst : server (Api.apiRequest url method
                        (Api.accessToken (Api.credentials st)) body) (Api.env n)
              = (Throw error, e1))
    (H401 : thrownStatus error = Some 401) :
  let req1 := Api.apiRequest url method (Api.accessToken (Api.credentials st)) body in
  let refresh := Api.refreshRequest (Api.credentials st) in
  let '(r, st', n') := Api.makeRequest server url method body st n in
  if truthy (Api.refreshToken (Api.credentials st)) then
    match server refresh e1 with
    | (Throw refreshError, e2) =>
      r = Throw refreshError /\ st' = st /\
      Api.sent n' = Api.sent n ++ [req1; refresh] /\ Api.env n' = e2
    | (Normal Api.JNull, e2) =>
      r = Throw Api.typeError /\ st' = st /\
      Api.sent n' = Api.sent n ++ [req1; refresh] /\ Api.env n' = e2
    | (Normal j, e2) =>
      let req2 := Api.apiRequest url method
                    (Api.accessToken (Api.credentials st')) body in
      Api.sent n' = Api.sent n ++ [req1; refresh; req2] /\
      (r, Api.env n') = server req2 e2 /\
      Api.accessToken (Api.credentials st') =
        (if truthy (Api.access_token (Api.asTokens j))
         then Api.access_token (Api.asTokens j)
         else Api.accessToken (Api.credentials st))
    end
  else
    r = Throw (ThrownError (newError "No refresh token available")) /\ st' = st /\
    Api.sent n' = Api.sent n ++ [req1] /\ Api.env n' = e1.
Proof.
  intros req1 refresh. subst req1 refresh.
  unfold Api.makeRequest. rewrite Htoken. simpl.
  unfold Api.requestUrl at 1. rewrite Hfirst.
  destruct (decide (thrownStatus error = Some 401)) as [_|Hne]; [|contradiction].
  unfold Api.refreshAccessToken.
  destruct (truthy (Api.refreshToken (Api.credentials st))) eqn:Hrt; simpl.
  - unfold Api.requestUrl at 1. simpl.
    destruct (server (Api.refreshRequest (Api.credentials st)) e1)
      as [[j|refreshError] e2] eqn:Hrefresh.
    + destruct j; simpl;
        try (rewrite <- app_assoc; repeat split; reflexivity);
        unfold Api.requestUrl; simpl;
        match goal with
        | |- context [server ?req e2] =>
          destruct (server req e2) as [[response|error2] e3] eqn:Hsecond
        end;
        simpl; rewrite <- !app_assoc; simpl; repeat split;
        first [ reflexivity | symmetry; exact Hsecond
              | apply storeTokens_credentials ].
    + simpl. rewrite <- app_assoc. repeat split; reflexivity.
  - repeat split; reflexivity.
Qed.

Lemma makeRequest_on_401_witness :
  let st := Examples.signedIn (Some "access-1") (Some "refresh-1") in
  let req1 := Api.apiRequest Api.taskListsUrl "GET"
                (Api.accessToken (Api.credentials st)) None in
  let refresh := Api.refreshRequest (Api.credentials st) in
  let '(r, st', n') :=
    Api.makeRequest Examples.google Api.taskListsUrl "GET" None st Examples.offline in
  if truthy (Api.refreshToken (Api.credentials st)) then
    match Examples.google refresh tt with
    | (Normal j, e2) =>
      let req2 := Api.apiRequest Api.taskListsUrl "GET"
                    (Api.accessToken (Api.credentials st')) None in
      Api.sent n' = Api.sent Examples.offline ++ [req1; refresh; req2] /\
      (r, Api.env n') = Examples.google req2 e2 /\
      Api.accessToken (Api.credentials st') =
        (if truthy (Api.access_token (Api.asTokens j))
         then Api.access_token (Api.asTokens j)
         else Api.accessToken (Api.credentials st))
    | (Throw refreshError, e2) =>
      r = Throw refreshError /\ st' = st /\
      Api.sent n' = Api.sent Examples.offline ++ [req1; refresh] /\ Api.env n' = e2
    end
  else
    r = Throw (ThrownError (newError "No refresh token available")) /\ st' = st /\
    Api.sent n' = Api.sent Examples.offline ++ [req1] /\ Api.env n' = tt.
Proof.
  apply (makeRequest_on_401 Examples.google Api.taskListsUrl "GET" None
           (Examples.signedIn (Some "access-1") (Some "refresh-1"))
           Examples.offline Examples.unauthorized tt);
    reflexivity.
Defined.

(** C3 as stated fails: with no refresh token stored, a 401 leads to no
    refresh request and the request is not sent again. *)
Lemma makeRequest_on_401_without_refresh_token :
  ~ Api.refreshesAndResendsOn401 Examples.google Api.taskListsUrl "GET" None
      (Examples.signedIn (Some "access-1") None) Examples.offline.
Proof.
  intros H.
  specialize (H eq_refl Examples.unauthorized tt eq_refl eq_refl).
  vm_compute in H. discriminate H.
Qed.

(** The definitions at work: on 2024-01-15 (UTC), [getTasksForDate] keeps a
    task due on 2024-01-10, [getTasksForDateRange] over that day drops it;
    both keep the task without a due value. *)
Example getTasksForDate_january15 :
  let st := Examples.signedIn (Some "access-2") None in
  Api.resultTasks
    (Api.getTasksForDate Examples.google Examples.parseDate Examples.utc
       "2024-01-15" st Examples.offline)
  = [Examples.overdueTask; Examples.undatedTask] /\
  Api.resultTasks
    (Api.getTasksForDateRange Examples.google Examples.parseDate Examples.utc
       "2024-01-15" "2024-01-15" st Examples.offline)
  = [Examples.undatedTask].
Proof. split; reflexivity. Qed.




(** C7, as amended.  With client id and secret set and no access token,
    [isConfigured()] is true and [makeRequest] throws 'No access token
    available' before any request is sent.  The fetch operations catch that
    error: they resolve with [null] (the combined fetches with both parts
    [null]) and send nothing.  Create, update and delete rethrow it. *)
Theorem no_access_token {E : Type}
    (server : Api.Request -> E -> Completion Api.Json * E)
    (parseDate : string -> Api.JSDate) (tz : Z) (isoParam : Z -> string)
    (st : Api.ApiState) (n : Api.Net E)
    (Hid : Api.clientId (Api.credentials st) <> "")
    (Hsecret : Api.clientSecret (Api.credentials st) <> "")
    (Htoken : truthy (Api.accessToken (Api.credentials st)) = false) :
  let noToken := Throw (ThrownError (newError "No access token available")) in
  Api.isConfigured (Api.credentials st) = true /\
  (forall url method body,
     Api.makeRequest server url method body st n = (noToken, st, n)) /\
  (forall date startDate endDate,
     Api.getEventsForDate server parseDate tz isoParam date st n
       = (Normal None, st, n) /\
     Api.getTasksForDate server parseDate tz date st n = (Normal None, st, n) /\
     Api.getEventsForDateRange server parseDate tz isoParam startDate endDate st n
       = (Normal None, st, n) /\
     Api.getTasksForDateRange server parseDate tz startDate endDate st n
       = (Normal None, st, n) /\
     Api.getTasks server st n = (Normal None, st, n) /\
     Api.getEventsAndTasksForDate server parseDate tz isoParam date st n
       = (Normal (Some {| Api.events := None; Api.tasks := None |}), st, n) /\
     Api.getEventsAndTasksForDateRange server parseDate tz isoParam
         startDate endDate st n
       = (Normal (Some {| Api.events := None; Api.tasks := None |}), st, n)) /\
  (forall url method body, Api.mutate server url method body st n = (noToken, st, n)).
Proof.
  intros noToken. subst noToken.
  assert (Hcfg : Api.notConfigured (Api.credentials st) = false).
  { unfold Api.notConfigured. apply String.eqb_neq in Hid, Hsecret.
    rewrite Hid, Hsecret. reflexivity. }
  assert (Hmk := makeRequest_no_token server).
  assert (Hev : forall lo hi,
            Api.orNull (Api.requestEvents server isoParam lo hi st n)
            = (Normal None, st, n)).
  { intros lo hi. unfold Api.requestEvents. rewrite Hcfg.
    destruct lo, hi; try reflexivity. rewrite Hmk by exact Htoken. reflexivity. }
  assert (Hts : forall keep,
            Api.orNull (Api.requestTasks server keep st n) = (Normal None, st, n)).
  { intros keep. unfold Api.requestTasks. rewrite Hcfg.
    rewrite Hmk by exact Htoken. reflexivity. }
  repeat split.
  - unfold Api.isConfigured. apply String.eqb_neq in Hid, Hsecret.
    rewrite Hid, Hsecret. reflexivity.
  - intros. apply Hmk, Htoken.
  - apply Hev.
  - apply Hts.
  - apply Hev.
  - apply Hts.
  - unfold Api.getTasks. rewrite Hcfg, Hmk by exact Htoken. reflexivity.
  - unfold Api.getEventsAndTasksForDate, Api.getEventsForDate, Api.getTasksForDate.
    rewrite Hev, Hts. reflexivity.
  - unfold Api.getEventsAndTasksForDateRange, Api.getEventsForDateRange,
      Api.getTasksForDateRange.
    rewrite Hev, Hts. reflexivity.
  - intros. unfold Api.mutate. rewrite Hcfg. apply Hmk, Htoken.
Qed.

Lemma no_access_token_witness :
  let st := Examples.signedIn None None in
  let n := Examples.offline in
  let noToken := Throw (ThrownError (newError "No access token available")) in
  Api.isConfigured (Api.credentials st) = true /\
  (forall url method body,
     Api.makeRequest Examples.google url method body st n = (noToken, st, n)) /\
  (forall date startDate endDate,
     Api.getEventsForDate Examples.google Examples.parseDate Examples.utc
         Examples.isoParam date st n
       = (Normal None, st, n) /\
     Api.getTasksForDate Examples.google Examples.parseDate Examples.utc date st n
       = (Normal None, st, n) /\
     Api.getEventsForDateRange Examples.google Examples.parseDate Examples.utc
         Examples.isoParam startDate endDate st n
       = (Normal None, st, n) /\
     Api.getTasksForDateRange Examples.google Examples.parseDate Examples.utc
         startDate endDate st n
       = (Normal None, st, n) /\
     Api.getTasks Examples.google st n = (Normal None, st, n) /\
     Api.getEventsAndTasksForDate Examples.google Examples.parseDate Examples.utc
         Examples.isoParam date st n
       = (Normal (Some {| Api.events := None; Api.tasks := None |}), st, n) /\
     Api.getEventsAndTasksForDateRange Examples.google Examples.parseDate
         Examples.utc Examples.isoParam startDate endDate st n
       = (Normal (Some {| Api.events := None; Api.tasks := None |}), st, n)) /\
  (forall url method body,
     Api.mutate Examples.google url method body st n = (noToken, st, n)).
Proof.
  apply (no_access_token Examples.google Examples.parseDate Examples.utc
           Examples.isoParam (Examples.signedIn None None) Examples.offline).
  - discriminate.
  - discriminate.
  - reflexivity.
Defined.

(** C7 as stated fails: without an access token [getEventsForDate] does not
    reject, it resolves with [null]. *)
Lemma fetch_without_token_resolves_null :
  ~ Api.fetchesFailWithoutToken Examples.google Examples.parseDate Examples.utc
      Examples.isoParam (Examples.signedIn None None) Examples.offline.
Proof.
  intros [_ H].
  destruct (H "2024-01-15" "2024-01-15" "2024-01-15") as [(e & He & _) _].
  vm_compute in He. discriminate He.
Qed.

(** C8, as amended.  [refreshAccessToken] never changes the stored refresh
    token, client id or client secret, whether it succeeds or fails.  A
    refresh that fails leaves the whole object state as it was.  A refresh
    that succeeds with an access token in the answer stores that access
    token and hands the answer to [onTokensUpdated]; the plugin's listener
    then writes a refresh token the answer carries to the settings.  An
    answer without an access token changes nothing. *)
Theorem refreshAccessToken_tokens {E : Type}
    (server : Api.Request -> E -> Completion Api.Json * E)
    (st : Api.ApiState) (n : Api.Net E) :
  let '(r, st', n') := Api.refreshAccessToken server st n in
  Api.refreshToken (Api.credentials st') = Api.refreshToken (Api.credentials st) /\
  Api.clientId (Api.credentials st') = Api.clientId (Api.credentials st) /\
  Api.clientSecret (Api.credentials st') = Api.clientSecret (Api.credentials st) /\
  match r with
  | Throw _ => st' = st
  | Normal _ =>
    exists j e1,
      server (Api.refreshRequest (Api.credentials st)) (Api.env n) = (Normal j, e1) /\
      let tokens := Api.asTokens j in
      if truthy (Api.access_token tokens) then
        Api.accessToken (Api.credentials st') = Api.access_token tokens /\
        Api.tokensUpdated st' = Api.tokensUpdated st ++ [tokens] /\
        forall settings,
          truthy (Api.refresh_token tokens) = true ->
          Some (Api.googleRefreshToken (Api.onTokensUpdated tokens settings))
          = Api.refresh_token tokens
      else st' = st
  end.
Proof.
  unfold Api.refreshAccessToken.
  destruct (truthy (Api.refreshToken (Api.credentials st))); simpl.
  - unfold Api.requestUrl.
    destruct (server (Api.refreshRequest (Api.credentials st)) (Api.env n))
      as [[j|error] e1] eqn:Hanswer.
    + assert (Hstored : forall tokens,
                if truthy (Api.access_token tokens) then
                  Api.accessToken (Api.credentials (Api.storeTokens tokens st))
                  = Api.access_token tokens /\
                  Api.tokensUpdated (Api.storeTokens tokens st)
                  = Api.tokensUpdated st ++ [tokens] /\
                  forall settings,
                    truthy (Api.refresh_token tokens) = true ->
                    Some (Api.googleRefreshToken (Api.onTokensUpdated tokens settings))
                    = Api.refresh_token tokens
                else Api.storeTokens tokens st = st).
      { intros tokens. unfold Api.storeTokens.
        destruct (truthy (Api.access_token tokens)) eqn:Hat; [|reflexivity].
        simpl. repeat split.
        - symmetry. apply truthy_Some, Hat.
        - intros settings Hrt. unfold Api.onTokensUpdated. rewrite Hrt. simpl.
          symmetry. apply truthy_Some, Hrt. }
      destruct j; simpl;
        try (repeat split; reflexivity);
        (split; [apply storeTokens_credentials|];
         split; [apply storeTokens_credentials|];
         split; [apply storeTokens_credentials|];
         eexists _, _; split; [reflexivity | apply Hstored]).
    + simpl. repeat split; reflexivity.
  - repeat split; reflexivity.
Qed.

Lemma refreshAccessToken_tokens_witness :
  let st := Examples.signedIn (Some "access-1") (Some "refresh-1") in
  let '(r, st', n') := Api.refreshAccessToken Examples.google st Examples.offline in
  Api.refreshToken (Api.credentials st') = Api.refreshToken (Api.credentials st) /\
  Api.clientId (Api.credentials st') = Api.clientId (Api.credentials st) /\
  Api.clientSecret (Api.credentials st') = Api.clientSecret (Api.credentials st) /\
  match r with
  | Throw _ => st' = st
  | Normal _ =>
    exists j e1,
      Examples.google (Api.refreshRequest (Api.credentials st))
        (Api.env Examples.offline) = (Normal j, e1) /\
      let tokens := Api.asTokens j in
      if truthy (Api.access_token tokens) then
        Api.accessToken (Api.credentials st') = Api.access_token tokens /\
        Api.tokensUpdated st' = Api.tokensUpdated st ++ [tokens] /\
        forall settings,
          truthy (Api.refresh_token tokens) = true ->
          Some (Api.googleRefreshToken (Api.onTokensUpdated tokens settings))
          = Api.refresh_token tokens
      else st' = st
  end.
Proof.
  exact (refreshAccessToken_tokens Examples.google
           (Examples.signedIn (Some "access-1") (Some "refresh-1"))
           Examples.offline).
Defined.

(** C8 as stated fails: the token endpoint answers with a new refresh
    token, and the stored refresh token is still the old one. *)
Lemma refresh_keeps_old_refresh_token :
  ~ Api.refreshReplacesTokens Examples.google
      (Examples.signedIn (Some "access-1") (Some "refresh-1")) Examples.offline.
Proof.
  intros H. unfold Api.refreshReplacesTokens in H. simpl in H.
  destruct (H Examples.rotatedTokens tt eq_refl) as [_ Hrefresh].
  specialize (Hrefresh eq_refl). discriminate Hrefresh.
Qed.

(** ** The facades *)
Section RetryOutcomes.
Import Retry.
Context {W T : Type}.
Variable rt : Runtime W.
Variable fn : W -> Completion T * W.
Variable cfg : FinalConfig.

Lemma retryLoop_invocations_ge (fuel : nat) :
  forall attempt lastError w calls errs slept,
    (calls <= invocations
                (retryLoop rt fn cfg fuel attempt lastError w calls errs slept))%nat.
Proof.
  induction fuel as [|fuel IH]; intros attempt lastError w calls errs slept; simpl.
  - lia.
  - destruct (attempt <=? fMaxRetries cfg); [|simpl; lia].
    destruct (fn w) as [[v|t] w1]; [simpl; lia|].
    destruct (attempt >=? fMaxRetries cfg); [simpl; lia|].
    destruct (negb (fIsRetryable cfg (toError t))); [simpl; lia|].
    destruct (fUseJitter cfg).
    + destruct (random rt w1) as [r w2].
      etransitivity; [|apply IH]. lia.
    + etransitivity; [|apply IH]. lia.
Qed.

End RetryOutcomes.

Section RetryOfCalls.
Import Retry Facade.
Context {W T : Type}.
Variable rt : Runtime W.
Variable fn : W -> Completion T * W.
Variable config : RetryConfig.

(** With at least one attempt allowed, a function that returns at its
    first call is invoked once, and its value is the result. *)
Lemma withRetry_first_success (w w1 : W) (v : T) :
  0 <= fMaxRetries (finalConfig config) ->
  fn w = (Normal v, w1) ->
  withRetry rt fn config w =
  {| outcome := Normal v; world := w1; invocations := 1;
     caught := []; delays := [] |}.
Proof.
  intros Hmax Hfn. unfold withRetry.
  generalize dependent (finalConfig config). intros cfg Hmax.
  destruct (Z.to_nat (fMaxRetries cfg + 1)) as [|k] eqn:Hk; [lia|].
  simpl. destruct (Z.leb_spec 0 (fMaxRetries cfg)); [|lia].
  rewrite Hfn. reflexivity.
Qed.

Lemma withRetry_invoked (w : W) :
  0 <= fMaxRetries (finalConfig config) ->
  (1 <= invocations (withRetry rt fn config w))%nat.
Proof.
  intros Hmax. unfold withRetry.
  generalize dependent (finalConfig config). intros cfg Hmax.
  destruct (Z.to_nat (fMaxRetries cfg + 1)) as [|k] eqn:Hk; [lia|].
  simpl. destruct (Z.leb_spec 0 (fMaxRetries cfg)); [|lia].
  destruct (fn w) as [[v|t] w1]; [simpl; lia|].
  destruct (0 >=? fMaxRetries cfg); [simpl; lia|].
  destruct (negb (fIsRetryable cfg (toError t))); [simpl; lia|].
  destruct (fUseJitter cfg).
  - destruct (random rt w1) as [r w2]. apply retryLoop_invocations_ge.
  - apply retryLoop_invocations_ge.
Qed.

End RetryOfCalls.

Section FacadeProperties.
Import Retry Facade.
Context {E : Type}.
Variable host : Host E.

(** The API calls of a run of [withRetry] are its invocations. *)
Lemma retryLoop_call_log {A : Type} (c : ApiCall) (m : E -> Completion A * E)
    (cfg : FinalConfig) (fuel : nat) :
  forall attempt lastError w calls errs slept,
    let r := retryLoop (worldRuntime host) (call c m) cfg fuel attempt lastError
                       w calls errs slept in
    apiCalls (world r) = apiCalls w ++ replicate (invocations r - calls) c.
Proof.
  assert (Hnil : forall (w : World E) k, apiCalls w = apiCalls w ++ replicate (k - k) c).
  { intros w k. rewrite Nat.sub_diag. simpl. rewrite app_nil_r. reflexivity. }
  assert (Hone : forall (w : World E) k,
            apiCalls w ++ [c] = apiCalls w ++ replicate (S k - k) c).
  { intros w k. replace (S k - k)%nat with 1%nat by lia. reflexivity. }
  assert (Hcall : forall (w w1 : World E) r,
            call c m w = (r, w1) -> apiCalls w1 = apiCalls w ++ [c]).
  { intros w w1 r. unfold call. destruct (m (env w)) as [r0 e1].
    intros [= _ <-]. reflexivity. }
  induction fuel as [|fuel IH]; intros attempt lastError w calls errs slept; simpl.
  - apply Hnil.
  - destruct (attempt <=? fMaxRetries cfg); [|simpl; apply Hnil].
    destruct (call c m w) as [[v|t] w1] eqn:Hc; apply Hcall in Hc.
    { simpl. rewrite Hc. apply Hone. }
    destruct (attempt >=? fMaxRetries cfg); [simpl; rewrite Hc; apply Hone|].
    destruct (negb (fIsRetryable cfg (toError t))); [simpl; rewrite Hc; apply Hone|].
    assert (Hstep : forall (w' : World E) slept',
              apiCalls w' = apiCalls w ++ [c] ->
              let r := retryLoop (worldRuntime host) (call c m) cfg fuel (attempt + 1)
                         (Some (toError t)) w' (S calls) (errs ++ [toError t]) slept' in
              apiCalls (world r) = apiCalls w ++ replicate (invocations r - calls) c).
    { intros w' slept' Hw'. simpl. rewrite IH, Hw'.
      pose proof (retryLoop_invocations_ge (worldRuntime host) (call c m) cfg fuel
                    (attempt + 1) (Some (toError t)) w' (S calls)
                    (errs ++ [toError t]) slept') as Hge.
      set (k := invocations _) in *.
      replace (k - calls)%nat with (S (k - S calls)) by lia.
      simpl. rewrite <- app_assoc. reflexivity. }
    destruct (fUseJitter cfg); simpl.
    + destruct (random (runtime host) (env w1)) as [r e2]. apply Hstep. exact Hc.
    + apply Hstep. exact Hc.
Qed.

Lemma withRetry_call_log {A : Type} (c : ApiCall) (m : E -> Completion A * E)
    (config : RetryConfig) (w : World E) :
  let run := withRetry (worldRuntime host) (call c m) config w in
  apiCalls (world run) = apiCalls w ++ replicate (invocations run) c.
Proof.
  simpl. unfold withRetry. rewrite retryLoop_call_log. rewrite Nat.sub_0_r.
  reflexivity.
Qed.

(** At least one API call, when an attempt is allowed. *)
Lemma withRetry_calls_api {A : Type} (c : ApiCall) (m : E -> Completion A * E)
    (config : RetryConfig) (w : World E) :
  0 <= fMaxRetries (finalConfig config) ->
  exists k, (1 <= k)%nat /\
    apiCalls (world (withRetry (worldRuntime host) (call c m) config w))
    = apiCalls w ++ replicate k c.
Proof.
  intros Hmax. eexists. split; [|apply withRetry_call_log].
  apply withRetry_invoked. exact Hmax.
Qed.


(** *** The cache *)

(** An entry older than the TTL is never returned. *)
Lemma getFromCache_fresh {D : Type} (key : string) (now : Z)
    (c : gmap string (CacheEntry D)) (d : D) :
  (getFromCache key now c).1 = Some d ->
  exists entry, c !! key = Some entry /\ data entry = d /\
                now - timestamp entry <= CACHE_TTL.
Proof.
  unfold getFromCache. destruct (c !! key) as [entry|]; [|discriminate].
  destruct (Z.gtb_spec (now - timestamp entry) CACHE_TTL); simpl; [discriminate|].
  intros [= <-]. exists entry. repeat split. lia.
Qed.

Lemma getFromCache_hit {D : Type} (key : string) (now : Z)
    (c : gmap string (CacheEntry D)) (entry : CacheEntry D) :
  c !! key = Some entry -> now - timestamp entry <= CACHE_TTL ->
  getFromCache key now c = (Some (data entry), c).
Proof.
  intros Hc Hage. unfold getFromCache. rewrite Hc.
  destruct (Z.gtb_spec (now - timestamp entry) CACHE_TTL); [lia | reflexivity].
Qed.

Lemma getFromCache_stale {D : Type} (key : string) (now : Z)
    (c : gmap string (CacheEntry D)) (entry : CacheEntry D) :
  c !! key = Some entry -> now - timestamp entry > CACHE_TTL ->
  getFromCache key now c = (None, delete key c).
Proof.
  intros Hc Hage. unfold getFromCache. rewrite Hc.
  destruct (Z.gtb_spec (now - timestamp entry) CACHE_TTL); [reflexivity | lia].
Qed.

Lemma getFromCache_empty {D : Type} (key : string) (now : Z) :
  getFromCache key now (∅ : gmap string (CacheEntry D)) = (None, ∅).
Proof. unfold getFromCache. rewrite lookup_empty. reflexivity. Qed.

Lemma withCache_same {D : Type} (f : FacadeState D) : withCache f (cache f) = f.
Proof. destruct f. reflexivity. Qed.

Lemma cache_ensureReady {D : Type} (f : FacadeState D) :
  cache (ensureReady f) = cache f.
Proof. unfold ensureReady. destruct (_isReady f); reflexivity. Qed.

Lemma retryConfig_ensureReady {D : Type} (f : FacadeState D) :
  retryConfig (ensureReady f) = retryConfig f.
Proof. unfold ensureReady. destruct (_isReady f); reflexivity. Qed.

End FacadeProperties.

Section FetchProperties.
Import Retry Facade.
Context {E : Type}.
Variable host : Host E.
Variable api : GoogleCalendarAPI E.

Lemma call_returns {A : Type} (c : ApiCall) (m : E -> Completion A * E)
    (w : World E) (r : Completion A) (e1 : E) :
  m (env w) = (r, e1) ->
  call c m w = (r, {| env := e1; apiCalls := apiCalls w ++ [c] |}).
Proof. intros H. unfold call. rewrite H. reflexivity. Qed.

(** *** [fetchEvents] *)

(** A fresh entry is returned as it is, without an API call. *)
Lemma fetchEvents_hit options (f : FacadeState (list CalendarEvent))
    (w : World E) entry :
  cache f !! GoogleCalendarFacade.getCacheKey options = Some entry ->
  now host w - timestamp entry <= CACHE_TTL ->
  GoogleCalendarFacade.fetchEvents host api options f w
  = (Normal (data entry), ensureReady f, w).
Proof.
  intros Hc Hage. unfold GoogleCalendarFacade.fetchEvents.
  rewrite cache_ensureReady, (getFromCache_hit _ _ _ _ Hc Hage).
  rewrite <- (cache_ensureReady f), withCache_same. reflexivity.
Qed.

(** A miss goes to the API, at least once when an attempt is allowed. *)
Lemma fetchEvents_miss options (f : FacadeState (list CalendarEvent))
    (w : World E) :
  (getFromCache (GoogleCalendarFacade.getCacheKey options) (now host w) (cache f)).1
    = None ->
  0 <= fMaxRetries (finalConfig (retryConfig f)) ->
  exists k, (1 <= k)%nat /\
    apiCalls (GoogleCalendarFacade.fetchEvents host api options f w).2
    = apiCalls w ++
      replicate k (CallGetEventsAndTasksForDateRange (startDate options)
                                                     (endDate options)).
Proof.
  intros Hmiss Hmax. unfold GoogleCalendarFacade.fetchEvents.
  rewrite cache_ensureReady.
  destruct (getFromCache _ _ (cache f)) as [cached c]. simpl in Hmiss. subst cached.
  simpl. rewrite retryConfig_ensureReady.
  destruct (withRetry_calls_api host
              (CallGetEventsAndTasksForDateRange (startDate options) (endDate options))
              (API.getEventsAndTasksForDateRange api (startDate options) (endDate options))
              (retryConfig f) w Hmax) as (k & Hk & Hlog).
  exists k. split; [exact Hk|].
  destruct (outcome _); simpl; exact Hlog.
Qed.

(** What a miss returns is stored anew, at the time the fetch ends. *)
Lemma fetchEvents_miss_stores options (f : FacadeState (list CalendarEvent))
    (w : World E) :
  (getFromCache (GoogleCalendarFacade.getCacheKey options) (now host w) (cache f)).1
    = None ->
  let '(r, f2, w2) := GoogleCalendarFacade.fetchEvents host api options f w in
  forall d, r = Normal d ->
    cache f2 !! GoogleCalendarFacade.getCacheKey options
    = Some {| data := d; timestamp := now host w2 |}.
Proof.
  intros Hmiss. unfold GoogleCalendarFacade.fetchEvents.
  rewrite cache_ensureReady.
  destruct (getFromCache _ _ (cache f)) as [cached c]. simpl in Hmiss. subst cached.
  simpl. destruct (outcome _); simpl.
  - intros d [= <-]. apply lookup_insert_eq.
  - intros d Hd. discriminate Hd.
Qed.

(** A miss answered at the first attempt stores what the API answered. *)
Lemma fetchEvents_first options (f : FacadeState (list CalendarEvent))
    (w : World E) result e1 :
  (getFromCache (GoogleCalendarFacade.getCacheKey options) (now host w) (cache f)).1
    = None ->
  0 <= fMaxRetries (finalConfig (retryConfig f)) ->
  API.getEventsAndTasksForDateRange api (startDate options) (endDate options) (env w)
    = (Normal result, e1) ->
  let events :=
    GoogleCalendarFacade.transformEvents (GoogleCalendarFacade.eventItems result) in
  let key := GoogleCalendarFacade.getCacheKey options in
  GoogleCalendarFacade.fetchEvents host api options f w
  = (Normal events,
     withCache (ensureReady f)
       (setCache key events (clock host e1)
          (getFromCache key (now host w) (cache f)).2),
     {| env := e1;
        apiCalls := apiCalls w ++
          [CallGetEventsAndTasksForDateRange (startDate options) (endDate options)] |}).
Proof.
  intros Hmiss Hmax Hapi. unfold GoogleCalendarFacade.fetchEvents.
  rewrite cache_ensureReady.
  destruct (getFromCache _ _ (cache f)) as [cached c]. simpl in Hmiss. subst cached.
  simpl. rewrite retryConfig_ensureReady.
  rewrite (withRetry_first_success _ _ _ w _ result Hmax
             (call_returns _ _ _ _ _ Hapi)).
  reflexivity.
Qed.

(** *** [fetchTasks] *)

Lemma fetchTasks_hit options (f : FacadeState (list Task)) (w : World E) entry :
  cache f !! GoogleTasksFacade.getCacheKey options = Some entry ->
  now host w - timestamp entry <= CACHE_TTL ->
  GoogleTasksFacade.fetchTasks host api options f w
  = (Normal (data entry), ensureReady f, w).
Proof.
  intros Hc Hage. unfold GoogleTasksFacade.fetchTasks.
  rewrite cache_ensureReady, (getFromCache_hit _ _ _ _ Hc Hage).
  rewrite <- (cache_ensureReady f), withCache_same. reflexivity.
Qed.

(** A miss with a start date goes to the API. *)
Lemma fetchTasks_miss options (f : FacadeState (list Task)) (w : World E) :
  (getFromCache (GoogleTasksFacade.getCacheKey options) (now host w) (cache f)).1
    = None ->
  truthy (tStartDate options) = true ->
  0 <= fMaxRetries (finalConfig (retryConfig f)) ->
  (length (apiCalls w)
   < length (apiCalls (GoogleTasksFacade.fetchTasks host api options f w).2))%nat.
Proof.
  intros Hmiss Hstart Hmax. unfold GoogleTasksFacade.fetchTasks.
  rewrite cache_ensureReady.
  destruct (getFromCache _ _ (cache f)) as [cached c]. simpl in Hmiss. subst cached.
  simpl. rewrite retryConfig_ensureReady, Hstart. simpl.
  destruct (truthy (tEndDate options)).
  - match goal with
    | |- context [withRetry _ (call ?c ?m) _ _] =>
      destruct (withRetry_calls_api host c m (retryConfig f) w Hmax)
        as (k & Hk & Hlog)
    end.
    destruct (outcome _); simpl; rewrite Hlog, length_app, length_replicate; lia.
  - match goal with
    | |- context [withRetry _ (call ?c ?m) _ _] =>
      destruct (withRetry_calls_api host c m (retryConfig f) w Hmax)
        as (k & Hk & Hlog)
    end.
    destruct (outcome _); simpl; rewrite Hlog, length_app, length_replicate; lia.
Qed.

Lemma fetchTasks_miss_stores options (f : FacadeState (list Task)) (w : World E) :
  (getFromCache (GoogleTasksFacade.getCacheKey options) (now host w) (cache f)).1
    = None ->
  let '(r, f2, w2) := GoogleTasksFacade.fetchTasks host api options f w in
  forall d, r = Normal d ->
    cache f2 !! GoogleTasksFacade.getCacheKey options
    = Some {| data := d; timestamp := now host w2 |}.
Proof.
  intros Hmiss. unfold GoogleTasksFacade.fetchTasks.
  rewrite cache_ensureReady.
  destruct (getFromCache _ _ (cache f)) as [cached c]. simpl in Hmiss. subst cached.
  simpl.
  destruct (truthy (tStartDate options)); simpl;
    [destruct (truthy (tEndDate options)); simpl|];
    try destruct (outcome _); simpl;
    first [ intros d [= <-]; apply lookup_insert_eq
          | intros d Hd; discriminate Hd ].
Qed.

(** A miss with a start date, answered at the first attempt, stores what
    the API answered, after one API call. *)
Lemma fetchTasks_first options (f : FacadeState (list Task)) (w : World E)
    result e1 :
  (getFromCache (GoogleTasksFacade.getCacheKey options) (now host w) (cache f)).1
    = None ->
  truthy (tStartDate options) = true ->
  0 <= fMaxRetries (finalConfig (retryConfig f)) ->
  (if truthy (tEndDate options)
   then API.getEventsAndTasksForDateRange api (default "" (tStartDate options))
          (default "" (tEndDate options)) (env w)
   else API.getEventsAndTasksForDate api (default "" (tStartDate options)) (env w))
    = (Normal result, e1) ->
  let tasks := GoogleTasksFacade.transformTasks (GoogleTasksFacade.taskItems result) in
  let key := GoogleTasksFacade.getCacheKey options in
  exists c,
    GoogleTasksFacade.fetchTasks host api options f w
    = (Normal tasks,
       withCache (ensureReady f)
         (setCache key tasks (clock host e1)
            (getFromCache key (now host w) (cache f)).2),
       {| env := e1; apiCalls := apiCalls w ++ [c] |}).
Proof.
  intros Hmiss Hstart Hmax Hapi. unfold GoogleTasksFacade.fetchTasks.
  rewrite cache_ensureReady.
  destruct (getFromCache _ _ (cache f)) as [cached c]. simpl in Hmiss. subst cached.
  simpl. rewrite retryConfig_ensureReady, Hstart. simpl.
  destruct (truthy (tEndDate options)).
  - eexists.
    rewrite (withRetry_first_success _ _ _ w _ result Hmax
               (call_returns _ _ _ _ _ Hapi)).
    reflexivity.
  - eexists.
    rewrite (withRetry_first_success _ _ _ w _ result Hmax
               (call_returns _ _ _ _ _ Hapi)).
    reflexivity.
Qed.
End FetchProperties.

(** The definitions at work: two fetches 30 s apart make one API call, two
    fetches 90 s apart make two; when the first attempt of the first fetch
    fails with a network error, two fetches within the TTL make two API
    calls. *)
Example fetchEvents_twice :
  let fetch := Facade.GoogleCalendarFacade.fetchEvents Examples.wallClock
                 Examples.workingApi Examples.january15 in
  let '(r1, f1, w1) := fetch (Facade.newFacade None) (Examples.at_ 0) in
  let '(r2, _, w2) :=
    fetch f1 {| Facade.env := 30000; Facade.apiCalls := Facade.apiCalls w1 |} in
  let '(r3, _, w3) :=
    fetch f1 {| Facade.env := 90000; Facade.apiCalls := Facade.apiCalls w1 |} in
  r2 = r1 /\ length (Facade.apiCalls w2) = 1%nat /\
  r3 = r1 /\ length (Facade.apiCalls w3) = 2%nat.
Proof. vm_compute. repeat split; reflexivity. Qed.

Example fetchEvents_retried :
  let fetch := Facade.GoogleCalendarFacade.fetchEvents Examples.wallClock
                 Examples.flakyApi Examples.january15 in
  let '(r1, f1, w1) := fetch (Facade.newFacade None) (Examples.at_ 0) in
  let '(r2, _, w2) :=
    fetch f1 {| Facade.env := 30000; Facade.apiCalls := Facade.apiCalls w1 |} in
  r2 = r1 /\ Facade.env w1 = 1240 /\ length (Facade.apiCalls w2) = 2%nat.
Proof. vm_compute. repeat split; reflexivity. Qed.

(** C4, as amended.  An entry older than the TTL is never returned.  For
    [fetchEvents], and for [fetchTasks] with a start date: when a first call
    misses the cache and the API answers its first attempt, that call makes
    exactly one API call and stores the data; a second call with the same
    key while the entry's age is within the 60 s TTL makes no API call and
    returns the stored data, one made after the age exceeds the TTL goes to
    the API again. *)
Theorem facade_cache_round_trip {E : Type} (host : Facade.Host E)
    (api : Facade.GoogleCalendarAPI E) :
  (forall (D : Type) (key : string) (now : Z)
          (c : gmap string (Facade.CacheEntry D)) (d : D),
     (Facade.getFromCache key now c).1 = Some d ->
     exists entry, c !! key = Some entry /\ Facade.data entry = d /\
                   now - Facade.timestamp entry <= Facade.CACHE_TTL) /\
  (forall options options' (f : Facade.FacadeState (list Facade.CalendarEvent))
          (w : Facade.World E) (env2 : E) result e1,
     Facade.GoogleCalendarFacade.getCacheKey options
       = Facade.GoogleCalendarFacade.getCacheKey options' ->
     0 <= Retry.fMaxRetries (Retry.finalConfig (Facade.retryConfig f)) ->
     (Facade.getFromCache (Facade.GoogleCalendarFacade.getCacheKey options)
        (Facade.now host w) (Facade.cache f)).1 = None ->
     Facade.API.getEventsAndTasksForDateRange api (Facade.startDate options)
       (Facade.endDate options) (Facade.env w) = (Normal result, e1) ->
     let '(r1, f1, w1) := Facade.GoogleCalendarFacade.fetchEvents host api options f w in
     let '(r2, f2, w2) :=
       Facade.GoogleCalendarFacade.fetchEvents host api options' f1
         {| Facade.env := env2; Facade.apiCalls := Facade.apiCalls w1 |} in
     let age := Facade.clock host env2 - Facade.clock host e1 in
     r1 = Normal (Facade.GoogleCalendarFacade.transformEvents
                    (Facade.GoogleCalendarFacade.eventItems result)) /\
     Facade.apiCalls w1 =
       Facade.apiCalls w ++
       [Facade.CallGetEventsAndTasksForDateRange (Facade.startDate options)
                                                 (Facade.endDate options)] /\
     (age <= Facade.CACHE_TTL ->
      r2 = r1 /\ Facade.apiCalls w2 = Facade.apiCalls w1) /\
     (age > Facade.CACHE_TTL ->
      exists k, (1 <= k)%nat /\
        Facade.apiCalls w2 =
          Facade.apiCalls w1 ++
          replicate k (Facade.CallGetEventsAndTasksForDateRange
                         (Facade.startDate options') (Facade.endDate options')))) /\
  (forall options options' (f : Facade.FacadeState (list Facade.Task))
          (w : Facade.World E) (env2 : E) result e1,
     Facade.GoogleTasksFacade.getCacheKey options
       = Facade.GoogleTasksFacade.getCacheKey options' ->
     truthy (Facade.tStartDate options) = true ->
     truthy (Facade.tStartDate options') = true ->
     0 <= Retry.fMaxRetries (Retry.finalConfig (Facade.retryConfig f)) ->
     (Facade.getFromCache (Facade.GoogleTasksFacade.getCacheKey options)
        (Facade.now host w) (Facade.cache f)).1 = None ->
     (if truthy (Facade.tEndDate options)
      then Facade.API.getEventsAndTasksForDateRange api
             (default "" (Facade.tStartDate options))
             (default "" (Facade.tEndDate options)) (Facade.env w)
      else Facade.API.getEventsAndTasksForDate api
             (default "" (Facade.tStartDate options)) (Facade.env w))
       = (Normal result, e1) ->
     let '(r1, f1, w1) := Facade.GoogleTasksFacade.fetchTasks host api options f w in
     let '(r2, f2, w2) :=
       Facade.GoogleTasksFacade.fetchTasks host api options' f1
         {| Facade.env := env2; Facade.apiCalls := Facade.apiCalls w1 |} in
     let age := Facade.clock host env2 - Facade.clock host e1 in
     r1 = Normal (Facade.GoogleTasksFacade.transformTasks
                    (Facade.GoogleTasksFacade.taskItems result)) /\
     length (Facade.apiCalls w1) = S (length (Facade.apiCalls w)) /\
     (age <= Facade.CACHE_TTL ->
      r2 = r1 /\ Facade.apiCalls w2 = Facade.apiCalls w1) /\
     (age > Facade.CACHE_TTL ->
      (length (Facade.apiCalls w1) < length (Facade.apiCalls w2))%nat)).
Proof.
  split; [|split].
  - intros D key now c d. apply getFromCache_fresh.
  - intros options options' f w env2 result e1 Hkey Hmax Hmiss Hapi.
    rewrite (fetchEvents_first host api options f w result e1 Hmiss Hmax Hapi).
    set (events := Facade.GoogleCalendarFacade.transformEvents _).
    set (f1 := Facade.withCache _ _).
    set (w2 := {| Facade.env := env2 |}).
    assert (Hentry : Facade.cache f1 !! Facade.GoogleCalendarFacade.getCacheKey options'
                     = Some {| Facade.data := events;
                               Facade.timestamp := Facade.clock host e1 |}).
    { subst f1. simpl. unfold Facade.setCache. rewrite <- Hkey.
      apply lookup_insert_eq. }
    destruct (Facade.GoogleCalendarFacade.fetchEvents host api options' f1 w2)
      as [[r2 f2] w2'] eqn:Hsecond.
    simpl. split; [reflexivity|]. split; [reflexivity|]. split.
    + intros Hage.
      rewrite (fetchEvents_hit host api options' f1 w2 _ Hentry) in Hsecond
        by exact Hage.
      injection Hsecond as <- _ <-. split; reflexivity.
    + intros Hage.
      destruct (fetchEvents_miss host api options' f1 w2) as (k & Hk & Hlog).
      { rewrite (getFromCache_stale _ _ _ _ Hentry); [reflexivity|]. exact Hage. }
      { subst f1. simpl. rewrite retryConfig_ensureReady. exact Hmax. }
      rewrite Hsecond in Hlog. exists k. split; [exact Hk | exact Hlog].
  - intros options options' f w env2 result e1 Hkey Hs Hs' Hmax Hmiss Hapi.
    destruct (fetchTasks_first host api options f w result e1 Hmiss Hs Hmax Hapi)
      as (c & ->).
    set (tasks := Facade.GoogleTasksFacade.transformTasks _).
    set (f1 := Facade.withCache _ _).
    set (w2 := {| Facade.env := env2 |}).
    assert (Hentry : Facade.cache f1 !! Facade.GoogleTasksFacade.getCacheKey options'
                     = Some {| Facade.data := tasks;
                               Facade.timestamp := Facade.clock host e1 |}).
    { subst f1. simpl. unfold Facade.setCache. rewrite <- Hkey.
      apply lookup_insert_eq. }
    destruct (Facade.GoogleTasksFacade.fetchTasks host api options' f1 w2)
      as [[r2 f2] w2'] eqn:Hsecond.
    simpl. split; [reflexivity|]. split; [rewrite length_app; simpl; lia|]. split.
    + intros Hage.
      rewrite (fetchTasks_hit host api options' f1 w2 _ Hentry) in Hsecond
        by exact Hage.
      injection Hsecond as <- _ <-. split; reflexivity.
    + intros Hage.
      pose proof (fetchTasks_miss host api options' f1 w2) as Hlt.
      rewrite Hsecond in Hlt. apply Hlt.
      * rewrite (getFromCache_stale _ _ _ _ Hentry); [reflexivity|]. exact Hage.
      * exact Hs'.
      * subst f1. simpl. rewrite retryConfig_ensureReady. exact Hmax.
Qed.

Lemma facade_cache_round_trip_witness :
  (let '(r1, f1, w1) :=
     Facade.GoogleCalendarFacade.fetchEvents Examples.wallClock Examples.workingApi
       Examples.january15 (Facade.newFacade None) (Examples.at_ 0) in
   let '(r2, f2, w2) :=
     Facade.GoogleCalendarFacade.fetchEvents Examples.wallClock Examples.workingApi
       Examples.january15 f1
       {| Facade.env := 30000; Facade.apiCalls := Facade.apiCalls w1 |} in
   let age := Facade.clock Examples.wallClock 30000
              - Facade.clock Examples.wallClock 120 in
   r1 = Normal (Facade.GoogleCalendarFacade.transformEvents
                  (Facade.GoogleCalendarFacade.eventItems (Some Examples.calendarData))) /\
   Facade.apiCalls w1 =
     Facade.apiCalls (Examples.at_ 0) ++
     [Facade.CallGetEventsAndTasksForDateRange
        (Facade.startDate Examples.january15) (Facade.endDate Examples.january15)] /\
   (age <= Facade.CACHE_TTL ->
    r2 = r1 /\ Facade.apiCalls w2 = Facade.apiCalls w1) /\
   (age > Facade.CACHE_TTL ->
    exists k, (1 <= k)%nat /\
      Facade.apiCalls w2 =
        Facade.apiCalls w1 ++
        replicate k (Facade.CallGetEventsAndTasksForDateRange
                       (Facade.startDate Examples.january15)
                       (Facade.endDate Examples.january15)))) /\
  (let '(r1, f1, w1) :=
     Facade.GoogleTasksFacade.fetchTasks Examples.wallClock Examples.workingApi
       Examples.tasksOfJanuary15 (Facade.newFacade None) (Examples.at_ 0) in
   let '(r2, f2, w2) :=
     Facade.GoogleTasksFacade.fetchTasks Examples.wallClock Examples.workingApi
       Examples.tasksOfJanuary15 f1
       {| Facade.env := 90000; Facade.apiCalls := Facade.apiCalls w1 |} in
   let age := Facade.clock Examples.wallClock 90000
              - Facade.clock Examples.wallClock 120 in
   r1 = Normal (Facade.GoogleTasksFacade.transformTasks
                  (Facade.GoogleTasksFacade.taskItems (Some Examples.calendarData))) /\
   length (Facade.apiCalls w1) = S (length (Facade.apiCalls (Examples.at_ 0))) /\
   (age <= Facade.CACHE_TTL ->
    r2 = r1 /\ Facade.apiCalls w2 = Facade.apiCalls w1) /\
   (age > Facade.CACHE_TTL ->
    (length (Facade.apiCalls w1) < length (Facade.apiCalls w2))%nat)).
Proof.
  destruct (facade_cache_round_trip Examples.wallClock Examples.workingApi)
    as (_ & Hevents & Htasks).
  split.
  - apply (Hevents Examples.january15 Examples.january15 (Facade.newFacade None)
             (Examples.at_ 0) 30000 (Some Examples.calendarData) 120).
    + reflexivity.
    + discriminate.
    + reflexivity.
    + reflexivity.
  - apply (Htasks Examples.tasksOfJanuary15 Examples.tasksOfJanuary15
             (Facade.newFacade None) (Examples.at_ 0) 90000
             (Some Examples.calendarData) 120).
    + reflexivity.
    + reflexivity.
    + reflexivity.
    + discriminate.
    + reflexivity.
    + reflexivity.
Defined.

(** C4 as stated fails for [fetchTasks] without dates: neither the first
    call nor a second one, within the TTL or after it, reaches the API. *)
Lemma fetchTasks_without_dates_calls_no_api :
  ~ Facade.taskCacheRoundTripAsSpecified Examples.wallClock Examples.workingApi
      Examples.allTasks (Facade.newFacade None) (Examples.at_ 0) 30000.
Proof.
  intros H. unfold Facade.taskCacheRoundTripAsSpecified in H.
  specialize (H eq_refl).
  vm_compute in H.
  destruct (H _ eq_refl) as [Hfresh _].
  destruct Hfresh as [Hcalls _]; [discriminate | discriminate Hcalls].
Qed.

Section MutationProperties.
Import Retry Facade.
Context {E : Type}.
Variable host : Host E.
Variable api : GoogleCalendarAPI E.

Ltac by_outcome :=
  match goal with
  | |- context [outcome ?run] =>
    destruct (outcome run) as [[v|]|t]; simpl;
    unfold afterMutation; simpl; rewrite ?retryConfig_ensureReady;
    (split; [reflexivity | split; [try reflexivity; try discriminate | auto]])
  end.

Lemma applyEventMutation_state (m : EventMutation)
    (f : FacadeState (list CalendarEvent)) (w : World E) :
  let '(r, f', _) := applyEventMutation host api m f w in afterMutation r f f'.
Proof.
  destruct m; simpl.
  - unfold GoogleCalendarFacade.createEvent. by_outcome.
  - unfold GoogleCalendarFacade.updateEvent. by_outcome.
  - unfold GoogleCalendarFacade.deleteEvent.
    destruct (outcome _) as [v|t]; simpl; unfold afterMutation; simpl;
      rewrite ?retryConfig_ensureReady;
      (split; [reflexivity | split; [try reflexivity; try discriminate | auto]]).
Qed.

Lemma applyTaskMutation_state (m : TaskMutation)
    (f : FacadeState (list Task)) (w : World E) :
  let '(r, f', _) := applyTaskMutation host api m f w in afterMutation r f f'.
Proof.
  destruct m; simpl.
  - unfold GoogleTasksFacade.createTask. by_outcome.
  - unfold GoogleTasksFacade.updateTask. by_outcome.
  - unfold GoogleTasksFacade.completeTask, GoogleTasksFacade.updateTask. by_outcome.
  - unfold GoogleTasksFacade.deleteTask.
    destruct (outcome _) as [v|t]; simpl; unfold afterMutation; simpl;
      rewrite ?retryConfig_ensureReady;
      (split; [reflexivity | split; [try reflexivity; try discriminate | auto]]).
Qed.



End MutationProperties.

(** C5.  After any successful create, update or delete on the calendar
    facade, and any successful create, update, complete or delete on the
    tasks facade, the facade's whole cache is empty: every key misses at any
    time, whatever the age of the entry it had, and the next fetch goes to
    the API ([fetchTasks] when it has a start date to ask the API for) and
    stores what it returns anew. *)
Theorem mutation_clears_cache {E : Type} (host : Facade.Host E)
    (api : Facade.GoogleCalendarAPI E) :
  (forall (m : Facade.EventMutation)
          (f : Facade.FacadeState (list Facade.CalendarEvent)) (w : Facade.World E),
     let '(r, f', w') := Facade.applyEventMutation host api m f w in
     succeeded r = true ->
     Facade.cache f' = ∅ /\
     forall options (w2 : Facade.World E),
       (Facade.getFromCache (Facade.GoogleCalendarFacade.getCacheKey options)
          (Facade.now host w2) (Facade.cache f')).1 = None /\
       (let '(r2, f2, w2') :=
          Facade.GoogleCalendarFacade.fetchEvents host api options f' w2 in
        forall d, r2 = Normal d ->
          Facade.cache f2 !! Facade.GoogleCalendarFacade.getCacheKey options
          = Some {| Facade.data := d; Facade.timestamp := Facade.now host w2' |}) /\
       (0 <= Retry.fMaxRetries (Retry.finalConfig (Facade.retryConfig f)) ->
        exists k, (1 <= k)%nat /\
          Facade.apiCalls
            (Facade.GoogleCalendarFacade.fetchEvents host api options f' w2).2
          = Facade.apiCalls w2 ++
            replicate k (Facade.CallGetEventsAndTasksForDateRange
                           (Facade.startDate options) (Facade.endDate options)))) /\
  (forall (m : Facade.TaskMutation)
          (f : Facade.FacadeState (list Facade.Task)) (w : Facade.World E),
     let '(r, f', w') := Facade.applyTaskMutation host api m f w in
     succeeded r = true ->
     Facade.cache f' = ∅ /\
     forall options (w2 : Facade.World E),
       (Facade.getFromCache (Facade.GoogleTasksFacade.getCacheKey options)
          (Facade.now host w2) (Facade.cache f')).1 = None /\
       (let '(r2, f2, w2') :=
          Facade.GoogleTasksFacade.fetchTasks host api options f' w2 in
        forall d, r2 = Normal d ->
          Facade.cache f2 !! Facade.GoogleTasksFacade.getCacheKey options
          = Some {| Facade.data := d; Facade.timestamp := Facade.now host w2' |}) /\
       (truthy (Facade.tStartDate options) = true ->
        0 <= Retry.fMaxRetries (Retry.finalConfig (Facade.retryConfig f)) ->
        (length (Facade.apiCalls w2)
         < length (Facade.apiCalls
                     (Facade.GoogleTasksFacade.fetchTasks host api options f' w2).2))%nat)).
Proof.
  split.
  - intros m f w.
    pose proof (applyEventMutation_state host api m f w) as Hstate.
    destruct (Facade.applyEventMutation host api m f w) as [[r f'] w'].
    destruct Hstate as (Hcfg & Hempty & _).
    intros Hok. specialize (Hempty Hok). split; [exact Hempty|].
    intros options w2.
    assert (Hmiss : (Facade.getFromCache (Facade.GoogleCalendarFacade.getCacheKey options)
                       (Facade.now host w2) (Facade.cache f')).1 = None).
    { rewrite Hempty, getFromCache_empty. reflexivity. }
    split; [exact Hmiss|].
    split; [apply fetchEvents_miss_stores; exact Hmiss|].
    intros Hmax. apply fetchEvents_miss; [exact Hmiss | rewrite Hcfg; exact Hmax].
  - intros m f w.
    pose proof (applyTaskMutation_state host api m f w) as Hstate.
    destruct (Facade.applyTaskMutation host api m f w) as [[r f'] w'].
    destruct Hstate as (Hcfg & Hempty & _).
    intros Hok. specialize (Hempty Hok). split; [exact Hempty|].
    intros options w2.
    assert (Hmiss : (Facade.getFromCache (Facade.GoogleTasksFacade.getCacheKey options)
                       (Facade.now host w2) (Facade.cache f')).1 = None).
    { rewrite Hempty, getFromCache_empty. reflexivity. }
    split; [exact Hmiss|].
    split; [apply fetchTasks_miss_stores; exact Hmiss|].
    intros Hstart Hmax.
    apply fetchTasks_miss; [exact Hmiss | exact Hstart | rewrite Hcfg; exact Hmax].
Qed.


Lemma mutation_clears_cache_witness :
  (let '(r, f', w') :=
     Facade.applyEventMutation Examples.wallClock Examples.workingApi
       (Facade.CreateEvent Examples.standup "primary")
       Examples.cachedEvents (Examples.at_ 1000) in
   Facade.cache f' = ∅ /\
   forall options (w2 : Facade.World Z),
     (Facade.getFromCache (Facade.GoogleCalendarFacade.getCacheKey options)
        (Facade.now Examples.wallClock w2) (Facade.cache f')).1 = None /\
     (let '(r2, f2, w2') :=
        Facade.GoogleCalendarFacade.fetchEvents Examples.wallClock
          Examples.workingApi options f' w2 in
      forall d, r2 = Normal d ->
        Facade.cache f2 !! Facade.GoogleCalendarFacade.getCacheKey options
        = Some {| Facade.data := d;
                  Facade.timestamp := Facade.now Examples.wallClock w2' |}) /\
     (0 <= Retry.fMaxRetries
             (Retry.finalConfig (Facade.retryConfig Examples.cachedEvents)) ->
      exists k, (1 <= k)%nat /\
        Facade.apiCalls
          (Facade.GoogleCalendarFacade.fetchEvents Examples.wallClock
             Examples.workingApi options f' w2).2
        = Facade.apiCalls w2 ++
          replicate k (Facade.CallGetEventsAndTasksForDateRange
                         (Facade.startDate options) (Facade.endDate options)))) /\
  (let '(r, f', w') :=
     Facade.applyTaskMutation Examples.wallClock Examples.workingApi
       (Facade.CompleteTask "t2") Examples.cachedTasks (Examples.at_ 1000) in
   Facade.cache f' = ∅ /\
   forall options (w2 : Facade.World Z),
     (Facade.getFromCache (Facade.GoogleTasksFacade.getCacheKey options)
        (Facade.now Examples.wallClock w2) (Facade.cache f')).1 = None /\
     (let '(r2, f2, w2') :=
        Facade.GoogleTasksFacade.fetchTasks Examples.wallClock
          Examples.workingApi options f' w2 in
      forall d, r2 = Normal d ->
        Facade.cache f2 !! Facade.GoogleTasksFacade.getCacheKey options
        = Some {| Facade.data := d;
                  Facade.timestamp := Facade.now Examples.wallClock w2' |}) /\
     (truthy (Facade.tStartDate options) = true ->
      0 <= Retry.fMaxRetries
             (Retry.finalConfig (Facade.retryConfig Examples.cachedTasks)) ->
      (length (Facade.apiCalls w2)
       < length (Facade.apiCalls
                   (Facade.GoogleTasksFacade.fetchTasks Examples.wallClock
                      Examples.workingApi options f' w2).2))%nat)).
Proof.
  destruct (mutation_clears_cache Examples.wallClock Examples.workingApi)
    as [Hevents Htasks].
  split.
  - pose proof (Hevents (Facade.CreateEvent Examples.standup "primary")
                  Examples.cachedEvents (Examples.at_ 1000)) as H.
    assert (Hok : succeeded
                    (Facade.applyEventMutation Examples.wallClock Examples.workingApi
                       (Facade.CreateEvent Examples.standup "primary")
                       Examples.cachedEvents (Examples.at_ 1000)).1.1 = true)
      by reflexivity.
    destruct (Facade.applyEventMutation _ _ _ _ _) as [[r f'] w'].
    exact (H Hok).
  - pose proof (Htasks (Facade.CompleteTask "t2")
                  Examples.cachedTasks (Examples.at_ 1000)) as H.
    assert (Hok : succeeded
                    (Facade.applyTaskMutation Examples.wallClock Examples.workingApi
                       (Facade.CompleteTask "t2")
                       Examples.cachedTasks (Examples.at_ 1000)).1.1 = true)
      by reflexivity.
    destruct (Facade.applyTaskMutation _ _ _ _ _) as [[r f'] w'].
    exact (H Hok).
Defined.


(** ** [OAuthServer] *)
Section OAuthProperties.
Import OAuth.





End OAuthProperties.

(** The definitions at work: consent given, the listener is closed once,
    the promise resolves with the tokens, and a page was sent.  With the
    port taken, the new server never listens, is closed by the ['error']
    handler, and the promise stays pending whatever is sent. *)
Example consent_flow :
  let fl := OAuth.run Examples.consentGiven
              (OAuth.startOAuthFlow Examples.desktopApp {| OAuth.server := None |}
                 Examples.freshProcess) in
  OAuth.promise fl = OAuth.Resolved Examples.issuedTokens /\
  OAuth.servers (OAuth.host fl)
  = [{| OAuth.listening := false; OAuth.hasListened := true;
        OAuth.closeCalls := 1 |}] /\
  OAuth.responses (OAuth.host fl) = [200] /\
  OAuth.server (OAuth.object fl) = None.
Proof. repeat split; reflexivity. Qed.

Example port_taken :
  let fl := OAuth.run Examples.consentGiven
              (OAuth.startOAuthFlow Examples.desktopApp {| OAuth.server := None |}
                 Examples.busyProcess) in
  OAuth.promise fl = OAuth.Pending /\
  OAuth.closeCount (OAuth.flowServer fl) (OAuth.host fl) = 1%nat /\
  OAuth.isListening (OAuth.flowServer fl) (OAuth.host fl) = false /\
  length (OAuth.uncaught (OAuth.host fl)) = 1%nat.
Proof. repeat split; reflexivity. Qed.


(** * Further properties *)

(** ** [withRetry]: how a run ends *)
Section RetryAccounts.
Import Retry.
Context {W T : Type}.
Variable rt : Runtime W.
Variable fn : W -> Completion T * W.
Variable cfg : FinalConfig.

(** The loop never invokes [fn] more often than it has iterations left. *)
Lemma retryLoop_invocations_le (fuel : nat) :
  forall attempt lastError w calls errs slept,
    (invocations (retryLoop rt fn cfg fuel attempt lastError w calls errs slept)
     <= calls + fuel)%nat.
Proof.
  induction fuel as [|fuel IH]; intros attempt lastError w calls errs slept; simpl.
  - lia.
  - destruct (attempt <=? fMaxRetries cfg); [|simpl; lia].
    destruct (fn w) as [[v|t] w1]; [simpl; lia|].
    destruct (attempt >=? fMaxRetries cfg); [simpl; lia|].
    destruct (negb (fIsRetryable cfg (toError t))); [simpl; lia|].
    destruct (fUseJitter cfg).
    + destruct (random rt w1) as [r w2].
      etransitivity; [apply IH|]. lia.
    + etransitivity; [apply IH|]. lia.
Qed.

(** The books of a run that starts inside the loop: every invocation but a
    successful last one adds a caught error; a run that returns has caught
    retryable errors only; a run that throws throws the error caught last. *)
Lemma retryLoop_account (fuel : nat) :
  forall attempt lastError w calls errs slept,
    attempt <= fMaxRetries cfg ->
    (Z.to_nat (fMaxRetries cfg + 1 - attempt) <= fuel)%nat ->
    let r := retryLoop rt fn cfg fuel attempt lastError w calls errs slept in
    (invocations r + length errs
     = calls + length (caught r) + (if succeeded (outcome r) then 1 else 0))%nat /\
    (succeeded (outcome r) = true ->
     forall e, e ∈ caught r -> e ∈ errs \/ fIsRetryable cfg e = true) /\
    (forall t, outcome r = Throw t ->
     exists e, t = ThrownError e /\ last (caught r) = Some e /\
               exists w0 t0 w1, fn w0 = (Throw t0, w1) /\ e = toError t0).
Proof.
  induction fuel as [|fuel IH]; intros attempt lastError w calls errs slept Hle Hf.
  - lia.
  - simpl. destruct (Z.leb_spec attempt (fMaxRetries cfg)); [|lia].
    destruct (fn w) as [[v|t] w1] eqn:Hfn.
    { simpl. split; [lia|]. split; [auto|]. intros t0 Ht0. discriminate Ht0. }
    assert (Hstop :
      let r : RetryRun W T :=
        {| outcome := Throw (ThrownError (toError t)); world := w1;
           invocations := S calls; caught := errs ++ [toError t];
           delays := slept |} in
      (invocations r + length errs
       = calls + length (caught r) + (if succeeded (outcome r) then 1 else 0))%nat /\
      (succeeded (outcome r) = true ->
       forall e, e ∈ caught r -> e ∈ errs \/ fIsRetryable cfg e = true) /\
      (forall t0, outcome r = Throw t0 ->
       exists e, t0 = ThrownError e /\ last (caught r) = Some e /\
                 exists w0 t1 w2, fn w0 = (Throw t1, w2) /\ e = toError t1)).
    { simpl. rewrite length_app. simpl. split; [lia|].
      split; [intros Hs; discriminate Hs|].
      intros t0 [= <-]. exists (toError t). rewrite last_snoc. eauto 8. }
    destruct (Z.geb_spec attempt (fMaxRetries cfg)) as [Hge|Hlt]; [exact Hstop|].
    destruct (fIsRetryable cfg (toError t)) eqn:Hretry; simpl; [|exact Hstop].
    assert (Hstep : forall w' slept',
      let r := retryLoop rt fn cfg fuel (attempt + 1) (Some (toError t)) w'
                         (S calls) (errs ++ [toError t]) slept' in
      (invocations r + length errs
       = calls + length (caught r) + (if succeeded (outcome r) then 1 else 0))%nat /\
      (succeeded (outcome r) = true ->
       forall e, e ∈ caught r -> e ∈ errs \/ fIsRetryable cfg e = true) /\
      (forall t0, outcome r = Throw t0 ->
       exists e, t0 = ThrownError e /\ last (caught r) = Some e /\
                 exists w0 t1 w2, fn w0 = (Throw t1, w2) /\ e = toError t1)).
    { intros w' slept'.
      destruct (IH (attempt + 1) (Some (toError t)) w' (S calls)
                   (errs ++ [toError t]) slept' ltac:(lia) ltac:(lia))
        as (H1 & H2 & H3).
      rewrite length_app in H1. simpl in H1.
      split; [lia|]. split; [|exact H3].
      intros Hs e He. destruct (H2 Hs e He) as [Hin|Hr]; [|auto].
      apply elem_of_app in Hin. destruct Hin as [Hin|Hin]; [auto|].
      apply list_elem_of_singleton in Hin. subst e. auto. }
    destruct (fUseJitter cfg).
    + destruct (random rt w1) as [r w2]. apply Hstep.
    + apply Hstep.
Qed.
End RetryAccounts.

(** [withRetry] rejects with an [Error] instance whenever an attempt is
    allowed. *)
Lemma withRetry_throws_error {W T : Type} (rt : Retry.Runtime W)
    (fn : W -> Completion T * W) (config : Retry.RetryConfig) (w : W) (t : Thrown) :
  0 <= Retry.fMaxRetries (Retry.finalConfig config) ->
  Retry.outcome (Retry.withRetry rt fn config w) = Throw t ->
  exists e, t = ThrownError e /\
    exists w0 t0 w1, fn w0 = (Throw t0, w1) /\ e = toError t0.
Proof.
  intros Hmax Ht. unfold Retry.withRetry in Ht.
  destruct (retryLoop_account rt fn (Retry.finalConfig config)
              (Z.to_nat (Retry.fMaxRetries (Retry.finalConfig config) + 1))
              0 None w 0%nat [] [] Hmax ltac:(lia)) as (_ & _ & H3).
  destruct (H3 t Ht) as (e & He & _ & Hfrom). eauto.
Qed.

(** X1.  With at least one attempt allowed, a first failure with an error
    the config's [isRetryable] rejects ends the run at once: one
    invocation, no delay, and that error (a thrown value that is no [Error]
    wrapped in one) is rethrown. *)
Theorem withRetry_not_retryable {W T : Type} (rt : Retry.Runtime W)
    (fn : W -> Completion T * W) (config : Retry.RetryConfig) (w w1 : W)
    (t : Thrown)
    (Hmax : 0 <= Retry.fMaxRetries (Retry.finalConfig config))
    (Hfn : fn w = (Throw t, w1))
    (Hno : Retry.fIsRetryable (Retry.finalConfig config) (toError t) = false) :
  Retry.withRetry rt fn config w =
  {| Retry.outcome := Throw (ThrownError (toError t)); Retry.world := w1;
     Retry.invocations := 1; Retry.caught := [toError t]; Retry.delays := [] |}.
Proof.
  unfold Retry.withRetry.
  generalize dependent (Retry.finalConfig config). intros cfg Hmax Hno.
  destruct (Z.to_nat (Retry.fMaxRetries cfg + 1)) as [|k] eqn:Hk; [lia|].
  simpl. destruct (Z.leb_spec 0 (Retry.fMaxRetries cfg)); [|lia].
  rewrite Hfn, Hno. simpl.
  destruct (0 >=? Retry.fMaxRetries cfg); reflexivity.
Qed.

Lemma withRetry_not_retryable_witness :
  Retry.withRetry Examples.quietRuntime Examples.notFound Retry.emptyConfig 0%nat =
  {| Retry.outcome :=
       Throw (ThrownError (PlainError "Request failed, status 404" (Some 404)));
     Retry.world := 1%nat; Retry.invocations := 1;
     Retry.caught := [PlainError "Request failed, status 404" (Some 404)];
     Retry.delays := [] |}.
Proof.
  apply (withRetry_not_retryable Examples.quietRuntime Examples.notFound
           Retry.emptyConfig 0%nat 1%nat
           (ThrownError (PlainError "Request failed, status 404" (Some 404)))).
  - simpl. lia.
  - reflexivity.
  - reflexivity.
Defined.

(** X2.  With a negative [maxRetries] the loop test fails at once: the
    function is never invoked, nothing is slept, and [withRetry] throws
    [lastError] as it was declared, [undefined]. *)
Theorem withRetry_negative_maxRetries {W T : Type} (rt : Retry.Runtime W)
    (fn : W -> Completion T * W) (config : Retry.RetryConfig) (w : W)
    (Hneg : Retry.fMaxRetries (Retry.finalConfig config) < 0) :
  Retry.withRetry rt fn config w =
  {| Retry.outcome := Throw (ThrownValue "undefined"); Retry.world := w;
     Retry.invocations := 0; Retry.caught := []; Retry.delays := [] |}.
Proof.
  unfold Retry.withRetry.
  generalize dependent (Retry.finalConfig config). intros cfg Hneg.
  destruct (Z.to_nat (Retry.fMaxRetries cfg + 1)) as [|k] eqn:Hk; [reflexivity|].
  simpl. destruct (Z.leb_spec 0 (Retry.fMaxRetries cfg)); [lia | reflexivity].
Qed.

Lemma withRetry_negative_maxRetries_witness :
  Retry.withRetry Examples.quietRuntime Examples.networkDown
    Scenarios.noAttempt 0%nat =
  {| Retry.outcome := Throw (ThrownValue "undefined"); Retry.world := 0%nat;
     Retry.invocations := 0; Retry.caught := []; Retry.delays := [] |}.
Proof.
  apply (withRetry_negative_maxRetries Examples.quietRuntime Examples.networkDown
           Scenarios.noAttempt 0%nat).
  simpl. lia.
Defined.

(** X3.  Whatever the function does, a run invokes it at most
    [maxRetries + 1] times and sleeps at most [maxRetries] times; with a
    [maxDelay] that is not negative, no delay handed to [setTimeout] exceeds
    [maxDelay], with or without jitter. *)
Theorem withRetry_bounds {W T : Type} (rt : Retry.Runtime W)
    (fn : W -> Completion T * W) (config : Retry.RetryConfig) (w : W)
    (Hrandom : forall w, (0 <= fst (Retry.random rt w))%Q /\
                         (fst (Retry.random rt w) < 1)%Q)
    (Hmax : 0 <= Retry.fMaxRetries (Retry.finalConfig config))
    (Hdelay : (0 <= Retry.fMaxDelay (Retry.finalConfig config))%Q) :
  let cfg := Retry.finalConfig config in
  let run := Retry.withRetry rt fn config w in
  Z.of_nat (Retry.invocations run) <= Retry.fMaxRetries cfg + 1 /\
  Z.of_nat (length (Retry.delays run)) <= Retry.fMaxRetries cfg /\
  forall d, d ∈ Retry.delays run -> (d <= Retry.fMaxDelay cfg)%Q.
Proof.
  cbv zeta. unfold Retry.withRetry.
  set (cfg := Retry.finalConfig config) in *. clearbody cfg.
  pose proof (retryLoop_invocations_le rt fn cfg
                (Z.to_nat (Retry.fMaxRetries cfg + 1)) 0 None w 0%nat [] []) as Hle.
  pose proof (retryLoop_delays_length rt fn cfg
                (Z.to_nat (Retry.fMaxRetries cfg + 1)) 0 None w 0%nat [] []
                eq_refl Hmax ltac:(lia)) as Hlen.
  simpl in Hle, Hlen.
  split; [lia|]. split; [lia|].
  intros d Hd. apply list_elem_of_lookup in Hd. destruct Hd as [i Hi].
  pose proof (retryLoop_delays rt fn cfg Hrandom
                (Z.to_nat (Retry.fMaxRetries cfg + 1)) 0 None w 0%nat [] []
                eq_refl) as H.
  specialize (H ltac:(intros j x Hx; rewrite lookup_nil in Hx; discriminate)
                i d Hi).
  assert (Hbase : (Retry.specBackoffDelay cfg i <= Retry.fMaxDelay cfg)%Q).
  { unfold Retry.specBackoffDelay. apply Q.le_min_r. }
  destruct (Retry.fUseJitter cfg).
  - destruct H as (r & H0 & H1 & ->).
    destruct (jitterFactor_range r H0 H1) as [Hlo Hhi].
    set (b := Retry.specBackoffDelay cfg i) in *.
    set (j := Retry.jitterFactor r) in *.
    destruct (Qlt_le_dec b 0) as [Hb|Hb].
    + apply Qle_trans with (y := 0%Q); [|exact Hdelay]. nra.
    + apply Qle_trans with (y := b); [|exact Hbase]. nra.
  - subst d. exact Hbase.
Qed.

Lemma withRetry_bounds_witness :
  let cfg := Retry.finalConfig Retry.emptyConfig in
  let run := Retry.withRetry Examples.quietRuntime Examples.networkDown
               Retry.emptyConfig 0%nat in
  Z.of_nat (Retry.invocations run) <= Retry.fMaxRetries cfg + 1 /\
  Z.of_nat (length (Retry.delays run)) <= Retry.fMaxRetries cfg /\
  forall d, d ∈ Retry.delays run -> (d <= Retry.fMaxDelay cfg)%Q.
Proof.
  apply (withRetry_bounds Examples.quietRuntime Examples.networkDown
           Retry.emptyConfig 0%nat).
  - intros w. simpl. split; [discriminate | reflexivity].
  - simpl. lia.
  - simpl. discriminate.
Defined.

(** X4.  The books of a run with at least one attempt allowed: every
    invocation but a successful last one threw an error that was caught; a
    run that returns has caught only errors that [isRetryable] accepts; a
    run that throws throws an [Error], the one caught last, which an
    invocation of the function threw. *)
Theorem withRetry_caught_errors {W T : Type} (rt : Retry.Runtime W)
    (fn : W -> Completion T * W) (config : Retry.RetryConfig) (w : W)
    (Hmax : 0 <= Retry.fMaxRetries (Retry.finalConfig config)) :
  let cfg := Retry.finalConfig config in
  let run := Retry.withRetry rt fn config w in
  Retry.invocations run
  = (length (Retry.caught run)
     + (if succeeded (Retry.outcome run) then 1 else 0))%nat /\
  (succeeded (Retry.outcome run) = true ->
   forall e, e ∈ Retry.caught run -> Retry.fIsRetryable cfg e = true) /\
  (forall t, Retry.outcome run = Throw t ->
   exists e, t = ThrownError e /\ last (Retry.caught run) = Some e /\
             exists w0 t0 w1, fn w0 = (Throw t0, w1) /\ e = toError t0).
Proof.
  cbv zeta. unfold Retry.withRetry.
  set (cfg := Retry.finalConfig config) in *. clearbody cfg.
  destruct (retryLoop_account rt fn cfg (Z.to_nat (Retry.fMaxRetries cfg + 1))
              0 None w 0%nat [] [] Hmax ltac:(lia)) as (H1 & H2 & H3).
  simpl in H1. split; [lia|]. split; [|exact H3].
  intros Hs e He. destruct (H2 Hs e He) as [Hin|Hr]; [|exact Hr].
  inversion Hin.
Qed.

Lemma withRetry_caught_errors_witness :
  let cfg := Retry.finalConfig Examples.threeRetries in
  let run := Retry.withRetry Examples.quietRuntime Examples.networkDown
               Examples.threeRetries 0%nat in
  Retry.invocations run
  = (length (Retry.caught run)
     + (if succeeded (Retry.outcome run) then 1 else 0))%nat /\
  (succeeded (Retry.outcome run) = true ->
   forall e, e ∈ Retry.caught run -> Retry.fIsRetryable cfg e = true) /\
  (forall t, Retry.outcome run = Throw t ->
   exists e, t = ThrownError e /\ last (Retry.caught run) = Some e /\
             exists w0 t0 w1,
               Examples.networkDown w0 = (Throw t0, w1) /\ e = toError t0).
Proof.
  apply (withRetry_caught_errors Examples.quietRuntime Examples.networkDown
           Examples.threeRetries 0%nat).
  simpl. lia.
Defined.

(** ** [GoogleCalendarAPI]: what is sent, and when nothing is *)
Section ApiRequests.
Import Api.
Context {E : Type}.
Variable server : Request -> E -> Completion Json * E.

Lemma requestUrl_sent (req : Request) (n : Net E) :
  sent (requestUrl server req n).2 = sent n ++ [req].
Proof. unfold requestUrl. destruct (server req (env n)). reflexivity. Qed.

Lemma truthy_token (o : option string) :
  truthy o = true -> exists token, o = Some token /\ token <> "".
Proof.
  destruct o as [s|]; [|discriminate]. simpl. intros H. exists s.
  split; [reflexivity|]. intros ->. discriminate H.
Qed.

(** A refresh sends at most its one request, and leaves a usable access
    token usable. *)
Lemma refreshAccessToken_sent (st : ApiState) (n : Net E) :
  let '(r, st', n') := refreshAccessToken server st n in
  (sent n' = sent n \/ sent n' = sent n ++ [refreshRequest (credentials st)]) /\
  (truthy (accessToken (credentials st)) = true ->
   truthy (accessToken (credentials st')) = true).
Proof.
  unfold refreshAccessToken.
  destruct (truthy (refreshToken (credentials st))); simpl; [|auto].
  pose proof (requestUrl_sent (refreshRequest (credentials st)) n) as Hs.
  destruct (requestUrl server (refreshRequest (credentials st)) n) as [[j|t] n1];
    simpl in Hs; [|auto].
  assert (Hstored : truthy (accessToken (credentials st)) = true ->
                    truthy (accessToken (credentials (storeTokens (asTokens j) st)))
                    = true).
  { unfold storeTokens. destruct (truthy (access_token (asTokens j))) eqn:Ht;
      [|auto]. intros _. simpl.
    destruct (access_token (asTokens j)); [exact Ht | discriminate Ht]. }
  destruct j; auto.
Qed.
End ApiRequests.

(** X5.  The requests of one [makeRequest], whatever the server answers:
    at most three, each either the refresh request or the request asked
    for, carrying an access token that is not empty. *)
Theorem makeRequest_requests {E : Type}
    (server : Api.Request -> E -> Completion Api.Json * E)
    (url method : string) (body : option Api.Body)
    (st : Api.ApiState) (n : Api.Net E) :
  let '(r, st', n') := Api.makeRequest server url method body st n in
  exists new,
    Api.sent n' = Api.sent n ++ new /\ (length new <= 3)%nat /\
    forall req, req ∈ new ->
      req = Api.refreshRequest (Api.credentials st) \/
      exists token, token <> "" /\
        req = Api.apiRequest url method (Some token) body.
Proof.
  unfold Api.makeRequest.
  destruct (truthy (Api.accessToken (Api.credentials st))) eqn:Htoken; simpl.
  2:{ exists []. rewrite app_nil_r. split; [reflexivity|]. split; [simpl; lia|].
      intros req Hin. inversion Hin. }
  destruct (truthy_token _ Htoken) as (token & Htok & Hne).
  set (req1 := Api.apiRequest url method (Api.accessToken (Api.credentials st)) body).
  assert (Hreq1 : exists token, token <> "" /\
                    req1 = Api.apiRequest url method (Some token) body).
  { exists token. subst req1. rewrite Htok. auto. }
  pose proof (requestUrl_sent server req1 n) as Hs1.
  destruct (Api.requestUrl server req1 n) as [[j|error] n1]; simpl in Hs1.
  { exists [req1]. split; [exact Hs1|]. split; [simpl; lia|].
    intros req Hin. apply list_elem_of_singleton in Hin. subst req. auto. }
  destruct (decide (thrownStatus error = Some 401)) as [H401|Hother].
  2:{ exists [req1]. split; [exact Hs1|]. split; [simpl; lia|].
      intros req Hin. apply list_elem_of_singleton in Hin. subst req. auto. }
  pose proof (refreshAccessToken_sent server st n1) as Hr.
  destruct (Api.refreshAccessToken server st n1) as [[[u|t] st2] n2];
    destruct Hr as [Hsent Hkeeps].
  - specialize (Hkeeps Htoken).
    destruct (truthy_token _ Hkeeps) as (token2 & Htok2 & Hne2).
    set (req2 := Api.apiRequest url method (Api.accessToken (Api.credentials st2)) body).
    pose proof (requestUrl_sent server req2 n2) as Hs2.
    assert (Hreq2 : exists token, token <> "" /\
                      req2 = Api.apiRequest url method (Some token) body).
    { exists token2. subst req2. rewrite Htok2. auto. }
    assert (Hboth : exists new,
              Api.sent (Api.requestUrl server req2 n2).2 = Api.sent n ++ new /\
              (length new <= 3)%nat /\
              forall req, req ∈ new ->
                req = Api.refreshRequest (Api.credentials st) \/
                exists token, token <> "" /\
                  req = Api.apiRequest url method (Some token) body).
    { rewrite Hs2. destruct Hsent as [-> | ->]; rewrite Hs1.
      - exists [req1; req2]. rewrite <- app_assoc. split; [reflexivity|].
        split; [simpl; lia|]. intros req Hin.
        apply elem_of_cons in Hin. destruct Hin as [-> | Hin]; [auto|].
        apply list_elem_of_singleton in Hin. subst req. auto.
      - exists [req1; Api.refreshRequest (Api.credentials st); req2].
        rewrite <- !app_assoc. split; [reflexivity|].
        split; [simpl; lia|]. intros req Hin.
        apply elem_of_cons in Hin. destruct Hin as [-> | Hin]; [auto|].
        apply elem_of_cons in Hin. destruct Hin as [-> | Hin]; [auto|].
        apply list_elem_of_singleton in Hin. subst req. auto. }
    destruct (Api.requestUrl server req2 n2) as [[j2|error2] n3]; exact Hboth.
  - destruct Hsent as [-> | ->]; rewrite Hs1.
    + exists [req1]. split; [reflexivity|]. split; [simpl; lia|].
      intros req Hin. apply list_elem_of_singleton in Hin. subst req. auto.
    + exists [req1; Api.refreshRequest (Api.credentials st)].
      rewrite <- app_assoc. split; [reflexivity|]. split; [simpl; lia|].
      intros req Hin.
      apply elem_of_cons in Hin. destruct Hin as [-> | Hin]; [auto|].
      apply list_elem_of_singleton in Hin. subst req. auto.
Qed.

(** X6.  Without a client id or a client secret no operation sends a
    request or touches the API object: the five plain fetches resolve with
    [null], the two combined fetches with a pair of [null]s, and the six
    mutations throw "Google Calendar API credentials not configured". *)
Theorem not_configured_sends_nothing {E : Type}
    (server : Api.Request -> E -> Completion Api.Json * E)
    (parseDate : string -> Api.JSDate) (tz : Z) (isoParam : Z -> string)
    (st : Api.ApiState) (n : Api.Net E)
    (Hmissing : Api.notConfigured (Api.credentials st) = true) :
  let nothing := Some {| Api.events := None; Api.tasks := None |} in
  (forall date startDate endDate,
     Api.getEventsForDate server parseDate tz isoParam date st n
       = (Normal None, st, n) /\
     Api.getTasksForDate server parseDate tz date st n = (Normal None, st, n) /\
     Api.getEventsForDateRange server parseDate tz isoParam startDate endDate st n
       = (Normal None, st, n) /\
     Api.getTasksForDateRange server parseDate tz startDate endDate st n
       = (Normal None, st, n) /\
     Api.getTasks server st n = (Normal None, st, n) /\
     Api.getEventsAndTasksForDate server parseDate tz isoParam date st n
       = (Normal nothing, st, n) /\
     Api.getEventsAndTasksForDateRange server parseDate tz isoParam
         startDate endDate st n
       = (Normal nothing, st, n)) /\
  (forall event task eventId taskId calendarId taskListId,
     Api.createEvent server event calendarId st n
       = (Throw Api.notConfiguredError, st, n) /\
     Api.updateEvent server eventId event calendarId st n
       = (Throw Api.notConfiguredError, st, n) /\
     Api.deleteEvent server eventId calendarId st n
       = (Throw Api.notConfiguredError, st, n) /\
     Api.createTask server task taskListId st n
       = (Throw Api.notConfiguredError, st, n) /\
     Api.updateTask server taskId task taskListId st n
       = (Throw Api.notConfiguredError, st, n) /\
     Api.deleteTask server taskId taskListId st n
       = (Throw Api.notConfiguredError, st, n)).
Proof.
  assert (Hev : forall lo hi,
            Api.requestEvents server isoParam lo hi st n
            = (Throw Api.notConfiguredError, st, n)).
  { intros lo hi. unfold Api.requestEvents. rewrite Hmissing. reflexivity. }
  assert (Hts : forall keep,
            Api.requestTasks server keep st n
            = (Throw Api.notConfiguredError, st, n)).
  { intros keep. unfold Api.requestTasks. rewrite Hmissing. reflexivity. }
  split.
  - intros date startDate endDate.
    unfold Api.getEventsAndTasksForDate, Api.getEventsAndTasksForDateRange,
      Api.getEventsForDate, Api.getTasksForDate, Api.getEventsForDateRange,
      Api.getTasksForDateRange, Api.getTasks.
    repeat (first [rewrite Hev | rewrite Hts | rewrite Hmissing]; simpl).
    repeat split; reflexivity.
  - intros event task eventId taskId calendarId taskListId.
    unfold Api.createEvent, Api.updateEvent, Api.deleteEvent, Api.createTask,
      Api.updateTask, Api.deleteTask, Api.mutate.
    rewrite Hmissing. repeat split; reflexivity.
Qed.

Lemma not_configured_sends_nothing_witness :
  let st := Scenarios.unconfigured in
  let n := Examples.offline in
  let nothing := Some {| Api.events := None; Api.tasks := None |} in
  (forall date startDate endDate,
     Api.getEventsForDate Examples.google Examples.parseDate Examples.utc
         Examples.isoParam date st n
       = (Normal None, st, n) /\
     Api.getTasksForDate Examples.google Examples.parseDate Examples.utc date st n
       = (Normal None, st, n) /\
     Api.getEventsForDateRange Examples.google Examples.parseDate Examples.utc
         Examples.isoParam startDate endDate st n
       = (Normal None, st, n) /\
     Api.getTasksForDateRange Examples.google Examples.parseDate Examples.utc
         startDate endDate st n
       = (Normal None, st, n) /\
     Api.getTasks Examples.google st n = (Normal None, st, n) /\
     Api.getEventsAndTasksForDate Examples.google Examples.parseDate Examples.utc
         Examples.isoParam date st n
       = (Normal nothing, st, n) /\
     Api.getEventsAndTasksForDateRange Examples.google Examples.parseDate
         Examples.utc Examples.isoParam startDate endDate st n
       = (Normal nothing, st, n)) /\
  (forall event task eventId taskId calendarId taskListId,
     Api.createEvent Examples.google event calendarId st n
       = (Throw Api.notConfiguredError, st, n) /\
     Api.updateEvent Examples.google eventId event calendarId st n
       = (Throw Api.notConfiguredError, st, n) /\
     Api.deleteEvent Examples.google eventId calendarId st n
       = (Throw Api.notConfiguredError, st, n) /\
     Api.createTask Examples.google task taskListId st n
       = (Throw Api.notConfiguredError, st, n) /\
     Api.updateTask Examples.google taskId task taskListId st n
       = (Throw Api.notConfiguredError, st, n) /\
     Api.deleteTask Examples.google taskId taskListId st n
       = (Throw Api.notConfiguredError, st, n)).
Proof.
  apply (not_configured_sends_nothing Examples.google Examples.parseDate
           Examples.utc Examples.isoParam Scenarios.unconfigured Examples.offline).
  reflexivity.
Defined.

Section ApiFetches.
Import Api.
Context {E : Type}.
Variable server : Request -> E -> Completion Json * E.

Lemma orNull_resolves {A : Type} (r : Completion (option A) * ApiState * Net E) :
  succeeded (orNull r).1.1 = true.
Proof. destruct r as [[[a|t] st] n]; reflexivity. Qed.

Lemma pairUp_resolves (ev : Completion (option CalendarEvents))
    (ts : Completion (option TaskList)) :
  succeeded ev = true -> succeeded ts = true ->
  exists data, pairUp ev ts = Normal (Some data).
Proof.
  destruct ev as [events|t]; [|discriminate].
  destruct ts as [tasks|t]; [|discriminate]. simpl. eauto.
Qed.
End ApiFetches.

(** X7.  No fetch operation ever rejects: whatever the server answers and
    whatever the state of the API object, each of the seven fetches
    resolves, and the two combined fetches resolve with a pair, never with
    [null]. *)
Theorem fetches_never_reject {E : Type}
    (server : Api.Request -> E -> Completion Api.Json * E)
    (parseDate : string -> Api.JSDate) (tz : Z) (isoParam : Z -> string)
    (date startDate endDate : string) (st : Api.ApiState) (n : Api.Net E) :
  succeeded (Api.getEventsForDate server parseDate tz isoParam date st n).1.1 = true /\
  succeeded (Api.getTasksForDate server parseDate tz date st n).1.1 = true /\
  succeeded (Api.getEventsForDateRange server parseDate tz isoParam
               startDate endDate st n).1.1 = true /\
  succeeded (Api.getTasksForDateRange server parseDate tz startDate endDate st n).1.1
    = true /\
  succeeded (Api.getTasks server st n).1.1 = true /\
  (exists data,
     (Api.getEventsAndTasksForDate server parseDate tz isoParam date st n).1.1
     = Normal (Some data)) /\
  (exists data,
     (Api.getEventsAndTasksForDateRange server parseDate tz isoParam
        startDate endDate st n).1.1 = Normal (Some data)).
Proof.
  split; [apply orNull_resolves|]. split; [apply orNull_resolves|].
  split; [apply orNull_resolves|]. split; [apply orNull_resolves|].
  split; [apply orNull_resolves|]. split.
  - unfold Api.getEventsAndTasksForDate.
    pose proof (orNull_resolves
                  (Api.requestEvents server isoParam
                     (Api.startOfDay tz (Api.newDate parseDate date))
                     (Api.endOfDay tz (Api.newDate parseDate date)) st n)) as Hev.
    fold (Api.getEventsForDate server parseDate tz isoParam date st n) in Hev.
    destruct (Api.getEventsForDate server parseDate tz isoParam date st n)
      as [[ev st1] n1].
    pose proof (orNull_resolves
                  (Api.requestTasks server
                     (Api.dueWithin parseDate
                        (Api.minusDays 365 (Api.endOfDay tz (Api.newDate parseDate date)))
                        (Api.endOfDay tz (Api.newDate parseDate date))) st1 n1)) as Hts.
    fold (Api.getTasksForDate server parseDate tz date st1 n1) in Hts.
    destruct (Api.getTasksForDate server parseDate tz date st1 n1) as [[ts st2] n2].
    simpl in Hev, Hts. destruct (pairUp_resolves ev ts Hev Hts) as [data ->].
    exists data. reflexivity.
  - apply getEventsAndTasksForDateRange_resolves.
Qed.

(** X8.  A date string that [new Date] cannot parse: [getEventsForDate]
    resolves with [null] without a request, while [getTasksForDate] still
    asks Google and resolves with the fetched tasks that have no due date,
    every task with a due date filtered out. *)
Theorem unparseable_date {E : Type}
    (server : Api.Request -> E -> Completion Api.Json * E)
    (parseDate : string -> Api.JSDate) (tz : Z) (isoParam : Z -> string)
    (date : string) (st : Api.ApiState) (n : Api.Net E)
    (Hinvalid : parseDate date = None) :
  Api.getEventsForDate server parseDate tz isoParam date st n = (Normal None, st, n) /\
  Api.resultTasks (Api.getTasksForDate server parseDate tz date st n)
  = List.filter (fun task => negb (truthy (Api.due task)))
                (Api.fetchedTasks server st n).
Proof.
  split.
  - unfold Api.getEventsForDate, Api.requestEvents, Api.startOfDay, Api.endOfDay,
      Api.setHours, Api.newDate.
    rewrite Hinvalid. simpl.
    destruct (Api.notConfigured (Api.credentials st)); reflexivity.
  - unfold Api.getTasksForDate. rewrite requestTasks_filter.
    apply List.filter_ext. intros task.
    unfold Api.dueWithin, Api.endOfDay, Api.minusDays, Api.setHours, Api.newDate.
    rewrite Hinvalid. simpl.
    destruct (truthy (Api.due task)); simpl; [|reflexivity].
    unfold Api.dateGe.
    destruct (parseDate (default "" (Api.due task))); reflexivity.
Qed.

Lemma unparseable_date_witness :
  let st := Examples.signedIn (Some "access-2") None in
  Api.getEventsForDate Examples.google Examples.parseDate Examples.utc
    Examples.isoParam "tomorrow" st Examples.offline
  = (Normal None, st, Examples.offline) /\
  Api.resultTasks
    (Api.getTasksForDate Examples.google Examples.parseDate Examples.utc
       "tomorrow" st Examples.offline)
  = List.filter (fun task => negb (truthy (Api.due task)))
                (Api.fetchedTasks Examples.google st Examples.offline).
Proof.
  apply (unparseable_date Examples.google Examples.parseDate Examples.utc
           Examples.isoParam "tomorrow"
           (Examples.signedIn (Some "access-2") None) Examples.offline).
  reflexivity.
Defined.

(** ** The API object and the settings the listener saves *)
Section TokenUpdates.
Import Api Plugin.
Context {E : Type}.
Variable server : Request -> E -> Completion Json * E.
Variable parseDate : string -> JSDate.
Variable tz : Z.
Variable isoParam : Z -> string.
















End TokenUpdates.


(** ** The facades: failures, frames and the life cycle *)
Section CacheFrames.
Import Retry Facade.
Context {D : Type}.

(** Reading the cache changes no entry but, at most, the one read, and
    after a miss the key read has no entry. *)
Lemma getFromCache_frame (key k : string) (now : Z)
    (c : gmap string (CacheEntry D)) :
  k <> key -> (getFromCache key now c).2 !! k = c !! k.
Proof.
  intros Hk. unfold getFromCache. destruct (c !! key) as [entry|]; [|reflexivity].
  destruct (now - timestamp entry >? CACHE_TTL); simpl; [|reflexivity].
  apply lookup_delete_ne. congruence.
Qed.

Lemma getFromCache_miss (key : string) (now : Z)
    (c : gmap string (CacheEntry D)) :
  (getFromCache key now c).1 = None -> (getFromCache key now c).2 !! key = None.
Proof.
  unfold getFromCache. destruct (c !! key) as [entry|] eqn:Hc; [|intros _; exact Hc].
  destruct (now - timestamp entry >? CACHE_TTL); simpl; [|discriminate].
  intros _. apply lookup_delete_eq.
Qed.

(** What is kept after a read was there before. *)
Lemma getFromCache_subset (key k : string) (now : Z)
    (c : gmap string (CacheEntry D)) (entry : CacheEntry D) :
  (getFromCache key now c).2 !! k = Some entry -> c !! k = Some entry.
Proof.
  destruct (decide (k = key)) as [->|Hk].
  - unfold getFromCache. destruct (c !! key) as [cached|] eqn:Hc; [|simpl; congruence].
    destruct (now - timestamp cached >? CACHE_TTL); simpl; [|congruence].
    rewrite lookup_delete_eq. discriminate.
  - rewrite getFromCache_frame by exact Hk. auto.
Qed.
End CacheFrames.

Section FetchOutcomes.
Import Retry Facade.
Context {E : Type}.
Variable host : Host E.
Variable api : GoogleCalendarAPI E.

(** A run of [withRetry] over a recorded API call that throws: an [Error],
    and one the API method threw. *)
Lemma withRetry_call_error {A : Type} (c : ApiCall) (m : E -> Completion A * E)
    (config : RetryConfig) (w : World E) (t : Thrown) :
  0 <= fMaxRetries (finalConfig config) ->
  outcome (withRetry (worldRuntime host) (call c m) config w) = Throw t ->
  exists e, t = ThrownError e /\ exists e0 t0 e1, m e0 = (Throw t0, e1) /\ e = toError t0.
Proof.
  intros Hmax Ht.
  destruct (withRetry_throws_error _ _ _ _ _ Hmax Ht)
    as (e & -> & w0 & t0 & w1 & Hcall & ->).
  exists (toError t0). split; [reflexivity|].
  unfold call in Hcall. destruct (m (env w0)) as [r e1] eqn:Hm.
  injection Hcall as -> _. eauto.
Qed.

(** The shape of [fetchEvents]: the facade is made ready, the cache read,
    and on a miss the API is asked under [withRetry]. *)
Lemma fetchEvents_unfold options (f : FacadeState (list CalendarEvent))
    (w : World E) :
  let key := GoogleCalendarFacade.getCacheKey options in
  let read := getFromCache key (now host w) (cache f) in
  let run :=
    withRetry (worldRuntime host)
      (call (CallGetEventsAndTasksForDateRange (startDate options) (endDate options))
            (API.getEventsAndTasksForDateRange api (startDate options) (endDate options)))
      (retryConfig f) w in
  GoogleCalendarFacade.fetchEvents host api options f w =
  match read.1 with
  | Some d => (Normal d, withCache (ensureReady f) read.2, w)
  | None =>
    match outcome run with
    | Normal result =>
      let events :=
        GoogleCalendarFacade.transformEvents (GoogleCalendarFacade.eventItems result) in
      (Normal events,
       withCache (ensureReady f) (setCache key events (now host (world run)) read.2),
       world run)
    | Throw error =>
      (serviceError "Failed to fetch events" "GoogleCalendarFacade" error,
       withCache (ensureReady f) read.2, world run)
    end
  end.
Proof.
  simpl. unfold GoogleCalendarFacade.fetchEvents.
  rewrite cache_ensureReady.
  destruct (getFromCache _ _ (cache f)) as [[d|] c]; simpl; [reflexivity|].
  rewrite retryConfig_ensureReady.
  destruct (outcome _); reflexivity.
Qed.

Lemma fetchTasks_unfold options (f : FacadeState (list Task)) (w : World E) :
  let key := GoogleTasksFacade.getCacheKey options in
  let read := getFromCache key (now host w) (cache f) in
  GoogleTasksFacade.fetchTasks host api options f w =
  match read.1 with
  | Some d => (Normal d, withCache (ensureReady f) read.2, w)
  | None =>
    match Service.tasksRun host api options f w with
    | Some run =>
      match outcome run with
      | Normal result =>
        let tasks :=
          GoogleTasksFacade.transformTasks (GoogleTasksFacade.taskItems result) in
        (Normal tasks,
         withCache (ensureReady f) (setCache key tasks (now host (world run)) read.2),
         world run)
      | Throw error =>
        (serviceError "Failed to fetch tasks" "GoogleTasksFacade" error,
         withCache (ensureReady f) read.2, world run)
      end
    | None =>
      (Normal [], withCache (ensureReady f) (setCache key [] (now host w) read.2), w)
    end
  end.
Proof.
  simpl. unfold GoogleTasksFacade.fetchTasks, Service.tasksRun.
  rewrite cache_ensureReady.
  destruct (getFromCache _ _ (cache f)) as [[d|] c]; simpl; [reflexivity|].
  rewrite retryConfig_ensureReady.
  destruct (truthy (tStartDate options)); simpl;
    [destruct (truthy (tEndDate options)); simpl|];
    try destruct (outcome _); reflexivity.
Qed.

Lemma tasksRun_error options (f : FacadeState (list Task)) (w : World E) run t :
  0 <= fMaxRetries (finalConfig (retryConfig f)) ->
  Service.tasksRun host api options f w = Some run -> outcome run = Throw t ->
  exists e, t = ThrownError e.
Proof.
  intros Hmax. unfold Service.tasksRun.
  destruct (truthy (tStartDate options) && truthy (tEndDate options))%bool.
  - intros [= <-] Ht.
    destruct (withRetry_call_error _ _ _ _ _ Hmax Ht) as (e & -> & _). eauto.
  - destruct (truthy (tStartDate options)); [|discriminate].
    intros [= <-] Ht.
    destruct (withRetry_call_error _ _ _ _ _ Hmax Ht) as (e & -> & _). eauto.
Qed.

Lemma ensureReady_ready {D : Type} (f : FacadeState D) :
  _isReady (ensureReady f) = true.
Proof.
  unfold ensureReady. destruct (_isReady f) eqn:H; [exact H | reflexivity].
Qed.

(** A fetch leaves the facade ready, with its retry config, and with the
    entries of all keys but the one asked for. *)
Lemma fetchEvents_frame options (f : FacadeState (list CalendarEvent))
    (w : World E) :
  let f' := (GoogleCalendarFacade.fetchEvents host api options f w).1.2 in
  _isReady f' = true /\
  retryConfig f' = retryConfig f /\
  forall k, k <> GoogleCalendarFacade.getCacheKey options ->
    cache f' !! k = cache f !! k.
Proof.
  cbv zeta. rewrite fetchEvents_unfold. cbv zeta.
  destruct (getFromCache _ _ (cache f)).1;
    [|destruct (outcome _)]; simpl;
    (split; [apply ensureReady_ready|]; split; [apply retryConfig_ensureReady|]);
    intros k Hk; unfold setCache;
    rewrite ?lookup_insert_ne by congruence;
    apply getFromCache_frame; exact Hk.
Qed.

Lemma fetchTasks_frame options (f : FacadeState (list Task)) (w : World E) :
  let f' := (GoogleTasksFacade.fetchTasks host api options f w).1.2 in
  _isReady f' = true /\
  retryConfig f' = retryConfig f /\
  forall k, k <> GoogleTasksFacade.getCacheKey options ->
    cache f' !! k = cache f !! k.
Proof.
  cbv zeta. rewrite fetchTasks_unfold. cbv zeta.
  destruct (getFromCache _ _ (cache f)).1;
    [|destruct (Service.tasksRun host api options f w) as [run|];
      [destruct (outcome run)|]]; simpl;
    (split; [apply ensureReady_ready|]; split; [apply retryConfig_ensureReady|]);
    intros k Hk; unfold setCache;
    rewrite ?lookup_insert_ne by congruence;
    apply getFromCache_frame; exact Hk.
Qed.
End FetchOutcomes.

(** X10.  A fetch that fails, with at least one attempt allowed: the
    facade throws a [ServiceError] named after the operation that wraps an
    [Error] (for events: one the API call threw, a thrown value that is no
    [Error] wrapped in one), and the cache is left without an entry for
    the key asked for. *)
Theorem fetch_failure {E : Type} (host : Facade.Host E)
    (api : Facade.GoogleCalendarAPI E) :
  (forall options (f : Facade.FacadeState (list Facade.CalendarEvent))
          (w : Facade.World E) (t : Thrown),
     0 <= Retry.fMaxRetries (Retry.finalConfig (Facade.retryConfig f)) ->
     (Facade.GoogleCalendarFacade.fetchEvents host api options f w).1.1 = Throw t ->
     (exists e,
        t = ThrownError (ServiceError "Failed to fetch events" "GoogleCalendarFacade"
                           (Some e)) /\
        exists e0 t0 e1,
          Facade.API.getEventsAndTasksForDateRange api (Facade.startDate options)
            (Facade.endDate options) e0 = (Throw t0, e1) /\
          e = toError t0) /\
     Facade.cache (Facade.GoogleCalendarFacade.fetchEvents host api options f w).1.2
       !! Facade.GoogleCalendarFacade.getCacheKey options = None) /\
  (forall options (f : Facade.FacadeState (list Facade.Task))
          (w : Facade.World E) (t : Thrown),
     0 <= Retry.fMaxRetries (Retry.finalConfig (Facade.retryConfig f)) ->
     (Facade.GoogleTasksFacade.fetchTasks host api options f w).1.1 = Throw t ->
     (exists e,
        t = ThrownError (ServiceError "Failed to fetch tasks" "GoogleTasksFacade"
                           (Some e))) /\
     Facade.cache (Facade.GoogleTasksFacade.fetchTasks host api options f w).1.2
       !! Facade.GoogleTasksFacade.getCacheKey options = None).
Proof.
  split.
  - intros options f w t Hmax. rewrite fetchEvents_unfold. cbv zeta.
    destruct (Facade.getFromCache _ _ (Facade.cache f)).1 eqn:Hread;
      [discriminate|].
    destruct (Retry.outcome _) as [result|error] eqn:Hout; [discriminate|].
    simpl. intros [= <-].
    destruct (withRetry_call_error host _ _ _ _ _ Hmax Hout) as (e & -> & Hfrom).
    split; [exists e; split; [reflexivity | exact Hfrom]|].
    apply getFromCache_miss. exact Hread.
  - intros options f w t Hmax. rewrite fetchTasks_unfold. cbv zeta.
    destruct (Facade.getFromCache _ _ (Facade.cache f)).1 eqn:Hread;
      [discriminate|].
    destruct (Service.tasksRun host api options f w) as [run|] eqn:Hrun; [|discriminate].
    destruct (Retry.outcome run) as [result|error] eqn:Hout; [discriminate|].
    simpl. intros [= <-].
    destruct (tasksRun_error host api options f w run error Hmax Hrun Hout)
      as (e & ->).
    split; [exists e; reflexivity|].
    apply getFromCache_miss. exact Hread.
Qed.

Lemma fetch_failure_witness :
  (exists e,
     ThrownError (ServiceError "Failed to fetch events" "GoogleCalendarFacade"
                    (Some (newError "Network error")))
     = ThrownError (ServiceError "Failed to fetch events" "GoogleCalendarFacade"
                      (Some e)) /\
     exists e0 t0 e1,
       Facade.API.getEventsAndTasksForDateRange Scenarios.deadApi
         (Facade.startDate Examples.january15) (Facade.endDate Examples.january15) e0
       = (Throw t0, e1) /\
       e = toError t0) /\
  Facade.cache
    (Facade.GoogleCalendarFacade.fetchEvents Examples.wallClock Scenarios.deadApi
       Examples.january15 Examples.cachedEvents (Examples.at_ 90000)).1.2
    !! Facade.GoogleCalendarFacade.getCacheKey Examples.january15 = None.
Proof.
  apply (proj1 (fetch_failure Examples.wallClock Scenarios.deadApi)
           Examples.january15 Examples.cachedEvents (Examples.at_ 90000)).
  - vm_compute. discriminate.
  - vm_compute. reflexivity.
Defined.

(** X11.  A fetch changes nothing of the facade but the entry of the key
    asked for: whatever the API answers, the facade is ready afterwards,
    keeps its retry config, and every other key has the entry it had. *)
Theorem fetch_frame {E : Type} (host : Facade.Host E)
    (api : Facade.GoogleCalendarAPI E) :
  (forall options (f : Facade.FacadeState (list Facade.CalendarEvent))
          (w : Facade.World E),
     let f' := (Facade.GoogleCalendarFacade.fetchEvents host api options f w).1.2 in
     Facade._isReady f' = true /\
     Facade.retryConfig f' = Facade.retryConfig f /\
     forall k, k <> Facade.GoogleCalendarFacade.getCacheKey options ->
       Facade.cache f' !! k = Facade.cache f !! k) /\
  (forall options (f : Facade.FacadeState (list Facade.Task)) (w : Facade.World E),
     let f' := (Facade.GoogleTasksFacade.fetchTasks host api options f w).1.2 in
     Facade._isReady f' = true /\
     Facade.retryConfig f' = Facade.retryConfig f /\
     forall k, k <> Facade.GoogleTasksFacade.getCacheKey options ->
       Facade.cache f' !! k = Facade.cache f !! k).
Proof.
  split.
  - intros options f w. apply fetchEvents_frame.
  - intros options f w. apply fetchTasks_frame.
Qed.

Lemma fetch_frame_witness :
  let f' := (Facade.GoogleCalendarFacade.fetchEvents Examples.wallClock
               Examples.workingApi Scenarios.january15AtWork Examples.cachedEvents
               (Examples.at_ 30000)).1.2 in
  Facade.cache f' !! Facade.GoogleCalendarFacade.getCacheKey Examples.january15
  = Facade.cache Examples.cachedEvents
      !! Facade.GoogleCalendarFacade.getCacheKey Examples.january15.
Proof.
  apply (proj1 (fetch_frame Examples.wallClock Examples.workingApi)
           Scenarios.january15AtWork Examples.cachedEvents (Examples.at_ 30000)).
  vm_compute. discriminate.
Defined.

(** X12.  The calendar id and [maxResults] of [fetchEvents] never reach the
    API: two fetches for the same dates that both miss the cache make the
    same API calls and return the same events, whatever calendar each
    names; the calendar id only selects the cache entry. *)
Theorem fetchEvents_ignores_calendarId {E : Type} (host : Facade.Host E)
    (api : Facade.GoogleCalendarAPI E)
    (options options' : Facade.FetchEventsOptions)
    (f : Facade.FacadeState (list Facade.CalendarEvent)) (w : Facade.World E)
    (Hstart : Facade.startDate options = Facade.startDate options')
    (Hend : Facade.endDate options = Facade.endDate options')
    (Hmiss : (Facade.getFromCache (Facade.GoogleCalendarFacade.getCacheKey options)
                (Facade.now host w) (Facade.cache f)).1 = None)
    (Hmiss' : (Facade.getFromCache (Facade.GoogleCalendarFacade.getCacheKey options')
                 (Facade.now host w) (Facade.cache f)).1 = None) :
  let '(r, _, w1) := Facade.GoogleCalendarFacade.fetchEvents host api options f w in
  let '(r', _, w1') := Facade.GoogleCalendarFacade.fetchEvents host api options' f w in
  r = r' /\ w1 = w1'.
Proof.
  rewrite !fetchEvents_unfold. cbv zeta. rewrite Hmiss, Hmiss', Hstart, Hend.
  destruct (Retry.outcome _); split; reflexivity.
Qed.

Lemma fetchEvents_ignores_calendarId_witness :
  let '(r, _, w1) :=
    Facade.GoogleCalendarFacade.fetchEvents Examples.wallClock Examples.workingApi
      Examples.january15 (Facade.newFacade None) (Examples.at_ 0) in
  let '(r', _, w1') :=
    Facade.GoogleCalendarFacade.fetchEvents Examples.wallClock Examples.workingApi
      Scenarios.january15AtWork (Facade.newFacade None) (Examples.at_ 0) in
  r = r' /\ w1 = w1'.
Proof.
  apply (fetchEvents_ignores_calendarId Examples.wallClock Examples.workingApi
           Examples.january15 Scenarios.january15AtWork (Facade.newFacade None)
           (Examples.at_ 0)); reflexivity.
Defined.



(** X14.  [completeTask] reads the clock once, before its first attempt:
    every API call it makes, retries included, is the same update of the
    default task list, with status "completed", that completion time and
    no other field. *)
Theorem completeTask_calls {E : Type} (host : Facade.Host E)
    (api : Facade.GoogleCalendarAPI E) (taskId : string)
    (f : Facade.FacadeState (list Facade.Task)) (w : Facade.World E) :
  let payload :=
    {| Api.taskId := None; Api.title := None; Api.notes := None;
       Api.taskStatus := Some "completed"; Api.due := None;
       Api.completed := Some (Facade.isoNow host (Facade.env w));
       Api.parent := None; Api.position := None |} in
  exists k,
    Facade.apiCalls (Facade.GoogleTasksFacade.completeTask host api taskId f w).2
    = Facade.apiCalls w ++ replicate k (Facade.CallUpdateTask taskId payload "@default").
Proof.
  cbv zeta.
  unfold Facade.GoogleTasksFacade.completeTask, Facade.GoogleTasksFacade.updateTask.
  simpl.
  match goal with
  | |- context [Retry.withRetry _ (Facade.call ?c ?m) ?cfg ?w] =>
    pose proof (withRetry_call_log host c m cfg w) as Hlog;
    exists (Retry.invocations (Retry.withRetry (Facade.worldRuntime host)
                                 (Facade.call c m) cfg w))
  end.
  simpl in Hlog.
  destruct (Retry.outcome _) as [[updated|]|t]; simpl; exact Hlog.
Qed.

(** ** The facades over any sequence of calls *)
Section FacadeRuns.
Import Retry Facade Service.
Context {E : Type}.
Variable host : Host E.
Variable api : GoogleCalendarAPI E.

Lemma orDefault_filled (o : option string) (d : string) :
  d <> "" -> orDefault o d <> "".
Proof.
  intros Hd. unfold orDefault. destruct o as [s|]; simpl; [|exact Hd].
  destruct (String.eqb_spec s ""); simpl; [exact Hd | assumption].
Qed.

Lemma transformEvents_titled (events : list Api.CalendarEvent) :
  Forall titled (GoogleCalendarFacade.transformEvents events).
Proof.
  unfold GoogleCalendarFacade.transformEvents. apply Forall_map, Forall_true.
  intros event. unfold titled. simpl. apply orDefault_filled. discriminate.
Qed.

Lemma transformTasks_labelled (tasks : list Api.TaskItem) :
  Forall labelled (GoogleTasksFacade.transformTasks tasks).
Proof.
  unfold GoogleTasksFacade.transformTasks. apply Forall_map, Forall_true.
  intros task. unfold labelled. simpl.
  split; apply orDefault_filled; discriminate.
Qed.

(** Storing data that satisfies [P] after a read keeps a cache of such
    data one. *)
Lemma cached_store {D : Type} (P : D -> Prop) (f f0 : FacadeState D)
    (key : string) (d : D) (now now' : Z) :
  cached P f -> P d ->
  cached P (withCache f0 (setCache key d now' (getFromCache key now (cache f)).2)).
Proof.
  intros Hf Hd k entry. simpl. unfold setCache.
  destruct (decide (k = key)) as [->|Hk].
  - rewrite lookup_insert_eq. intros [= <-]. exact Hd.
  - rewrite lookup_insert_ne by congruence. intros Hin.
    apply getFromCache_subset in Hin. exact (Hf k entry Hin).
Qed.

Lemma cached_read {D : Type} (P : D -> Prop) (f f0 : FacadeState D)
    (key : string) (now : Z) :
  cached P f -> cached P (withCache f0 (getFromCache key now (cache f)).2).
Proof.
  intros Hf k entry. simpl. intros Hin.
  apply getFromCache_subset in Hin. exact (Hf k entry Hin).
Qed.

Lemma cached_hit {D : Type} (P : D -> Prop) (f : FacadeState D)
    (key : string) (now : Z) (d : D) :
  cached P f -> (getFromCache key now (cache f)).1 = Some d -> P d.
Proof.
  intros Hf Hd. apply getFromCache_fresh in Hd.
  destruct Hd as (entry & Hin & <- & _). exact (Hf key entry Hin).
Qed.

(** A fetch of events returns titled events and keeps the cache one of
    titled events. *)
Lemma fetchEvents_titled options (f : FacadeState (list CalendarEvent))
    (w : World E) :
  cached (Forall titled) f ->
  let '(r, f', _) := GoogleCalendarFacade.fetchEvents host api options f w in
  cached (Forall titled) f' /\ forall d, r = Normal d -> Forall titled d.
Proof.
  intros Hf. rewrite fetchEvents_unfold. cbv zeta.
  destruct (getFromCache _ _ (cache f)).1 as [d|] eqn:Hread.
  - split; [apply cached_read; exact Hf|].
    intros d' [= <-]. exact (cached_hit _ _ _ _ _ Hf Hread).
  - destruct (outcome _) as [result|error].
    + split; [apply cached_store; [exact Hf | apply transformEvents_titled]|].
      intros d' [= <-]. apply transformEvents_titled.
    + split; [apply cached_read; exact Hf|]. intros d' Hd'. discriminate Hd'.
Qed.

Lemma fetchTasks_labelled options (f : FacadeState (list Task)) (w : World E) :
  cached (Forall labelled) f ->
  let '(r, f', _) := GoogleTasksFacade.fetchTasks host api options f w in
  cached (Forall labelled) f' /\ forall d, r = Normal d -> Forall labelled d.
Proof.
  intros Hf. rewrite fetchTasks_unfold. cbv zeta.
  destruct (getFromCache _ _ (cache f)).1 as [d|] eqn:Hread.
  - split; [apply cached_read; exact Hf|].
    intros d' [= <-]. exact (cached_hit _ _ _ _ _ Hf Hread).
  - destruct (Service.tasksRun host api options f w) as [run|].
    + destruct (outcome run) as [result|error].
      * split; [apply cached_store; [exact Hf | apply transformTasks_labelled]|].
        intros d' [= <-]. apply transformTasks_labelled.
      * split; [apply cached_read; exact Hf|]. intros d' Hd'. discriminate Hd'.
    + split; [apply cached_store; [exact Hf | constructor]|].
      intros d' [= <-]. constructor.
Qed.

(** What the calls that do not fetch leave of the cache: what was there,
    or nothing. *)
Lemma cache_afterMutation {D : Type} (r : Completion unit) (f f' : FacadeState D) :
  afterMutation r f f' ->
  (cache f' = cache f \/ cache f' = ∅) /\ _isReady f' = true.
Proof.
  intros (_ & _ & [-> | ->]).
  - split; [left; apply cache_ensureReady|].
    unfold ensureReady. destruct (_isReady f) eqn:H; [exact H | reflexivity].
  - split; [right; reflexivity|]. simpl.
    unfold ensureReady. destruct (_isReady f) eqn:H; [exact H | reflexivity].
Qed.

Lemma cached_shrunk {D : Type} (P : D -> Prop) (f f' : FacadeState D) :
  cache f' = cache f \/ cache f' = ∅ -> cached P f -> cached P f'.
Proof.
  intros [H|H] Hf k entry; rewrite H; [apply Hf|].
  rewrite lookup_empty. discriminate.
Qed.

Lemma cache_dispose {D : Type} (f : FacadeState D) :
  cache (dispose f) = cache f \/ cache (dispose f) = ∅.
Proof. unfold dispose. destruct (_isReady f); auto. Qed.

(** The two invariants of the events facade, over one call. *)
Lemma callEvents_invariant (c : EventsCall) (f : FacadeState (list CalendarEvent))
    (w : World E) :
  cached (Forall titled) f /\ cachesWhenReady f ->
  cached (Forall titled) (callEvents host api c f w).1 /\
  cachesWhenReady (callEvents host api c f w).1.
Proof.
  intros [Hf Hready].
  assert (Hfetch : forall options,
            let f' := (GoogleCalendarFacade.fetchEvents host api options f w).1.2 in
            cached (Forall titled) f' /\ cachesWhenReady f').
  { intros options. cbv zeta.
    pose proof (fetchEvents_titled options f w Hf) as Ht.
    pose proof (fetchEvents_frame host api options f w) as Hfr.
    destruct (GoogleCalendarFacade.fetchEvents host api options f w) as [[r f'] w'].
    simpl in *. destruct Ht as [Ht _]. destruct Hfr as (Hr & _).
    split; [exact Ht | right; exact Hr]. }
  destruct c as [options|date|m| | | ]; simpl.
  - specialize (Hfetch options).
    destruct (GoogleCalendarFacade.fetchEvents host api options f w) as [[r f'] w'].
    exact Hfetch.
  - unfold GoogleCalendarFacade.fetchEventsForDate.
    specialize (Hfetch {| startDate := date; endDate := date;
                          maxResults := None; calendarId := None |}).
    destruct (GoogleCalendarFacade.fetchEvents host api _ f w) as [[r f'] w'].
    exact Hfetch.
  - pose proof (applyEventMutation_state host api m f w) as Hm.
    destruct (applyEventMutation host api m f w) as [[r f'] w']. simpl.
    apply cache_afterMutation in Hm. destruct Hm as [Hc Hr].
    split; [exact (cached_shrunk _ _ _ Hc Hf) | right; exact Hr].
  - split; [|left; reflexivity].
    intros k entry. simpl. rewrite lookup_empty. discriminate.
  - unfold initialize. split.
    + apply (cached_shrunk _ f); [left; apply cache_ensureReady | exact Hf].
    + right. unfold ensureReady. destruct (_isReady f) eqn:H; [exact H | reflexivity].
  - split; [exact (cached_shrunk _ _ _ (cache_dispose f) Hf)|].
    left. unfold dispose. destruct (_isReady f) eqn:H; [reflexivity|].
    destruct Hready as [Hempty|Hr]; [exact Hempty | congruence].
Qed.

Lemma callTasks_invariant (c : TasksCall) (f : FacadeState (list Task))
    (w : World E) :
  cached (Forall labelled) f /\ cachesWhenReady f ->
  cached (Forall labelled) (callTasks host api c f w).1 /\
  cachesWhenReady (callTasks host api c f w).1.
Proof.
  intros [Hf Hready].
  assert (Hfetch : forall options,
            let f' := (GoogleTasksFacade.fetchTasks host api options f w).1.2 in
            cached (Forall labelled) f' /\ cachesWhenReady f').
  { intros options. cbv zeta.
    pose proof (fetchTasks_labelled options f w Hf) as Ht.
    pose proof (fetchTasks_frame host api options f w) as Hfr.
    destruct (GoogleTasksFacade.fetchTasks host api options f w) as [[r f'] w'].
    simpl in *. destruct Ht as [Ht _]. destruct Hfr as (Hr & _).
    split; [exact Ht | right; exact Hr]. }
  destruct c as [options|date|m| | | ]; simpl.
  - specialize (Hfetch options).
    destruct (GoogleTasksFacade.fetchTasks host api options f w) as [[r f'] w'].
    exact Hfetch.
  - unfold GoogleTasksFacade.fetchTasksForDate.
    specialize (Hfetch {| tStartDate := Some date; tEndDate := Some date;
                          showCompleted := None; tMaxResults := None;
                          taskListId := None |}).
    destruct (GoogleTasksFacade.fetchTasks host api _ f w) as [[r f'] w'].
    exact Hfetch.
  - pose proof (applyTaskMutation_state host api m f w) as Hm.
    destruct (applyTaskMutation host api m f w) as [[r f'] w']. simpl.
    apply cache_afterMutation in Hm. destruct Hm as [Hc Hr].
    split; [exact (cached_shrunk _ _ _ Hc Hf) | right; exact Hr].
  - split; [|left; reflexivity].
    intros k entry. simpl. rewrite lookup_empty. discriminate.
  - unfold initialize. split.
    + apply (cached_shrunk _ f); [left; apply cache_ensureReady | exact Hf].
    + right. unfold ensureReady. destruct (_isReady f) eqn:H; [exact H | reflexivity].
  - split; [exact (cached_shrunk _ _ _ (cache_dispose f) Hf)|].
    left. unfold dispose. destruct (_isReady f) eqn:H; [reflexivity|].
    destruct Hready as [Hempty|Hr]; [exact Hempty | congruence].
Qed.

Lemma newFacade_invariant {D : Type} (P : D -> Prop) (rc : option RetryConfig) :
  cached P (newFacade rc) /\ cachesWhenReady (newFacade rc : FacadeState D).
Proof.
  split; [|left; reflexivity].
  intros k entry. simpl. rewrite lookup_empty. discriminate.
Qed.

Lemma runEvents_invariant (between : E -> E) (cs : list EventsCall) :
  forall f w,
    cached (Forall titled) f /\ cachesWhenReady f ->
    cached (Forall titled) (runEvents host api between cs f w).1 /\
    cachesWhenReady (runEvents host api between cs f w).1.
Proof.
  unfold runEvents.
  induction cs as [|c cs IH]; intros f w Hf; simpl; [exact Hf|].
  pose proof (callEvents_invariant c f (later between w) Hf) as H1.
  destruct (callEvents host api c f (later between w)) as [f1 w1].
  apply IH. exact H1.
Qed.

Lemma runTasks_invariant (between : E -> E) (cs : list TasksCall) :
  forall f w,
    cached (Forall labelled) f /\ cachesWhenReady f ->
    cached (Forall labelled) (runTasks host api between cs f w).1 /\
    cachesWhenReady (runTasks host api between cs f w).1.
Proof.
  unfold runTasks.
  induction cs as [|c cs IH]; intros f w Hf; simpl; [exact Hf|].
  pose proof (callTasks_invariant c f (later between w) Hf) as H1.
  destruct (callTasks host api c f (later between w)) as [f1 w1].
  apply IH. exact H1.
Qed.
End FacadeRuns.

(** X15.  Whatever was called on a facade since it was constructed, and
    whatever the API answered: every event a fetch returns, from the cache
    or from the API, has a title that is not empty, and every task a title
    and a status that are not empty. *)
Theorem fetched_items_are_titled {E : Type} (host : Facade.Host E)
    (api : Facade.GoogleCalendarAPI E) (between : E -> E)
    (retryConfig : option Retry.RetryConfig) (w0 w : Facade.World E) :
  (forall (calls : list Service.EventsCall) options events,
     (Facade.GoogleCalendarFacade.fetchEvents host api options
        (Service.runEvents host api between calls (Facade.newFacade retryConfig) w0).1
        w).1.1 = Normal events ->
     Forall Service.titled events) /\
  (forall (calls : list Service.TasksCall) options tasks,
     (Facade.GoogleTasksFacade.fetchTasks host api options
        (Service.runTasks host api between calls (Facade.newFacade retryConfig) w0).1
        w).1.1 = Normal tasks ->
     Forall Service.labelled tasks).
Proof.
  split.
  - intros calls options events.
    destruct (runEvents_invariant host api between calls _ w0
                (newFacade_invariant (Forall Service.titled) retryConfig)) as [Hc _].
    pose proof (fetchEvents_titled host api options _ w Hc) as Ht.
    destruct (Facade.GoogleCalendarFacade.fetchEvents host api options _ w)
      as [[r f'] w'].
    simpl. intros ->. apply Ht. reflexivity.
  - intros calls options tasks.
    destruct (runTasks_invariant host api between calls _ w0
                (newFacade_invariant (Forall Service.labelled) retryConfig)) as [Hc _].
    pose proof (fetchTasks_labelled host api options _ w Hc) as Ht.
    destruct (Facade.GoogleTasksFacade.fetchTasks host api options _ w)
      as [[r f'] w'].
    simpl. intros ->. apply Ht. reflexivity.
Qed.

Lemma fetched_items_are_titled_witness :
  Forall Service.titled
    [Facade.GoogleCalendarFacade.transformEvent Examples.standup].
Proof.
  apply (proj1 (fetched_items_are_titled Examples.wallClock Examples.workingApi
                  (fun t => t + 1000) None (Examples.at_ 0) (Examples.at_ 30000))
           [Service.FetchEvents Examples.january15;
            Service.MutateEvents (Facade.DeleteEvent "event-1" "primary")]
           Examples.january15).
  reflexivity.
Defined.



(** ** [OAuthServer]: how a flow starts and how it ends *)
Section OAuthFlows.
Import OAuth.

Lemma portFree_fresh (h : Host) :
  portFree (withServers h (servers h ++ [{| listening := false; hasListened := false;
                                            closeCalls := 0 |}]))
  = portFree h.
Proof.
  unfold portFree, withServers. simpl. rewrite forallb_app. simpl.
  rewrite !andb_true_r. reflexivity.
Qed.

Lemma alter_last {A : Type} (g : A -> A) (l : list A) (x : A) :
  alter g (length l) (l ++ [x]) = l ++ [g x].
Proof. induction l as [|a l IH]; simpl; [reflexivity|]. f_equal. exact IH. Qed.

(** The flow as [startOAuthFlow] leaves it when the port is free: the new
    server listens, the object holds it, the browser is opened. *)
Lemma startOAuthFlow_free (credentials : OAuthCredentials) (o : OAuthServer)
    (h : Host) :
  portFree h = true ->
  startOAuthFlow credentials o h =
  {| object := {| server := Some (length (servers h)) |};
     host := {| servers := servers h ++ [{| listening := true; hasListened := true;
                                            closeCalls := 0 |}];
                opened := opened h ++ [getAuthUrl credentials];
                responses := responses h; uncaught := uncaught h |};
     flowServer := length (servers h); promise := Pending; exchanging := 0 |}.
Proof.
  intros Hfree. unfold startOAuthFlow, startServer. simpl.
  rewrite portFree_fresh, Hfree. simpl. rewrite alter_last. reflexivity.
Qed.


End OAuthFlows.

(** X17.  The first request for [/callback] of a flow that listens settles
    how the flow goes on, and in every case closes the listener: with an
    [error] parameter the promise is rejected with "Authorization failed:"
    and the error, a 400 page is sent and no token exchange starts, even if
    a code came along; with neither error nor code it is rejected with "No
    authorization code received" after a 400 page; with a code alone a 200
    page is sent, one exchange starts and the promise stays pending. *)
Theorem first_callback (credentials : OAuth.OAuthCredentials)
    (o : OAuth.OAuthServer) (h : OAuth.Host) (req : OAuth.Req)
    (Hfree : OAuth.portFree h = true)
    (Hpath : OAuth.pathname req = Some "/callback") :
  let fl := OAuth.step (OAuth.Request req) (OAuth.startOAuthFlow credentials o h) in
  OAuth.server (OAuth.object fl) = None /\
  OAuth.isListening (OAuth.flowServer fl) (OAuth.host fl) = false /\
  OAuth.closeCount (OAuth.flowServer fl) (OAuth.host fl) = 1%nat /\
  (if truthy (OAuth.error req) then
     OAuth.promise fl
     = OAuth.Rejected
         (ThrownError (newError ("Authorization failed: "
                                   ++ default "" (OAuth.error req)))) /\
     OAuth.responses (OAuth.host fl) = OAuth.responses h ++ [400] /\
     OAuth.exchanging fl = 0%nat
   else if truthy (OAuth.code req) then
     OAuth.promise fl = OAuth.Pending /\
     OAuth.responses (OAuth.host fl) = OAuth.responses h ++ [200] /\
     OAuth.exchanging fl = 1%nat
   else
     OAuth.promise fl
     = OAuth.Rejected (ThrownError (newError "No authorization code received")) /\
     OAuth.responses (OAuth.host fl) = OAuth.responses h ++ [400] /\
     OAuth.exchanging fl = 0%nat).
Proof.
  cbv zeta. rewrite (startOAuthFlow_free credentials o h Hfree).
  unfold OAuth.step, OAuth.everListened. simpl.
  rewrite list_lookup_middle by reflexivity. simpl.
  unfold OAuth.onRequest, OAuth.handleCallback. rewrite Hpath. simpl.
  unfold OAuth.isListening, OAuth.closeCount.
  destruct (truthy (OAuth.error req)); [|destruct (truthy (OAuth.code req))];
    simpl; unfold OAuth.httpClose; simpl; rewrite alter_last;
    rewrite list_lookup_middle by reflexivity; simpl; repeat split.
Qed.

Lemma first_callback_witness :
  let req := {| OAuth.pathname := Some "/callback"; OAuth.code := Some "4/abc";
                OAuth.error := Some "access_denied" |} in
  let fl := OAuth.step (OAuth.Request req)
              (OAuth.startOAuthFlow Examples.desktopApp {| OAuth.server := None |}
                 Examples.freshProcess) in
  OAuth.server (OAuth.object fl) = None /\
  OAuth.isListening (OAuth.flowServer fl) (OAuth.host fl) = false /\
  OAuth.closeCount (OAuth.flowServer fl) (OAuth.host fl) = 1%nat /\
  OAuth.promise fl
  = OAuth.Rejected (ThrownError (newError "Authorization failed: access_denied")) /\
  OAuth.responses (OAuth.host fl) = [400] /\
  OAuth.exchanging fl = 0%nat.
Proof.
  apply (first_callback Examples.desktopApp {| OAuth.server := None |}
           Examples.freshProcess
           {| OAuth.pathname := Some "/callback"; OAuth.code := Some "4/abc";
              OAuth.error := Some "access_denied" |});
    reflexivity.
Defined.





(** ** The error classes *)

(** X20.  [isRetriableError] accepts exactly the instances of
    [NetworkError] and the instances of [GoogleCalendarError] whose status
    code is at least 500.  A [RateLimitError], whose status code is 429, is
    an instance of [GoogleCalendarError] and so is never accepted: the
    branch written for it is never reached. *)
Theorem isRetriableError_accepts (error : Errors.Raised) :
  (Errors.isRetriableError error = true <->
   exists e, error = Errors.Typed e /\
     (Errors.classOf e = Errors.Class.NetworkError \/
      Errors.instanceof error Errors.Class.GoogleCalendarError = true /\
      exists status, Errors.statusCode e = Some status /\ 500 <= status)) /\
  (Errors.instanceof error Errors.Class.RateLimitError = true ->
   Errors.isRetriableError error = false).
Proof.
  destruct error as [e|t].
  2:{ split; [|discriminate]. split; [discriminate|]. intros (e & He & _).
      discriminate He. }
  split.
  - split.
    + intros H. exists e. split; [reflexivity|].
      destruct e as [m c|m p c|p|p|m [s|] c|i c|c|r p|m o|m f];
        try discriminate H; try (left; reflexivity).
      right. split; [reflexivity|]. exists s. split; [reflexivity|].
      unfold Errors.isRetriableError in H. simpl in H.
      destruct (s =? 0); simpl in H; [discriminate|]. lia.
    + intros (e' & [= <-] & [Hn | [Hg (s & Hs & Hge)]]).
      * destruct e; try discriminate Hn. reflexivity.
      * destruct e as [m c|m p c|p|p|m s' c|i c|c|r p|m o|m f];
          try discriminate Hg; simpl in Hs.
        -- subst s'. unfold Errors.isRetriableError. simpl.
           destruct (Z.eqb_spec s 0); simpl; lia.
        -- injection Hs as <-. lia.
        -- injection Hs as <-. lia.
        -- injection Hs as <-. lia.
  - destruct e; try discriminate. reflexivity.
Qed.

Lemma isRetriableError_accepts_witness :
  Errors.isRetriableError
    (Errors.Typed (Errors.NewRateLimitError (Some 30) None)) = false.
Proof.
  apply (proj2 (isRetriableError_accepts
                  (Errors.Typed (Errors.NewRateLimitError (Some 30) None)))).
  reflexivity.
Defined.

(** The message for the user is empty only for a [ValidationError]
    made with an empty message: every other [Error] gets a text. *)
Theorem getUserFriendlyMessage_empty (error : Errors.Raised)
    (Herror : forall t, error = Errors.Untyped t -> exists e, t = ThrownError e)
    (Hempty : Errors.getUserFriendlyMessage error = "") :
  exists field, error = Errors.Typed (Errors.NewValidationError "" field).
Proof.
  assert (Hfilled : forall o d, d <> "" -> orDefault o d <> "").
  { intros o d Hd. unfold orDefault. destruct o as [s|]; simpl; [|exact Hd].
    destruct (String.eqb_spec s ""); simpl; [exact Hd | assumption]. }
  destruct error as [e|t].
  - destruct e as [m c|m p c|p|p|m s c|i c|c|r p|m o|m f];
      unfold Errors.getUserFriendlyMessage in Hempty; simpl in Hempty;
      try discriminate Hempty;
      try (exfalso; revert Hempty; apply Hfilled; discriminate).
    + destruct (truthyNumber r); discriminate Hempty.
    + subst m. eauto.
  - exfalso. unfold Errors.getUserFriendlyMessage in Hempty. simpl in Hempty.
    revert Hempty. apply Hfilled. discriminate.
Qed.

Lemma getUserFriendlyMessage_empty_witness :
  exists field,
    Errors.Typed (Errors.NewValidationError "" (Some "title"))
    = Errors.Typed (Errors.NewValidationError "" field).
Proof.
  apply (getUserFriendlyMessage_empty
           (Errors.Typed (Errors.NewValidationError "" (Some "title")))).
  - intros t Ht. discriminate Ht.
  - reflexivity.
Defined.

(** ** The provider's [withRetry] *)
Section ProviderRetry.
Import Errors Provider Constants.GOOGLE_CALENDAR_CONSTANTS.RATE_LIMIT.
Context {W T : Type}.
Variable sleep : Z -> W -> W.
Variable fn : W -> Settled T * W.

(** What the conversion makes of an error of the API, by its status. *)
Lemma typed_untyped (t : Thrown) :
  typed (Untyped t) =
  match thrownStatus t with
  | Some status =>
    if status =? 429 then Typed (NewRateLimitError None None)
    else if status >=? 500 then
      Typed (NewGoogleCalendarError (orDefault (thrownMessage t) "Server error")
                                    (Some status) None)
    else if status =? 0 then
      Typed (NewNetworkError (orDefault (thrownMessage t) "Network error")
                             (Some (Untyped t)))
    else Untyped t
  | None =>
    Typed (NewNetworkError (orDefault (thrownMessage t) "Network error")
                           (Some (Untyped t)))
  end.
Proof. reflexivity. Qed.

(** An error of the API is retried exactly when it carries no status, the
    status 0, or a status of at least 500 other than none. *)
Lemma retriable_untyped (t : Thrown) :
  isRetriableError (typed (Untyped t)) =
  match thrownStatus t with
  | Some status => (status >=? 500) || (status =? 0)
  | None => true
  end.
Proof.
  rewrite typed_untyped. destruct (thrownStatus t) as [status|]; [|reflexivity].
  destruct (Z.eqb_spec status 429) as [->|H429]; [reflexivity|].
  destruct (Z.geb_spec status 500) as [Hge|Hlt].
  - unfold isRetriableError. simpl.
    destruct (Z.eqb_spec status 0); simpl; lia.
  - destruct (Z.eqb_spec status 0); reflexivity.
Qed.

(** A first failure that is not retriable ends the run. *)
Lemma withRetry_gives_up (w w1 : W) (error : Raised) :
  fn w = (RejectedWith error, w1) ->
  isRetriableError (typed error) = false ->
  withRetry sleep fn w =
  {| outcome := RejectedWith (typed error); world := w1; invocations := 1;
     backoffs := [] |}.
Proof.
  intros Hfn Hno. unfold withRetry. simpl. rewrite Hfn, Hno. reflexivity.
Qed.

(** The loop started at [attempt] with [attempt] delays behind it: the
    delays double from one second on, and there is one less than there are
    invocations. *)
Lemma retryLoop_backoffs (fuel : nat) :
  forall (attempt : nat) lastError w calls slept,
    (attempt <= 3)%nat -> fuel = (4 - attempt)%nat ->
    slept = map (fun i => 1000 * 2 ^ Z.of_nat i) (seq 0 attempt) ->
    calls = attempt ->
    let run := retryLoop sleep fn fuel (Z.of_nat attempt) lastError w calls slept in
    (attempt + 1 <= invocations run <= 4)%nat /\
    backoffs run
    = map (fun i => 1000 * 2 ^ Z.of_nat i) (seq 0 (invocations run - 1)).
Proof.
  induction fuel as [|fuel IH]; intros attempt lastError w calls slept Hle Hf Hs Hc.
  - lia.
  - simpl. unfold MAX_RETRIES.
    destruct (Z.leb_spec (Z.of_nat attempt) 3) as [_|Hgt]; [|lia].
    destruct (fn w) as [[v|error] w1]; simpl.
    { subst calls slept. split; [lia|].
      replace (attempt - 0)%nat with attempt by lia. reflexivity. }
    destruct (negb (isRetriableError (typed error)) || (Z.of_nat attempt =? 3))%bool
      eqn:Hstop; simpl.
    { subst calls slept. split; [lia|].
      replace (attempt - 0)%nat with attempt by lia. reflexivity. }
    apply orb_false_iff in Hstop. destruct Hstop as [_ Hlast].
    apply Z.eqb_neq in Hlast.
    replace (Z.of_nat attempt + 1) with (Z.of_nat (S attempt)) by lia.
    assert (Hslept : (slept ++ [backoff (Z.of_nat attempt)])%list
                     = map (fun i => 1000 * 2 ^ Z.of_nat i) (seq 0 (S attempt))).
    { subst slept. rewrite seq_S, map_app. simpl. f_equal. f_equal.
      unfold backoff, INITIAL_BACKOFF_MS, BACKOFF_MULTIPLIER, MAX_BACKOFF_MS,
        Constants.TIME.SECOND_MS.
      assert (Hpow : 2 ^ Z.of_nat attempt <= 2 ^ 2).
      { apply Z.pow_le_mono_r; lia. }
      change (2 ^ 2) with 4 in Hpow. lia. }
    destruct (IH (S attempt) (Some (typed error)) (sleep (backoff (Z.of_nat attempt)) w1)
                 (S calls) (slept ++ [backoff (Z.of_nat attempt)])%list
                 ltac:(lia) ltac:(lia) Hslept ltac:(lia)) as [Hn Hb].
    split; [lia | exact Hb].
Qed.

(** A first failure that is retriable is followed by a second attempt,
    one second later. *)
Lemma withRetry_retries (w w1 : W) (error : Raised) :
  fn w = (RejectedWith error, w1) ->
  isRetriableError (typed error) = true ->
  let run := withRetry sleep fn w in
  (2 <= invocations run)%nat /\ head (backoffs run) = Some 1000.
Proof.
  intros Hfn Hyes.
  assert (Hrun : withRetry sleep fn w =
                 retryLoop sleep fn 3 (Z.of_nat 1) (Some (typed error))
                           (sleep 1000 w1) 1 [1000]).
  { unfold withRetry. change (Z.to_nat (MAX_RETRIES + 1)) with 4%nat.
    cbn [retryLoop]. change (0 <=? MAX_RETRIES) with true. cbv iota.
    rewrite Hfn, Hyes. reflexivity. }
  cbv zeta. rewrite Hrun.
  pose proof (retryLoop_backoffs 3 1 (Some (typed error)) (sleep 1000 w1) 1%nat [1000]
                ltac:(lia) eq_refl eq_refl eq_refl) as [Hn Hb].
  cbv zeta in Hn, Hb. split; [lia|]. rewrite Hb.
  destruct (invocations _ - 1)%nat as [|k] eqn:Hk; [lia | reflexivity].
Qed.
End ProviderRetry.

(** X21.  The provider's [withRetry] after a first failure with an error of
    the API: a status 429 ends the run at once with a [RateLimitError], any
    other status from 1 to 499 ends it at once with the error as it was
    caught; only an error without status, with status 0 or with a status of
    at least 500 is followed by a second attempt, after one second. *)
Theorem provider_retry_decision {W T : Type} (sleep : Z -> W -> W)
    (fn : W -> Provider.Settled T * W) (w w1 : W) (t : Thrown)
    (Hfn : fn w = (Provider.RejectedWith (Errors.Untyped t), w1)) :
  let run := Provider.withRetry sleep fn w in
  let once (error : Errors.Raised) :=
    {| Provider.outcome := Provider.RejectedWith error; Provider.world := w1;
       Provider.invocations := 1; Provider.backoffs := [] |} in
  match thrownStatus t with
  | Some status =>
    if status =? 429 then
      run = once (Errors.Typed (Errors.NewRateLimitError None None))
    else if (status >=? 500) || (status =? 0) then
      (2 <= Provider.invocations run)%nat /\ head (Provider.backoffs run) = Some 1000
    else run = once (Errors.Untyped t)
  | None =>
    (2 <= Provider.invocations run)%nat /\ head (Provider.backoffs run) = Some 1000
  end.
Proof.
  cbv zeta.
  pose proof (retriable_untyped t) as Hr.
  pose proof (typed_untyped t) as Ht.
  assert (Hagain : Errors.isRetriableError (Provider.typed (Errors.Untyped t)) = true ->
                   (2 <= Provider.invocations (Provider.withRetry sleep fn w))%nat /\
                   head (Provider.backoffs (Provider.withRetry sleep fn w))
                   = Some 1000).
  { intros Hyes. exact (withRetry_retries sleep fn w w1 _ Hfn Hyes). }
  destruct (thrownStatus t) as [status|]; [|apply Hagain; exact Hr].
  destruct (status =? 429) eqn:H429.
  - rewrite <- Ht. apply withRetry_gives_up; [exact Hfn|].
    rewrite Ht. reflexivity.
  - destruct ((status >=? 500) || (status =? 0))%bool eqn:Hretry;
      [apply Hagain; exact Hr|].
    apply orb_false_iff in Hretry. destruct Hretry as [H500 H0].
    rewrite H500, H0 in Ht. rewrite <- Ht.
    apply withRetry_gives_up; [exact Hfn | rewrite Ht; reflexivity].
Qed.

Lemma provider_retry_decision_witness :
  Provider.withRetry (fun _ (w : nat) => w) Scenarios.rateLimited 0%nat =
  {| Provider.outcome :=
       Provider.RejectedWith (Errors.Typed (Errors.NewRateLimitError None None));
     Provider.world := 1%nat; Provider.invocations := 1; Provider.backoffs := [] |}.
Proof.
  apply (provider_retry_decision (fun _ (w : nat) => w) Scenarios.rateLimited
           0%nat 1%nat
           (ThrownError (PlainError "Request failed, status 429" (Some 429)))).
  reflexivity.
Defined.

(** X22.  Whatever the function does, a run of the provider's [withRetry]
    invokes it between one and four times and sleeps one, two and four
    seconds between the attempts: the cap of sixteen seconds is never
    reached. *)
Theorem provider_backoffs {W T : Type} (sleep : Z -> W -> W)
    (fn : W -> Provider.Settled T * W) (w : W) :
  let run := Provider.withRetry sleep fn w in
  (1 <= Provider.invocations run <= 4)%nat /\
  Provider.backoffs run = take (Provider.invocations run - 1) [1000; 2000; 4000] /\
  forall d, d ∈ Provider.backoffs run ->
    d < Constants.GOOGLE_CALENDAR_CONSTANTS.RATE_LIMIT.MAX_BACKOFF_MS.
Proof.
  cbv zeta. unfold Provider.withRetry.
  pose proof (retryLoop_backoffs sleep fn 4 0 None w 0%nat [] ltac:(lia)
                eq_refl eq_refl eq_refl) as [Hn Hb].
  cbv zeta in Hn, Hb. change (Z.of_nat 0) with 0 in Hn, Hb.
  change (Z.to_nat (Constants.GOOGLE_CALENDAR_CONSTANTS.RATE_LIMIT.MAX_RETRIES + 1))
    with 4%nat.
  set (run := Provider.retryLoop sleep fn 4 0 None w 0 []) in *.
  assert (Htake : Provider.backoffs run
                  = take (Provider.invocations run - 1) [1000; 2000; 4000]).
  { rewrite Hb.
    destruct (Provider.invocations run - 1)%nat as [|[|[|[|k]]]] eqn:Hk;
      try reflexivity. lia. }
  split; [lia|]. split; [exact Htake|].
  intros d Hd. rewrite Htake in Hd. apply elem_of_take in Hd.
  destruct Hd as (i & Hi & _).
  destruct i as [|[|[|i]]]; simpl in Hi; try discriminate Hi;
    injection Hi as <-; reflexivity.
Qed.

(** ** The provider's fetches and caches *)
Section ProviderFetches.
Import Errors Provider Constants.GOOGLE_CALENDAR_CONSTANTS.
Context {E : Type}.
Variable server : Api.Request -> E -> Completion Api.Json * E.
Variable parseDate : string -> Api.JSDate.
Variable tz : Z.
Variable isoParam : Z -> string.
Variable clock : E -> Z.
Variable pause : Z -> E -> E.

(** A function that returns at its first call is invoked once. *)
Lemma provider_withRetry_first {W T : Type} (sleep : Z -> W -> W)
    (fn : W -> Settled T * W) (w w1 : W) (v : T) :
  fn w = (Fulfilled v, w1) ->
  withRetry sleep fn w =
  {| outcome := Fulfilled v; world := w1; invocations := 1; backoffs := [] |}.
Proof.
  intros Hfn. unfold withRetry.
  change (Z.to_nat (RATE_LIMIT.MAX_RETRIES + 1)) with 4%nat.
  cbn [retryLoop]. change (0 <=? RATE_LIMIT.MAX_RETRIES) with true. cbv iota.
  rewrite Hfn. reflexivity.
Qed.

(** A call of the API that resolves, wrapped for [withRetry]. *)
Lemma apiCall_resolves {A : Type}
    (method : Api.ApiState -> Api.Net E -> Completion A * Api.ApiState * Api.Net E)
    (st st1 : Api.ApiState) (n n1 : Api.Net E) (a : A) :
  method st n = (Normal a, st1, n1) ->
  withRetry (sleep pause) (apiCall method) (st, n) =
  {| outcome := Fulfilled a; world := (st1, n1); invocations := 1; backoffs := [] |}.
Proof.
  intros Hm. apply provider_withRetry_first. unfold apiCall. simpl.
  rewrite Hm. reflexivity.
Qed.

(** The two cached fetches of the API always resolve. *)
Lemma getEventsForDateRange_normal startDate endDate st (n : Api.Net E) :
  exists result st1 n1,
    Api.getEventsForDateRange server parseDate tz isoParam startDate endDate st n
    = (Normal result, st1, n1).
Proof.
  unfold Api.getEventsForDateRange.
  destruct (Api.requestEvents server isoParam _ _ st n) as [[[a|t] st1] n1];
    simpl; eauto.
Qed.

Lemma getTasks_normal st (n : Api.Net E) :
  exists result st1 n1, Api.getTasks server st n = (Normal result, st1, n1).
Proof.
  unfold Api.getTasks.
  destruct (Api.notConfigured (Api.credentials st)); simpl; [eauto|].
  destruct (Api.makeRequest server _ _ _ st n) as [[[a|t] st1] n1]; simpl; eauto.
Qed.

(** [getEventsForDateRange] after a miss, the API having answered. *)
Lemma provider_events_miss (startDate endDate : string) (p : ProviderState)
    (n n1 : Api.Net E) result st1 :
  let key := (startDate ++ "-" ++ endDate)%string in
  (if now clock n - default 0 (lastEventRefresh p !! key) <? CACHE.EVENT_CACHE_TTL_MS
   then eventCache p !! key else None) = None ->
  Api.getEventsForDateRange server parseDate tz isoParam startDate endDate (api p) n
  = (Normal result, st1, n1) ->
  getEventsForDateRange server parseDate tz isoParam clock pause startDate endDate p n
  = match result with
    | Some r =>
      let items := default [] (Api.items r) in
      (Fulfilled (Some {| Api.items := Some items;
                          Api.nextPageToken := Api.nextPageToken r |}),
       {| api := st1;
          eventCache := <[key := items]> (eventCache p);
          lastEventRefresh := <[key := now clock n]> (lastEventRefresh p);
          taskCache := taskCache p; lastTaskRefresh := lastTaskRefresh p |},
       n1)
    | None => (Fulfilled None, withApi p st1, n1)
    end.
Proof.
  cbv zeta. intros Hmiss Hapi.
  unfold getEventsForDateRange. cbv zeta. rewrite Hmiss.
  rewrite (apiCall_resolves _ _ st1 n n1 result Hapi). simpl.
  destruct result; reflexivity.
Qed.

Lemma provider_tasks_miss (p : ProviderState) (n n1 : Api.Net E) result st1 :
  (if now clock n - default 0 (lastTaskRefresh p !! "all-tasks")
      <? CACHE.EVENT_CACHE_TTL_MS
   then taskCache p !! "all-tasks" else None) = None ->
  Api.getTasks server (api p) n = (Normal result, st1, n1) ->
  getTasks server clock pause p n
  = match result with
    | Some r =>
      let items := default [] (Api.taskItems r) in
      (Fulfilled (Some {| Api.taskItems := Some items;
                          Api.taskNextPageToken := Api.taskNextPageToken r |}),
       {| api := st1;
          eventCache := eventCache p; lastEventRefresh := lastEventRefresh p;
          taskCache := <["all-tasks" := items]> (taskCache p);
          lastTaskRefresh := <["all-tasks" := now clock n]> (lastTaskRefresh p) |},
       n1)
    | None => (Fulfilled None, withApi p st1, n1)
    end.
Proof.
  intros Hmiss Hapi.
  unfold getTasks. cbv zeta. rewrite Hmiss.
  rewrite (apiCall_resolves _ _ st1 n n1 result Hapi). simpl.
  destruct result; reflexivity.
Qed.
End ProviderFetches.

(** X23.  The retry around the provider's cached fetches never acts: the
    API's fetches resolve with [null] instead of rejecting, so after a miss
    [getEventsForDateRange] and [getTasks] make one call of the API, sleep
    never, and never reject; an answer of [null] is passed on and not
    cached, any other answer is cached under the time read before the
    call. *)
Theorem provider_fetch_single_call {E : Type}
    (server : Api.Request -> E -> Completion Api.Json * E)
    (parseDate : string -> Api.JSDate) (tz : Z) (isoParam : Z -> string)
    (clock : E -> Z) (pause : Z -> E -> E)
    (p : Provider.ProviderState) (n : Api.Net E) :
  let TTL := Constants.GOOGLE_CALENDAR_CONSTANTS.CACHE.EVENT_CACHE_TTL_MS in
  (forall startDate endDate : string,
     let key := (startDate ++ "-" ++ endDate)%string in
     (if Provider.now clock n - default 0 (Provider.lastEventRefresh p !! key) <? TTL
      then Provider.eventCache p !! key else None) = None ->
     exists result st1 n1,
       Api.getEventsForDateRange server parseDate tz isoParam startDate endDate
         (Provider.api p) n = (Normal result, st1, n1) /\
       Provider.getEventsForDateRange server parseDate tz isoParam clock pause
         startDate endDate p n
       = match result with
         | Some r =>
           let items := default [] (Api.items r) in
           (Provider.Fulfilled
              (Some {| Api.items := Some items;
                       Api.nextPageToken := Api.nextPageToken r |}),
            {| Provider.api := st1;
               Provider.eventCache := <[key := items]> (Provider.eventCache p);
               Provider.lastEventRefresh :=
                 <[key := Provider.now clock n]> (Provider.lastEventRefresh p);
               Provider.taskCache := Provider.taskCache p;
               Provider.lastTaskRefresh := Provider.lastTaskRefresh p |},
            n1)
         | None => (Provider.Fulfilled None, Provider.withApi p st1, n1)
         end) /\
  ((if Provider.now clock n
         - default 0 (Provider.lastTaskRefresh p !! "all-tasks") <? TTL
    then Provider.taskCache p !! "all-tasks" else None) = None ->
   exists result st1 n1,
     Api.getTasks server (Provider.api p) n = (Normal result, st1, n1) /\
     Provider.getTasks server clock pause p n
     = match result with
       | Some r =>
         let items := default [] (Api.taskItems r) in
         (Provider.Fulfilled
            (Some {| Api.taskItems := Some items;
                     Api.taskNextPageToken := Api.taskNextPageToken r |}),
          {| Provider.api := st1;
             Provider.eventCache := Provider.eventCache p;
             Provider.lastEventRefresh := Provider.lastEventRefresh p;
             Provider.taskCache := <["all-tasks" := items]> (Provider.taskCache p);
             Provider.lastTaskRefresh :=
               <["all-tasks" := Provider.now clock n]> (Provider.lastTaskRefresh p) |},
          n1)
       | None => (Provider.Fulfilled None, Provider.withApi p st1, n1)
       end).
Proof.
  cbv zeta. split.
  - intros startDate endDate Hmiss.
    destruct (getEventsForDateRange_normal server parseDate tz isoParam
                startDate endDate (Provider.api p) n) as (result & st1 & n1 & Hapi).
    exists result, st1, n1. split; [exact Hapi|].
    exact (provider_events_miss server parseDate tz isoParam clock pause
             startDate endDate p n n1 result st1 Hmiss Hapi).
  - intros Hmiss.
    destruct (getTasks_normal server (Provider.api p) n)
      as (result & st1 & n1 & Hapi).
    exists result, st1, n1. split; [exact Hapi|].
    exact (provider_tasks_miss server clock pause p n n1 result st1 Hmiss Hapi).
Qed.

Lemma provider_fetch_single_call_witness :
  exists result st1 n1,
    Api.getTasks Examples.google (Provider.api Scenarios.provider) Examples.offline
    = (Normal result, st1, n1) /\
    Provider.getTasks Examples.google Scenarios.noon Scenarios.unpaused
      Scenarios.provider Examples.offline
    = match result with
      | Some r =>
        let items := default [] (Api.taskItems r) in
        (Provider.Fulfilled
           (Some {| Api.taskItems := Some items;
                    Api.taskNextPageToken := Api.taskNextPageToken r |}),
         {| Provider.api := st1;
            Provider.eventCache := Provider.eventCache Scenarios.provider;
            Provider.lastEventRefresh := Provider.lastEventRefresh Scenarios.provider;
            Provider.taskCache :=
              <["all-tasks" := items]> (Provider.taskCache Scenarios.provider);
            Provider.lastTaskRefresh :=
              <["all-tasks" := Provider.now Scenarios.noon Examples.offline]>
                (Provider.lastTaskRefresh Scenarios.provider) |},
         n1)
      | None => (Provider.Fulfilled None, Provider.withApi Scenarios.provider st1, n1)
      end.
Proof.
  apply (proj2 (provider_fetch_single_call Examples.google Examples.parseDate
                  Examples.utc Examples.isoParam Scenarios.noon Scenarios.unpaused
                  Scenarios.provider Examples.offline)).
  reflexivity.
Defined.

(** X24.  The provider's cache of events over two calls for the same dates,
    the first a miss that the API answers: a second call less than fifteen
    minutes after the first began sends nothing and answers with the items
    of the first, without its page token; from fifteen minutes on it asks
    the API again. *)
Theorem provider_cache_round_trip {E : Type}
    (server : Api.Request -> E -> Completion Api.Json * E)
    (parseDate : string -> Api.JSDate) (tz : Z) (isoParam : Z -> string)
    (clock : E -> Z) (pause : Z -> E -> E)
    (startDate endDate : string)
    (p : Provider.ProviderState) (n n1 n2 : Api.Net E)
    (r : Api.CalendarEvents) (st1 : Api.ApiState)
    (Hmiss :
       (if Provider.now clock n
             - default 0 (Provider.lastEventRefresh p
                            !! (startDate ++ "-" ++ endDate)%string)
           <? Constants.GOOGLE_CALENDAR_CONSTANTS.CACHE.EVENT_CACHE_TTL_MS
        then Provider.eventCache p !! (startDate ++ "-" ++ endDate)%string
        else None) = None)
    (Hapi : Api.getEventsForDateRange server parseDate tz isoParam startDate endDate
              (Provider.api p) n = (Normal (Some r), st1, n1)) :
  let fetch :=
    Provider.getEventsForDateRange server parseDate tz isoParam clock pause
      startDate endDate in
  let p1 := (fetch p n).1.2 in
  let age := Provider.now clock n2 - Provider.now clock n in
  (age < 15 * 60 * 1000 ->
   fetch p1 n2
   = (Provider.Fulfilled (Some {| Api.items := Some (default [] (Api.items r));
                                  Api.nextPageToken := None |}),
      p1, n2)) /\
  (15 * 60 * 1000 <= age ->
   exists result st2 n3,
     Api.getEventsForDateRange server parseDate tz isoParam startDate endDate
       (Provider.api p1) n2 = (Normal result, st2, n3) /\
     (fetch p1 n2).2 = n3).
Proof.
  cbv zeta.
  rewrite (provider_events_miss server parseDate tz isoParam clock pause
             startDate endDate p n n1 (Some r) st1 Hmiss Hapi).
  cbv zeta. cbn [fst snd].
  set (key := (startDate ++ "-" ++ endDate)%string).
  set (p1 := {| Provider.api := st1 |}).
  assert (Hitems : Provider.eventCache p1 !! key = Some (default [] (Api.items r))).
  { subst p1. simpl. apply lookup_insert_eq. }
  assert (Htime : Provider.lastEventRefresh p1 !! key = Some (Provider.now clock n)).
  { subst p1. simpl. apply lookup_insert_eq. }
  split.
  - intros Hage. unfold Provider.getEventsForDateRange. cbv zeta.
    fold key. rewrite Htime, Hitems. simpl.
    unfold Constants.GOOGLE_CALENDAR_CONSTANTS.CACHE.EVENT_CACHE_TTL_MS,
      Constants.TIME.MINUTE_MS.
    destruct (Z.ltb_spec (Provider.now clock n2 - Provider.now clock n) (15 * (60 * 1000)));
      [reflexivity | lia].
  - intros Hage.
    destruct (getEventsForDateRange_normal server parseDate tz isoParam
                startDate endDate (Provider.api p1) n2)
      as (result & st2 & n3 & Hapi2).
    exists result, st2, n3. split; [exact Hapi2|].
    rewrite (provider_events_miss server parseDate tz isoParam clock pause
               startDate endDate p1 n2 n3 result st2); [|fold key|exact Hapi2].
    + destruct result; reflexivity.
    + rewrite Htime. simpl.
      unfold Constants.GOOGLE_CALENDAR_CONSTANTS.CACHE.EVENT_CACHE_TTL_MS,
        Constants.TIME.MINUTE_MS.
      destruct (Z.ltb_spec (Provider.now clock n2 - Provider.now clock n)
                           (15 * (60 * 1000))); [lia | reflexivity].
Qed.

Lemma provider_cache_round_trip_witness :
  let fetch :=
    Provider.getEventsForDateRange Examples.google Examples.parseDate Examples.utc
      Examples.isoParam Scenarios.noon Scenarios.unpaused "2024-01-15" "2024-01-15" in
  let p1 := (fetch Scenarios.provider Examples.offline).1.2 in
  fetch p1 Examples.offline
  = (Provider.Fulfilled (Some {| Api.items := Some []; Api.nextPageToken := None |}),
     p1, Examples.offline).
Proof.
  apply (proj1 (provider_cache_round_trip Examples.google Examples.parseDate
                  Examples.utc Examples.isoParam Scenarios.noon Scenarios.unpaused
                  "2024-01-15" "2024-01-15" Scenarios.provider Examples.offline
                  (Api.getEventsForDateRange Examples.google Examples.parseDate
                     Examples.utc Examples.isoParam "2024-01-15" "2024-01-15"
                     (Provider.api Scenarios.provider) Examples.offline).2
                  Examples.offline
                  {| Api.items := None; Api.nextPageToken := None |}
                  (Provider.api Scenarios.provider) eq_refl eq_refl)).
  reflexivity.
Defined.

(** ** The provider's mutations *)
Section ProviderMutations.
Import Errors Provider Validation.
Context {E : Type}.
Variable server : Api.Request -> E -> Completion Api.Json * E.
Variable parseDate : string -> Api.JSDate.
Variable pause : Z -> E -> E.

(** What [validateTaskData] throws is a [ValidationError] with a message. *)
Lemma validateTaskData_error (task : Api.TaskItem) (error : CalendarIntegrationError) :
  validateTaskData parseDate task = Some error ->
  exists message field,
    error = NewValidationError message (Some field) /\ message <> "".
Proof.
  unfold validateTaskData, invalid.
  repeat match goal with
         | |- context [if ?b then _ else _] => destruct b
         end;
    intros [= <-]; eexists _, _; (split; [reflexivity | discriminate]).
Qed.

End ProviderMutations.

(** X25.  [createTask] with options that [validateTaskData] rejects: no
    request is sent, the API object and the caches stay as they are, the
    [ValidationError] is thrown on, and the one notice shown is its
    message, which is not empty.  Options without a title are rejected
    with "Task title is required". *)
Theorem createTask_invalid {E : Type}
    (server : Api.Request -> E -> Completion Api.Json * E)
    (parseDate : string -> Api.JSDate) (pause : Z -> E -> E)
    (options : Provider.CreateTaskOptions)
    (p : Provider.ProviderState) (o : Provider.Outside E) :
  (forall error,
     Validation.validateTaskData parseDate
       {| Api.taskId := None; Api.title := Provider.title options;
          Api.notes := Provider.notes options; Api.taskStatus := None;
          Api.due := Provider.due options; Api.completed := None;
          Api.parent := None; Api.position := None |} = Some error ->
     Provider.createTask server parseDate pause options p o
     = (Provider.RejectedWith (Errors.Typed error), p,
        {| Provider.net := Provider.net o;
           Provider.notices := Provider.notices o ++ [Errors.message error] |}) /\
     Errors.classOf error = Errors.Class.ValidationError /\
     Errors.message error <> "") /\
  (truthy (Provider.title options) = false ->
   exists error,
     Errors.message error = "❌ Task title is required" /\
     (Provider.createTask server parseDate pause options p o).1.1
     = Provider.RejectedWith (Errors.Typed error)).
Proof.
  split.
  - intros error Hinvalid. unfold Provider.createTask. cbv zeta.
    rewrite Hinvalid.
    destruct (validateTaskData_error parseDate _ _ Hinvalid)
      as (message & field & -> & Hmessage).
    repeat split. exact Hmessage.
  - intros Htitle. unfold Provider.createTask, Validation.validateTaskData.
    cbv zeta. simpl. rewrite Htitle. simpl.
    exists (Validation.invalid "❌ Task title is required" "title").
    split; reflexivity.
Qed.

Lemma createTask_invalid_witness :
  let untitled := {| Provider.title := Some "  "; Provider.notes := None;
                     Provider.due := None |} in
  let error := Errors.NewValidationError "❌ Task title is required" (Some "title") in
  let o := {| Provider.net := Examples.offline; Provider.notices := [] |} in
  Provider.createTask Examples.google Examples.parseDate Scenarios.unpaused untitled
    Scenarios.provider o
  = (Provider.RejectedWith (Errors.Typed error), Scenarios.provider,
     {| Provider.net := Examples.offline;
        Provider.notices := ["❌ Task title is required"] |}).
Proof.
  apply (proj1 (createTask_invalid Examples.google Examples.parseDate
                  Scenarios.unpaused
                  {| Provider.title := Some "  "; Provider.notes := None;
                     Provider.due := None |}
                  Scenarios.provider
                  {| Provider.net := Examples.offline; Provider.notices := [] |})
           (Errors.NewValidationError "❌ Task title is required" (Some "title"))).
  reflexivity.
Defined.



(** [search] never rejects and never resolves with [null]: it
    resolves with the events and the tasks that the combined fetch of the
    API returned for the range (from today to a year from now where the
    options name no date), each list filtered down to the items of which
    one of the searched fields contains the query, letter case aside. *)
Theorem search_results {E : Type}
    (server : Api.Request -> E -> Completion Api.Json * E)
    (parseDate : string -> Api.JSDate) (tz : Z) (isoParam : Z -> string)
    (clock : E -> Z) (isoDay : Z -> string)
    (options : Provider.SearchOptions)
    (p : Provider.ProviderState) (n : Api.Net E) :
  let startDate :=
    orDefault (Provider.startDate options) (isoDay (Provider.now clock n)) in
  let endDate :=
    orDefault (Provider.endDate options)
              (isoDay (Provider.now clock n + 365 * 24 * 60 * 60 * 1000)) in
  let query := toLowerCase (Provider.query options) in
  exists data st1 n1 events tasks,
    Api.getEventsAndTasksForDateRange server parseDate tz isoParam startDate endDate
      (Provider.api p) n = (Normal (Some data), st1, n1) /\
    Provider.search server parseDate tz isoParam clock isoDay options p n
    = (Provider.Fulfilled
         (Some {| Api.events := Some {| Api.items := Some events;
                                        Api.nextPageToken := None |};
                  Api.tasks := Some {| Api.taskItems := Some tasks;
                                       Api.taskNextPageToken := None |} |}),
       Provider.withApi p st1, n1) /\
    (forall event,
       event ∈ events <->
       event ∈ default [] (Api.events data ≫= Api.items) /\
       (Provider.mentions query (Api.summary event)
        || Provider.mentions query (Api.description event)
        || Provider.mentions query (Api.location event) = true)) /\
    (forall task,
       task ∈ tasks <->
       task ∈ default [] (Api.tasks data ≫= Api.taskItems) /\
       (Provider.mentions query (Api.title task)
        || Provider.mentions query (Api.notes task) = true)).
Proof.
  cbv zeta.
  set (startDate := orDefault (Provider.startDate options) _).
  set (endDate := orDefault (Provider.endDate options) _).
  destruct (getEventsAndTasksForDateRange_resolves server parseDate tz isoParam
              startDate endDate (Provider.api p) n) as [data Hdata].
  destruct (Api.getEventsAndTasksForDateRange server parseDate tz isoParam
              startDate endDate (Provider.api p) n) as [[r st1] n1] eqn:Hapi.
  simpl in Hdata. subst r.
  exists data, st1, n1.
  unfold Provider.search. cbv zeta. fold startDate endDate.
  unfold Provider.getEventsAndTasksForDateRange, Provider.passOn.
  rewrite Hapi. simpl.
  eexists _, _. split; [reflexivity|]. split; [reflexivity|]. split.
  - intros event. destruct (Api.events data ≫= Api.items) as [items|]; simpl.
    + rewrite list_elem_of_In, List.filter_In, <- list_elem_of_In. reflexivity.
    + split; [intros H; inversion H | intros [H _]; inversion H].
  - intros task. destruct (Api.tasks data ≫= Api.taskItems) as [items|]; simpl.
    + rewrite list_elem_of_In, List.filter_In, <- list_elem_of_In. reflexivity.
    + split; [intros H; inversion H | intros [H _]; inversion H].
Qed.

(** ** Validation *)
Section RegExpProperties.
Import RegExp.
Local Open Scope string_scope.

Lemma append_empty (a b : string) : a ++ b = "" -> a = "" /\ b = "".
Proof. destruct a; simpl; [auto | discriminate]. Qed.

Lemma append_nil_r (a : string) : a ++ "" = a.
Proof.
  induction a as [|c a IH]; [reflexivity|].
  change (String c a ++ "") with (String c (a ++ "")). rewrite IH. reflexivity.
Qed.

Lemma nullable_spec (r : RegExp) : nullable r = true <-> Matches r "".
Proof.
  split.
  - induction r as [| |p|r IHr s IHs|r IHr s IHs|r IHr]; simpl; intros H;
      try discriminate H.
    + constructor.
    + apply andb_true_iff in H. destruct H as [Hr Hs].
      change "" with ("" ++ ""). constructor; auto.
    + apply orb_true_iff in H. destruct H as [H|H];
        [apply MAltL | apply MAltR]; auto.
    + constructor.
  - intros H. remember "" as x eqn:Hx.
    induction H as [|p c Hp|r s a b Hr IHr Hs IHs|r s a Hr IHr|r s a Hs IHs|r
                    |r a b Hr IHr Hs IHs]; simpl; try reflexivity.
    + discriminate Hx.
    + apply append_empty in Hx. destruct Hx as [-> ->].
      rewrite IHr, IHs by reflexivity. reflexivity.
    + rewrite IHr by exact Hx. reflexivity.
    + rewrite IHs by exact Hx. apply orb_true_r.
Qed.

Lemma derivative_sound (c : ascii) (r : RegExp) :
  forall s, Matches (derivative c r) s -> Matches r (String c s).
Proof.
  induction r as [| |p|r IHr s IHs|r IHr s IHs|r IHr]; simpl; intros x H.
  - inversion H.
  - inversion H.
  - destruct (p c) eqn:Hp; inversion H; subst. constructor. exact Hp.
  - destruct (nullable r) eqn:Hn.
    + inversion H as [| | | ? ? ? Hl | ? ? ? Hr' | |]; subst.
      * inversion Hl as [| | ? ? a b Ha Hb | | | |]; subst.
        change (String c (a ++ b)) with (String c a ++ b). constructor; auto.
      * change (String c x) with ("" ++ String c x). constructor; auto.
        apply nullable_spec. exact Hn.
    + inversion H as [| | ? ? a b Ha Hb | | | |]; subst.
      change (String c (a ++ b)) with (String c a ++ b). constructor; auto.
  - inversion H; subst; [apply MAltL | apply MAltR]; auto.
  - inversion H as [| | ? ? a b Ha Hb | | | |]; subst.
    change (String c (a ++ b)) with (String c a ++ b). constructor; auto.
Qed.

Lemma derivative_complete (c : ascii) (r : RegExp) (x : string) :
  Matches r x -> forall s, x = String c s -> Matches (derivative c r) s.
Proof.
  intros H.
  induction H as [|p c0 Hp|r s a b Hr IHr Hs IHs|r s a Hr IHr|r s a Hs IHs|r
                  |r a b Hr IHr Hs IHs]; intros y Hy; simpl.
  - discriminate Hy.
  - injection Hy as -> <-. rewrite Hp. constructor.
  - destruct a as [|c0 a]; simpl in Hy.
    + assert (Hn : nullable r = true) by (apply nullable_spec; exact Hr).
      rewrite Hn. apply MAltR. apply IHs. exact Hy.
    + injection Hy as -> <-.
      destruct (nullable r); [apply MAltL|]; constructor; auto.
  - apply MAltL. auto.
  - apply MAltR. auto.
  - discriminate Hy.
  - destruct a as [|c0 a]; simpl in Hy.
    + exact (IHs y Hy).
    + injection Hy as -> <-. constructor; auto.
Qed.

(** The test by derivatives decides the strings a pattern matches. *)
Lemma test_spec (s : string) :
  forall r, test r s = true <-> Matches r s.
Proof.
  induction s as [|c s IH]; intros r; simpl.
  - apply nullable_spec.
  - rewrite IH. split.
    + apply derivative_sound.
    + intros H. exact (derivative_complete c r _ H s eq_refl).
Qed.

Lemma Matches_class (p : ascii -> bool) (x : string) :
  Matches (Class p) x <-> exists c, x = String c "" /\ p c = true.
Proof.
  split.
  - intros H. inversion H; subst. eauto.
  - intros (c & -> & Hp). constructor. exact Hp.
Qed.

Lemma Matches_star_class (p : ascii -> bool) (x : string) :
  Matches (Star (Class p)) x <-> Validation.every p x = true.
Proof.
  split.
  - intros H. remember (Star (Class p)) as r eqn:Hr.
    induction H as [|p0 c Hp|r0 s a b Hr0 IHr Hs IHs|r0 s a Hr0 IHr|r0 s a Hs IHs|r0
                    |r0 a b Hr0 IHr Hs IHs]; try discriminate Hr.
    + reflexivity.
    + injection Hr as ->. apply Matches_class in Hr0. destruct Hr0 as (c & -> & Hc).
      change (String c "" ++ b) with (String c b). simpl.
      rewrite Hc, IHs by reflexivity. reflexivity.
  - induction x as [|c x IH]; simpl; intros H.
    + constructor.
    + apply andb_true_iff in H. destruct H as [Hc Hx].
      change (String c x) with (String c "" ++ x).
      constructor; [constructor; exact Hc | auto].
Qed.

Lemma Matches_plus_class (p : ascii -> bool) (x : string) :
  Matches (Plus (Class p)) x <-> x <> "" /\ Validation.every p x = true.
Proof.
  unfold Plus. split.
  - intros H. inversion H as [| | ? ? a b Ha Hb | | | |]; subst.
    apply Matches_class in Ha. destruct Ha as (c & -> & Hc).
    apply Matches_star_class in Hb.
    change (String c "" ++ b) with (String c b). simpl. rewrite Hc, Hb.
    split; [discriminate | reflexivity].
  - intros [Hne H]. destruct x as [|c x]; [contradiction|].
    simpl in H. apply andb_true_iff in H. destruct H as [Hc Hx].
    change (String c x) with (String c "" ++ x).
    constructor; [constructor; exact Hc | apply Matches_star_class; exact Hx].
Qed.

Lemma Matches_seq (r s : RegExp) (x : string) :
  Matches (Seq r s) x <-> exists a b, x = a ++ b /\ Matches r a /\ Matches s b.
Proof.
  split.
  - intros H. inversion H; subst. eauto.
  - intros (a & b & -> & Ha & Hb). constructor; assumption.
Qed.

Lemma Matches_char (c : ascii) (x : string) :
  Matches (Class (Ascii.eqb c)) x <-> x = String c "".
Proof.
  rewrite Matches_class. split.
  - intros (c0 & -> & Hc). apply Ascii.eqb_eq in Hc. subst. reflexivity.
  - intros ->. exists c. split; [reflexivity | apply Ascii.eqb_refl].
Qed.
End RegExpProperties.

(** X27.  [validateEmail] accepts exactly the strings made of a local part,
    ["@"], a domain, ["."] and a last part, the three parts not empty and
    free of white space and of ["@"]; so an accepted address has neither
    leading nor trailing blanks, which [validateEmails] trims before it
    asks. *)
Theorem validateEmail_accepts (email : string) :
  Validation.validateEmail email = true <->
  exists localPart domain last,
    email = (localPart ++ "@" ++ domain ++ "." ++ last)%string /\
    Validation.addressPart localPart /\
    Validation.addressPart domain /\
    Validation.addressPart last.
Proof.
  unfold Validation.validateEmail, Validation.emailRegex, Validation.addressPart.
  rewrite test_spec. rewrite Matches_seq. split.
  - intros (a & x1 & -> & Ha & H1).
    apply Matches_seq in H1. destruct H1 as (at_ & x2 & -> & Hat & H2).
    apply Matches_seq in H2. destruct H2 as (b & x3 & -> & Hb & H3).
    apply Matches_seq in H3. destruct H3 as (dot & c & -> & Hdot & Hc).
    apply Matches_char in Hat, Hdot. subst at_ dot.
    apply Matches_plus_class in Ha, Hb, Hc.
    exists a, b, c. auto.
  - intros (a & b & c & -> & Ha & Hb & Hc).
    exists a, ("@" ++ b ++ "." ++ c)%string. split; [reflexivity|].
    split; [apply Matches_plus_class; exact Ha|].
    apply Matches_seq. exists "@"%string, (b ++ "." ++ c)%string.
    split; [reflexivity|]. split; [apply Matches_char; reflexivity|].
    apply Matches_seq. exists b, ("." ++ c)%string.
    split; [reflexivity|]. split; [apply Matches_plus_class; exact Hb|].
    apply Matches_seq. exists "."%string, c.
    split; [reflexivity|]. split; [apply Matches_char; reflexivity|].
    apply Matches_plus_class. exact Hc.
Qed.

Lemma validateEmail_accepts_witness :
  exists localPart domain last,
    "ada@example.org"%string = (localPart ++ "@" ++ domain ++ "." ++ last)%string /\
    Validation.addressPart localPart /\
    Validation.addressPart domain /\
    Validation.addressPart last.
Proof.
  apply (proj1 (validateEmail_accepts "ada@example.org")).
  reflexivity.
Defined.

Section EventData.
Import Validation.
Variable parseDate : string -> Api.JSDate.

Lemma length_zero (s : string) :
  (Z.of_nat (String.length s) =? 0) = true <-> s = ""%string.
Proof.
  destruct s; simpl; [tauto|]. split; discriminate.
Qed.

Lemma validateDateRange_accepts (start end_ : Api.JSDate) :
  validateDateRange start end_ = None <->
  exists s e, start = Some s /\ end_ = Some e /\ s < e.
Proof.
  unfold validateDateRange. destruct start as [s|], end_ as [e|];
    try (split; [discriminate | intros (? & ? & ? & ? & ?); discriminate]).
  destruct (Z.geb_spec s e).
  - split; [discriminate|]. intros (s' & e' & [= <-] & [= <-] & Hlt). lia.
  - split; [|reflexivity]. intros _. eauto.
Qed.

Lemma validateEmails_none (emails : list string) :
  validateEmails emails = [] <->
  Forall (fun email => validateEmail (trim email) = true) emails.
Proof.
  unfold validateEmails. induction emails as [|email emails IH]; simpl.
  - split; [constructor | reflexivity].
  - destruct (validateEmail (trim email)) eqn:Hv; simpl.
    + rewrite IH. split; [intros H; constructor; assumption|].
      intros H. inversion H; assumption.
    + split; [discriminate|]. intros H. inversion H; congruence.
Qed.

(** The checks of [validateEventData], each as a condition on the event. *)
Lemma validateEventData_checks (event : Api.CalendarEvent) :
  validateEventData parseDate event = None <->
  (negb (truthy (Api.summary event))
   || (Z.of_nat (String.length (trim (default "" (Api.summary event)))) =? 0))%bool
    = false /\
  (1000 <? Z.of_nat (String.length (default "" (Api.summary event)))) = false /\
  noTime (Api.start event) = false /\
  noTime (Api.end_ event) = false /\
  (if (truthy (dateTimeOf (Api.start event))
       && truthy (dateTimeOf (Api.end_ event)))%bool
   then validateDateRange
          (parseDate (default "" (dateTimeOf (Api.start event))))
          (parseDate (default "" (dateTimeOf (Api.end_ event))))
   else None) = None /\
  validateEmails (map Api.email (default [] (Api.attendees event))) = [] /\
  (truthy (Api.description event)
   && (8192 <? Z.of_nat (String.length (default "" (Api.description event)))))%bool
    = false /\
  (truthy (Api.location event)
   && (1024 <? Z.of_nat (String.length (default "" (Api.location event)))))%bool
    = false.
Proof.
  unfold validateEventData. cbv zeta.
  destruct (negb (truthy (Api.summary event)) || _)%bool;
    [split; [discriminate | intros (H & _); discriminate H]|].
  destruct (1000 <? _);
    [split; [discriminate | intros (_ & H & _); discriminate H]|].
  destruct (noTime (Api.start event));
    [split; [discriminate | intros (_ & _ & H & _); discriminate H]|].
  destruct (noTime (Api.end_ event));
    [split; [discriminate | intros (_ & _ & _ & H & _); discriminate H]|].
  destruct (if (truthy (dateTimeOf (Api.start event)) && _)%bool then _ else None)
    as [error|];
    [split; [discriminate | intros (_ & _ & _ & _ & H & _); discriminate H]|].
  destruct (validateEmails _) as [|bad rest]; simpl;
    [|split; [discriminate | intros (_ & _ & _ & _ & _ & H & _); discriminate H]].
  destruct (truthy (Api.description event) && _)%bool;
    [split; [discriminate | intros (_ & _ & _ & _ & _ & _ & H & _); discriminate H]|].
  destruct (truthy (Api.location event) && _)%bool;
    [split; [discriminate | intros (_ & _ & _ & _ & _ & _ & _ & H); discriminate H]|].
  split; [|reflexivity]. intros _. repeat split.
Qed.
End EventData.

(** X28.  [validateEventData] accepts an event exactly when it has a title
    that is not blank and at most 1000 long, a start and an end that each
    carry a time or a date, a start before the end where both carry a time
    that parses, attendees whose addresses are valid once trimmed, a
    description of at most 8192 and a location of at most 1024 code units.
    For an event whose start carries no time no date is ever parsed: an
    all-day event that ends before it starts is accepted. *)
Theorem validateEventData_accepts (parseDate : string -> Api.JSDate)
    (event : Api.CalendarEvent) :
  let summary := default "" (Api.summary event) in
  let startTime := Validation.dateTimeOf (Api.start event) in
  let endTime := Validation.dateTimeOf (Api.end_ event) in
  (Validation.validateEventData parseDate event = None <->
   (truthy (Api.summary event) = true /\
    Validation.trim summary <> ""%string /\
    Z.of_nat (String.length summary) <= 1000) /\
   Validation.noTime (Api.start event) = false /\
   Validation.noTime (Api.end_ event) = false /\
   (truthy startTime = true -> truthy endTime = true ->
    exists s e,
      parseDate (default "" startTime) = Some s /\
      parseDate (default "" endTime) = Some e /\ s < e) /\
   Forall (fun attendee =>
             Validation.validateEmail (Validation.trim (Api.email attendee)) = true)
          (default [] (Api.attendees event)) /\
   (truthy (Api.description event) = true ->
    Z.of_nat (String.length (default "" (Api.description event))) <= 8192) /\
   (truthy (Api.location event) = true ->
    Z.of_nat (String.length (default "" (Api.location event))) <= 1024)) /\
  (truthy startTime = false ->
   forall parseDate',
     Validation.validateEventData parseDate' event
     = Validation.validateEventData parseDate event).
Proof.
  cbv zeta. split.
  - rewrite validateEventData_checks.
    rewrite orb_false_iff, negb_false_iff, Z.ltb_ge.
    rewrite validateEmails_none, Forall_map.
    assert (Hblank : forall s,
              (Z.of_nat (String.length s) =? 0) = false <-> s <> ""%string).
    { intros s. rewrite <- length_zero. destruct (_ =? 0); split; congruence. }
    rewrite Hblank.
    assert (Hlong : forall o k,
              (truthy o && (k <? Z.of_nat (String.length (default "" o))))%bool = false
              <-> (truthy o = true -> Z.of_nat (String.length (default "" o)) <= k)).
    { intros o k. destruct (truthy o); simpl.
      - rewrite Z.ltb_ge. tauto.
      - split; [discriminate | reflexivity]. }
    rewrite !Hlong.
    assert (Hrange :
              (if (truthy (Validation.dateTimeOf (Api.start event))
                   && truthy (Validation.dateTimeOf (Api.end_ event)))%bool
               then Validation.validateDateRange
                      (parseDate (default "" (Validation.dateTimeOf (Api.start event))))
                      (parseDate (default "" (Validation.dateTimeOf (Api.end_ event))))
               else None) = None
              <-> (truthy (Validation.dateTimeOf (Api.start event)) = true ->
                   truthy (Validation.dateTimeOf (Api.end_ event)) = true ->
                   exists s e,
                     parseDate (default "" (Validation.dateTimeOf (Api.start event)))
                     = Some s /\
                     parseDate (default "" (Validation.dateTimeOf (Api.end_ event)))
                     = Some e /\ s < e)).
    { destruct (truthy (Validation.dateTimeOf (Api.start event)));
        destruct (truthy (Validation.dateTimeOf (Api.end_ event))); simpl;
        try (split; [discriminate | reflexivity]).
      rewrite validateDateRange_accepts. tauto. }
    rewrite Hrange. tauto.
  - intros Hstart parseDate'. unfold Validation.validateEventData. cbv zeta.
    rewrite Hstart. reflexivity.
Qed.

Lemma validateEventData_accepts_witness :
  Validation.validateEventData (fun _ => None) Scenarios.backwards
  = Validation.validateEventData Examples.parseDate Scenarios.backwards.
Proof.
  apply (proj2 (validateEventData_accepts Examples.parseDate Scenarios.backwards)).
  reflexivity.
Defined.

(** ** The calendar slice *)
Section SliceProperties.
Import Facade CalendarSlice.

Lemma indexById_app (payload : list CalendarEvent) (event : CalendarEvent) :
  indexById (payload ++ [event]) = <[id event := event]> (indexById payload).
Proof. unfold indexById. rewrite fold_left_app. reflexivity. Qed.

(** The entry of an id after a fetch: the last event of the payload that
    has this id. *)
Lemma indexById_lookup (payload : list CalendarEvent) (eventId : string) :
  indexById payload !! eventId
  = last (List.filter (fun event => String.eqb (id event) eventId) payload).
Proof.
  induction payload as [|event payload IH] using rev_ind; [reflexivity|].
  rewrite indexById_app, List.filter_app. simpl.
  destruct (String.eqb_spec (id event) eventId) as [->|Hne].
  - rewrite lookup_insert_eq, last_snoc. reflexivity.
  - rewrite lookup_insert_ne by exact Hne. rewrite app_nil_r. exact IH.
Qed.

Lemma indexById_listed (payload : list CalendarEvent) (eventId : string) :
  eventId ∈ map id payload -> is_Some (indexById payload !! eventId).
Proof.
  induction payload as [|event payload IH] using rev_ind.
  - simpl. intros H. inversion H.
  - rewrite map_app, indexById_app. simpl. intros [H|H]%elem_of_app.
    + destruct (decide (id event = eventId)) as [->|Hne].
      * rewrite lookup_insert_eq. eauto.
      * rewrite lookup_insert_ne by exact Hne. auto.
    + apply list_elem_of_singleton in H as ->. rewrite lookup_insert_eq. eauto.
Qed.

Lemma indexById_NoDup (payload : list CalendarEvent) (event : CalendarEvent) :
  NoDup (map id payload) -> event ∈ payload ->
  indexById payload !! id event = Some event.
Proof.
  induction payload as [|e payload IH] using rev_ind.
  - intros _ H. inversion H.
  - rewrite map_app, indexById_app. simpl.
    intros (Hnd & Hdisjoint & _)%NoDup_app [H|H]%elem_of_app.
    + rewrite lookup_insert_ne; [auto|].
      intros Heq. apply (Hdisjoint (id event)).
      * apply list_elem_of_fmap. eauto.
      * rewrite Heq. apply list_elem_of_singleton. reflexivity.
    + apply list_elem_of_singleton in H as ->. apply lookup_insert_eq.
Qed.

Lemma reducer_listed (now : Z) (state : CalendarState) (action : Action) :
  listedEventsExist state -> listedEventsExist (reducer now state action).
Proof.
  unfold listedEventsExist. intros Hinv.
  destruct action as [| | |payload startDate endDate|payload| |event|payload|
                      |event|payload| |eventId|payload];
    simpl; try exact Hinv.
  - intros k H. inversion H.
  - intros k. apply indexById_listed.
  - intros k [H|H]%elem_of_app.
    + destruct (decide (id event = k)) as [->|Hne].
      * rewrite lookup_insert_eq. eauto.
      * rewrite lookup_insert_ne by exact Hne. auto.
    + apply list_elem_of_singleton in H as ->. rewrite lookup_insert_eq. eauto.
  - intros k H.
    destruct (decide (id event = k)) as [->|Hne].
    + rewrite lookup_insert_eq. eauto.
    + rewrite lookup_insert_ne by exact Hne. auto.
  - intros k H. apply list_elem_of_In, List.filter_In in H as [H Hk].
    apply list_elem_of_In in H.
    destruct (String.eqb_spec k eventId) as [->|Hne]; [discriminate|].
    rewrite lookup_delete_ne by congruence. auto.
Qed.

Lemma reduce_listed (actions : list (Z * Action)) (state : CalendarState) :
  listedEventsExist state -> listedEventsExist (reduce actions state).
Proof.
  revert state. induction actions as [|[now action] actions IH]; intros state H.
  - exact H.
  - apply IH, reducer_listed, H.
Qed.

Lemma selectAllEvents_listed (state : CalendarState) :
  listedEventsExist state -> Forall is_Some (selectAllEvents state).
Proof.
  intros Hinv. unfold selectAllEvents. apply Forall_forall.
  intros o [k [-> Hk]]%list_elem_of_fmap. apply Hinv, Hk.
Qed.


Context {E : Type}.
Variable host : Host E.
Variable api : GoogleCalendarAPI E.

(** Whatever goes wrong in a call of the facade, what it throws is a
    [ServiceError] with the text of the operation. *)
Lemma fetchEvents_throws options (f : FacadeState (list CalendarEvent))
    (w : World E) (t : Thrown) :
  (GoogleCalendarFacade.fetchEvents host api options f w).1.1 = Throw t ->
  messageOr "Failed to fetch events" t = "Failed to fetch events".
Proof.
  unfold GoogleCalendarFacade.fetchEvents.
  destruct (getFromCache _ _ _) as [[d|] c]; simpl; [discriminate|].
  destruct (Retry.outcome _); simpl; [discriminate|].
  intros [= <-]. reflexivity.
Qed.

Lemma createEvent_throws event calendarId (f : FacadeState (list CalendarEvent))
    (w : World E) (t : Thrown) :
  (GoogleCalendarFacade.createEvent host api event calendarId f w).1.1 = Throw t ->
  messageOr "Failed to create event" t = "Failed to create event".
Proof.
  unfold GoogleCalendarFacade.createEvent. cbv zeta.
  destruct (Retry.outcome _) as [[created|]|]; simpl;
    [discriminate | intros [= <-]; reflexivity..].
Qed.

Lemma updateEvent_throws eventId updates calendarId
    (f : FacadeState (list CalendarEvent)) (w : World E) (t : Thrown) :
  (GoogleCalendarFacade.updateEvent host api eventId updates calendarId f w).1.1
  = Throw t ->
  messageOr "Failed to update event" t = "Failed to update event".
Proof.
  unfold GoogleCalendarFacade.updateEvent. cbv zeta.
  destruct (Retry.outcome _) as [[updated|]|]; simpl;
    [discriminate | intros [= <-]; reflexivity..].
Qed.

Lemma deleteEvent_throws eventId calendarId
    (f : FacadeState (list CalendarEvent)) (w : World E) (t : Thrown) :
  (GoogleCalendarFacade.deleteEvent host api eventId calendarId f w).1.1 = Throw t ->
  messageOr "Failed to delete event" t = "Failed to delete event".
Proof.
  unfold GoogleCalendarFacade.deleteEvent. cbv zeta.
  destruct (Retry.outcome _); simpl; [discriminate|].
  intros [= <-]. reflexivity.
Qed.
End SliceProperties.

(** X29.  Whatever actions the store has seen, every id the slice lists has
    an event, so [selectAllEvents] never holds [undefined].  After a
    fulfilled fetch it shows, for each event of the payload, the last event
    of the payload with the same id: the payload itself when its ids are
    distinct, and otherwise an event twice in place of the one it
    overwrote. *)
Theorem listed_events_exist (actions : list (Z * CalendarSlice.Action)) :
  let state := CalendarSlice.reduce actions CalendarSlice.initialState in
  CalendarSlice.listedEventsExist state /\
  Forall is_Some (CalendarSlice.selectAllEvents state) /\
  forall now payload startDate endDate,
    let fetched :=
      CalendarSlice.reducer now state
        (CalendarSlice.FetchEventsFulfilled payload startDate endDate) in
    CalendarSlice.selectAllEvents fetched
    = map (fun event =>
             last (List.filter
                     (fun other => String.eqb (Facade.id other) (Facade.id event))
                     payload))
          payload /\
    (NoDup (map Facade.id payload) ->
     CalendarSlice.selectAllEvents fetched = map Some payload).
Proof.
  intros state.
  assert (Hinv : CalendarSlice.listedEventsExist state).
  { apply reduce_listed. intros k H. inversion H. }
  split; [exact Hinv|]. split; [apply selectAllEvents_listed, Hinv|].
  intros now payload startDate endDate fetched.
  unfold CalendarSlice.selectAllEvents, fetched. simpl.
  rewrite map_map. split.
  - apply map_ext. intros event. apply indexById_lookup.
  - intros Hnd. apply map_ext_in. intros event Hin.
    apply indexById_NoDup; [exact Hnd | apply list_elem_of_In, Hin].
Qed.

(** X30.  A thunk of the slice, dispatched on any state with any facade:
    afterwards the slice is not loading; when the call of the facade
    resolved there is no error, and when it threw, the error is the fixed
    text of the thunk, whatever the cause was, and the events and their
    ids are those of before. *)
Theorem thunk_outcome {E : Type} (host : Facade.Host E)
    (api : Facade.GoogleCalendarAPI E) (thunk : CalendarSlice.Thunk)
    (state : CalendarSlice.CalendarState)
    (f : Facade.FacadeState (list Facade.CalendarEvent)) (w : Facade.World E) :
  let state' := (CalendarSlice.dispatch host api thunk state f w).1.1 in
  CalendarSlice.loading state' = false /\
  match CalendarSlice.facadeCall host api thunk f w with
  | Normal _ => CalendarSlice.error state' = None
  | Throw _ =>
    CalendarSlice.error state' = Some (CalendarSlice.fallback thunk) /\
    CalendarSlice.events state' = CalendarSlice.events state /\
    CalendarSlice.eventIds state' = CalendarSlice.eventIds state
  end.
Proof.
  destruct thunk as [startDate endDate|event|eventId updates|eventId];
    cbv zeta; unfold CalendarSlice.dispatch, CalendarSlice.facadeCall.
  - unfold CalendarSlice.fetchEvents. cbv zeta.
    pose proof (fetchEvents_throws host api
      {| Facade.startDate := startDate; Facade.endDate := endDate;
         Facade.maxResults := None; Facade.calendarId := None |} f w) as Hthrows.
    destruct (Facade.GoogleCalendarFacade.fetchEvents _ _ _ _ _) as [[[events|t] f'] w'];
      simpl in *; [auto|].
    rewrite (Hthrows t eq_refl). auto.
  - unfold CalendarSlice.createEvent. cbv zeta.
    pose proof (createEvent_throws host api event "primary" f w) as Hthrows.
    destruct (Facade.GoogleCalendarFacade.createEvent _ _ _ _ _ _) as [[[created|t] f'] w'];
      simpl in *; [auto|].
    rewrite (Hthrows t eq_refl). auto.
  - unfold CalendarSlice.updateEvent. cbv zeta.
    pose proof (updateEvent_throws host api eventId updates "primary" f w) as Hthrows.
    destruct (Facade.GoogleCalendarFacade.updateEvent _ _ _ _ _ _ _) as [[[updated|t] f'] w'];
      simpl in *; [auto|].
    rewrite (Hthrows t eq_refl). auto.
  - unfold CalendarSlice.deleteEvent. cbv zeta.
    pose proof (deleteEvent_throws host api eventId "primary" f w) as Hthrows.
    destruct (Facade.GoogleCalendarFacade.deleteEvent _ _ _ _ _ _) as [[[[]|t] f'] w'];
      simpl in *; [auto|].
    rewrite (Hthrows t eq_refl). auto.
Qed.
